(** * Financial analysis backend: the metrics engine and its access layer

    A shallow embedding of [routers/financial.py] and [models.py].

    - Python [float] is IEEE 754 binary64: Rocq's primitive [float], whose
      operations are the same correctly rounded ones.
    - Python [None]-able attributes are [option] values.
    - Exceptions are explicit: every function that can raise returns a
      [result].
    - The database session is an explicit state, a value of type [db], threaded
      through the endpoints. *)

From Stdlib Require Import ZArith List String Ascii Bool Lia.
From Stdlib Require Import Floats.
From Stdlib Require Import Sorting.Sorted Sorting.Permutation.
From Stdlib Require Import DecimalString.
Import ListNotations.

Set Implicit Arguments.

Local Open Scope bool_scope.
Local Open Scope string_scope.

(* ================================================================== *)
(** * Python values and exceptions *)
(* ================================================================== *)

(** The exceptions that the modelled code can raise. [HTTPException] carries
    its status code; [ValidationError] is pydantic's rejection of a request
    body (FastAPI answers 422 before the handler runs). *)
Inductive exn : Type :=
| ZeroDivisionError
| ValueError
| IntegrityError
| ValidationError
| HTTPException (status_code : Z).

Inductive result (A : Type) : Type :=
| Ok (a : A)
| Raise (e : exn).

Arguments Ok {A} a.
Arguments Raise {A} e.

Definition bind {A B : Type} (m : result A) (k : A -> result B) : result B :=
  match m with
  | Ok a => k a
  | Raise e => Raise e
  end.

Notation "x <- m ;; k" := (bind m (fun x => k))
  (at level 61, m at next level, right associativity).

Notation "' pat <- m ;; k" := (bind m (fun x => match x with pat => k end))
  (at level 61, pat pattern, m at next level, right associativity).

Definition raises {A : Type} (m : result A) : bool :=
  match m with
  | Ok _ => false
  | Raise _ => true
  end.

(** ** Floats *)

Module Py.

(** [bool(x)] for a float: false exactly for [0.0] and [-0.0] (a NaN is
    truthy). *)
Definition float_truthy (x : float) : bool := negb (x =? 0)%float.

(** [bool(x)] for an attribute that is [None] or a float. *)
Definition truthy (x : option float) : bool :=
  match x with
  | None => false
  | Some v => float_truthy v
  end.

(** [x or y]: [x] when it is truthy, else [y]. *)
Definition or_ (x y : option float) : option float :=
  if truthy x then x else y.

(** [float(x or 0)]: the attribute, with [None] and both zeros read as
    [0.0]. *)
Definition float_or_0 (x : option float) : float :=
  match x with
  | Some v => if float_truthy v then v else 0%float
  | None => 0%float
  end.

(** [a / b] on floats raises [ZeroDivisionError] when [b == 0]. *)
Definition truediv (a b : float) : result float :=
  if (b =? 0)%float then Raise ZeroDivisionError else Ok (a / b)%float.

(** Rounding of [n / d] ([d > 0]) to the nearest integer, ties to even. *)
Definition div_half_even (n d : Z) : Z :=
  let q := (n / d)%Z in
  let r := (n mod d)%Z in
  match (2 * r ?= d)%Z with
  | Lt => q
  | Gt => (q + 1)%Z
  | Eq => if Z.even q then q else (q + 1)%Z
  end.

(** The float nearest to the integer [z], for [|z| < 2^53] (where it is
    exact). *)
Definition float_of_Z (z : Z) : float :=
  SF2Prim (binary_normalize prec emax z 0 false).

(** [round(x, 2)]: the float nearest to the exact value of [x] rounded
    half-even to two decimals; infinities, NaN and zeros are returned as
    they are.  A finite [x = m * 2^e] with [e >= 0] is an integer, and one of
    magnitude [2^46] or more has neighbours further than [0.005] away: both
    round to themselves. *)
Definition round2 (x : float) : float :=
  match Prim2SF x with
  | S754_finite s m e =>
      if (0 <=? e)%Z then x
      else
        let q := div_half_even (100 * Z.pos m) (2 ^ (- e)) in
        if (2 ^ 53 <=? q)%Z then x
        else
          let r := (float_of_Z q / 100)%float in
          if s then (- r)%float else r
  | _ => x
  end.

(** ** Text *)

(** Strings are sequences of code points below 256.  [isspace] is the set
    that [int] skips around a number: the ASCII blanks and separators, NEL
    and the no-break space. *)
Definition isspace (c : ascii) : bool :=
  let n := N_of_ascii c in
  ((9 <=? n) && (n <=? 13) || (28 <=? n) && (n <=? 32)
   || (n =? 133) || (n =? 160))%N.

Definition digit_value (c : ascii) : option Z :=
  let n := N_of_ascii c in
  if ((48 <=? n) && (n <=? 57))%N then Some (Z.of_N n - 48)%Z else None.

Fixpoint skip_spaces (l : list ascii) : list ascii :=
  match l with
  | c :: l' => if isspace c then skip_spaces l' else l
  | [] => []
  end.

(** The digits of a decimal literal, single underscores allowed between
    them: the value read, the number of digits, and what follows.  [None]
    when an underscore is doubled or is not followed by a digit. *)
Fixpoint scan_digits (acc ndigits : Z) (after_underscore : bool)
  (l : list ascii) : option (Z * Z * list ascii) :=
  match l with
  | c :: l' =>
      match digit_value c with
      | Some d => scan_digits (10 * acc + d)%Z (ndigits + 1)%Z false l'
      | None =>
          if (c =? "_")%char then
            if after_underscore then None else scan_digits acc ndigits true l'
          else if after_underscore then None else Some (acc, ndigits, l)
      end
  | [] => if after_underscore then None else Some (acc, ndigits, [])
  end.

(** The default limit on the digits of a decimal string that [int]
    converts. *)
Definition int_max_str_digits : Z := 4300.

(** [int(s)] for a string, base ten: blanks, an optional sign, digits, blanks.
    Anything else, and a number of more digits than the limit, raises
    [ValueError]. *)
Definition int (s : string) : result Z :=
  let l := skip_spaces (list_ascii_of_string s) in
  let '(negative, l) :=
    match l with
    | "+"%char :: l' => (false, l')
    | "-"%char :: l' => (true, l')
    | _ => (false, l)
    end in
  match l with
  | "_"%char :: _ => Raise ValueError
  | _ =>
      match scan_digits 0 0 false l with
      | Some (v, ndigits, rest) =>
          if (ndigits =? 0)%Z || (int_max_str_digits <? ndigits)%Z then
            Raise ValueError
          else
            match skip_spaces rest with
            | [] => Ok (if negative then (- v)%Z else v)
            | _ :: _ => Raise ValueError
            end
      | None => Raise ValueError
      end
  end.

(** [str(n)] for an integer: its decimal digits, with a minus sign when
    negative. *)
Definition str (n : Z) : string := NilZero.string_of_int (Z.to_int n).

(** [a <= b] on strings: lexicographic on code points. *)
Definition str_le (a b : string) : bool := String.leb a b.

(** [sorted(l, key=key)] with string keys: ascending and stable (elements
    with equal keys keep their order).  The stable sort of a list is unique;
    it is computed here by insertion from the right. *)
Section Sorted.
Variable A : Type.
Variable key : A -> string.

Fixpoint insert (x : A) (l : list A) : list A :=
  match l with
  | [] => [x]
  | y :: l' => if str_le (key x) (key y) then x :: l else y :: insert x l'
  end.

Definition sorted (l : list A) : list A := fold_right insert [] l.
End Sorted.

End Py.

(* ================================================================== *)
(** * The percentage change helper *)
(* ================================================================== *)

(** [calc_percent_change], defined three times in the source with the same
    text (in [calculate_financial_metrics], [create_financial_data] and
    [update_financial_data]):
<<
    def calc_percent_change(current, previous):
        if previous and previous != 0:
            return round((current - previous) / abs(previous) * 100, 2)
        return None
>>
    [previous] may be [None]; [previous != 0] is the negation of float
    equality with zero. *)
Definition calc_percent_change (current : float) (previous : option float)
  : result (option float) :=
  match previous with
  | Some p =>
      if Py.float_truthy p && negb (p =? 0)%float then
        q <- Py.truediv (current - p)%float (abs p) ;;
        Ok (Some (Py.round2 (q * 100)%float))
      else Ok None
  | None => Ok None
  end.

(* ================================================================== *)
(** * Data model ([models.py]) *)
(* ================================================================== *)

(** A row of [companies]. *)
Module Company.
Record t : Type := mk {
  id : Z;
  name : string;
  created_by : option Z
}.
End Company.

(** A row of [financial_data].  Every [Float] column reads as a float or
    [None]; the read path itself guards each of them against [None]. *)
Module FinancialData.
Record t : Type := mk {
  id : Z;
  company_id : Z;
  fiscal_year : string;
  prepared_by : option string;
  notes : option string;
  (* Income Accounts Analysis *)
  total_revenue : option float;
  revenue_yoy_change : option float;
  gross_profit : option float;
  gross_profit_margin : option float;
  gross_profit_yoy_change : option float;
  operating_profit : option float;
  operating_profit_margin : option float;
  operating_profit_yoy_change : option float;
  net_profit : option float;
  net_profit_margin : option float;
  net_profit_yoy_change : option float;
  number_of_shares : option float;
  price_high : option float;
  price_low : option float;
  eps : option float;
  earning_power : option float;
  free_cash_flow : option float;
  free_cash_flow_yoy_change : option float;
  (* Assets Accounts Analysis *)
  return_on_equity : option float;
  return_on_assets : option float;
  return_on_invested_capital : option float;
  book_value : option float;
  book_value_per_share : option float;
  book_value_yoy_change : option float;
  current_ratio : option float;
  (* Legacy fields *)
  total_assets : option float;
  total_liabilities : option float;
  shareholders_equity : option float;
  current_assets : option float;
  current_liabilities : option float;
  (* Dividends Accounts Analysis *)
  dividends_per_share : option float;
  dividend_rate : option float
}.

(** The pair under [UniqueConstraint('company_id', 'fiscal_year')]. *)
Definition has_key (cid : Z) (fy : string) (r : t) : bool :=
  (company_id r =? cid)%Z && (fiscal_year r =? fy)%string.

End FinancialData.

(* ================================================================== *)
(** * Request and response schemas ([routers/financial.py]) *)
(* ================================================================== *)

(** [FinancialDataCreate] (the fields of [FinancialDataBase]), as a request
    body that has the declared types. *)
Module FinancialDataCreate.
Record t : Type := mk {
  fiscal_year : string;
  prepared_by : option string;
  notes : option string;
  total_revenue : float;
  gross_profit : float;
  gross_profit_margin : option float;
  operating_profit : float;
  operating_profit_margin : option float;
  net_profit : float;
  net_profit_margin : option float;
  number_of_shares : float;
  eps : float;
  price_high : float;
  price_low : float;
  earning_power : option float;
  free_cash_flow : float;
  return_on_equity : option float;
  return_on_assets : option float;
  return_on_invested_capital : option float;
  book_value : option float;
  book_value_per_share : option float;
  current_ratio : option float;
  dividends_per_share : float;
  dividend_rate : float
}.

(** [validate_fiscal_year]: [int(v)] must succeed and lie in 1900..2100.  The
    [ValueError] raised for the range is caught by the same [except] and
    raised again, so both failures are a [ValueError]. *)
Definition validate_fiscal_year (v : string) : result string :=
  match Py.int v with
  | Ok year =>
      if (year <? 1900)%Z || (2100 <? year)%Z then Raise ValueError
      else Ok v
  | Raise _ => Raise ValueError
  end.

(** [Field(..., gt=0)]: the value must be greater than zero. *)
Definition gt0 (v : float) : bool := (0 <? v)%float.

(** Validation of a request body: any failing field rejects the body with
    a [ValidationError]. *)
Definition validate (body : t) : result t :=
  match validate_fiscal_year (fiscal_year body) with
  | Raise _ => Raise ValidationError
  | Ok _ =>
      if gt0 (total_revenue body) && gt0 (number_of_shares body)
      then Ok body else Raise ValidationError
  end.

End FinancialDataCreate.

(** The [yoy] dictionary of a dashboard metric: its eight keys. *)
Module Yoy.
Record t : Type := mk {
  revenue : option float;
  gross_profit : option float;
  operating_profit : option float;
  net_profit : option float;
  free_cash_flow : option float;
  book_value : option float;
  roa : option float;
  roe : option float
}.
End Yoy.

(** The dictionary built for each year by [calculate_financial_metrics]
    (the keys of [FinancialMetric]). *)
Module Metric.
Record t : Type := mk {
  year : string;
  revenue : float;
  revenue_yoy_change : option float;
  gross_profit : float;
  gross_profit_margin : option float;
  gross_profit_yoy_change : option float;
  operating_profit : float;
  operating_profit_margin : option float;
  operating_profit_yoy_change : option float;
  net_profit : float;
  net_profit_margin : option float;
  net_profit_yoy_change : option float;
  free_cash_flow : float;
  free_cash_flow_yoy_change : option float;
  number_of_shares : float;
  return_on_equity : option float;
  return_on_assets : option float;
  return_on_invested_capital : option float;
  book_value : option float;
  book_value_per_share : option float;
  book_value_yoy_change : option float;
  current_ratio : option float;
  eps : option float;
  price_high : option float;
  price_low : option float;
  earning_power : option float;
  dividends_per_share : option float;
  dividend_rate : option float;
  yoy : Yoy.t
}.
End Metric.

Module DashboardResponse.
Record t : Type := mk {
  company : string;
  metrics : list Metric.t
}.
End DashboardResponse.

(* ================================================================== *)
(** * The metrics engine, read path *)
(* ================================================================== *)

(** The margin rule of the read path, for one profit figure:
<<
    if gross_profit_margin is None and total_revenue:
        gross_profit_margin = gross_profit / total_revenue
>> *)
Definition read_margin (margin : option float) (profit total_revenue : float)
  : result (option float) :=
  match margin with
  | None =>
      if Py.float_truthy total_revenue then
        q <- Py.truediv profit total_revenue ;; Ok (Some q)
      else Ok None
  | Some _ => Ok margin
  end.

(** The ratio rule of the read path, for [return_on_equity] and
    [return_on_assets]:
<<
    if return_on_equity is None and net_profit and getattr(data, 'shareholders_equity', 0):
        shareholders_equity = float(getattr(data, 'shareholders_equity', 0) or 0)
        return_on_equity = net_profit / shareholders_equity if shareholders_equity else 0
>>
    and, with [shareholders_equity] over [number_of_shares], for
    [book_value_per_share] (see [read_book_value_per_share]).  The literal
    [0] of the conditional expression is written as the float zero. *)
Definition read_ratio (stored : option float) (net_profit : float)
  (denominator : option float) : result (option float) :=
  match stored with
  | None =>
      if Py.float_truthy net_profit && Py.truthy denominator then
        let d := Py.float_or_0 denominator in
        if Py.float_truthy d then
          q <- Py.truediv net_profit d ;; Ok (Some q)
        else Ok (Some 0%float)
      else Ok None
  | Some _ => Ok stored
  end.

(**
<<
    if book_value_per_share is None and getattr(data, 'shareholders_equity', 0) and number_of_shares:
        shareholders_equity = float(getattr(data, 'shareholders_equity', 0) or 0)
        book_value_per_share = shareholders_equity / number_of_shares if number_of_shares else 0
>> *)
Definition read_book_value_per_share (stored shareholders_equity : option float)
  (number_of_shares : float) : result (option float) :=
  match stored with
  | None =>
      if Py.truthy shareholders_equity && Py.float_truthy number_of_shares then
        let se := Py.float_or_0 shareholders_equity in
        if Py.float_truthy number_of_shares then
          q <- Py.truediv se number_of_shares ;; Ok (Some q)
        else Ok (Some 0%float)
      else Ok None
  | Some _ => Ok stored
  end.

(** One of the five YoY entries recomputed from float columns:
<<
    if revenue_yoy_change is None:
        prev_total_revenue = float(getattr(prev_year_data, 'total_revenue', 0) or 0)
        yoy["revenue"] = calc_percent_change(total_revenue, prev_total_revenue)
>> *)
Definition read_yoy (stored : option float) (current : float)
  (prev_column : option float) : result (option float) :=
  match stored with
  | None => calc_percent_change current (Some (Py.float_or_0 prev_column))
  | Some _ => Ok stored
  end.

(**
<<
    if book_value_yoy_change is None and book_value is not None:
        prev_book_value = getattr(prev_year_data, 'book_value', None)
        if prev_book_value:
            yoy["book_value"] = calc_percent_change(book_value, prev_book_value)
>> *)
Definition read_yoy_book_value (stored book_value prev_book_value : option float)
  : result (option float) :=
  match stored, book_value with
  | None, Some bv =>
      if Py.truthy prev_book_value then calc_percent_change bv prev_book_value
      else Ok stored
  | _, _ => Ok stored
  end.

(** The YoY of a ratio, reported under [roa] and [roe] (initially [None]):
<<
    if return_on_assets is not None:
        prev_return_on_assets = getattr(prev_year_data, 'return_on_assets', None)
        if prev_return_on_assets:
            yoy["roa"] = calc_percent_change(return_on_assets, prev_return_on_assets)
>> *)
Definition read_yoy_ratio (ratio prev_ratio : option float)
  : result (option float) :=
  match ratio with
  | Some r =>
      if Py.truthy prev_ratio then calc_percent_change r prev_ratio
      else Ok None
  | None => Ok None
  end.

(** The body of the loop of [calculate_financial_metrics] for the record
    [data], with [prev_year_data] the record of the preceding iteration
    ([None] on the first).  A mapped object is always truthy, so
    [if prev_year_data:] tests for [None] only.  The attributes [eps_high]
    and [eps_low] are not columns of the model: [getattr] gives their default
    [None]. *)
Definition metric_of (prev_year_data : option FinancialData.t)
  (data : FinancialData.t) : result Metric.t :=
  (* Get values, handling None values *)
  let total_revenue := Py.float_or_0 (FinancialData.total_revenue data) in
  let revenue_yoy_change := FinancialData.revenue_yoy_change data in
  let gross_profit := Py.float_or_0 (FinancialData.gross_profit data) in
  let gross_profit_margin := FinancialData.gross_profit_margin data in
  let gross_profit_yoy_change := FinancialData.gross_profit_yoy_change data in
  let operating_profit := Py.float_or_0 (FinancialData.operating_profit data) in
  let operating_profit_margin := FinancialData.operating_profit_margin data in
  let operating_profit_yoy_change :=
    FinancialData.operating_profit_yoy_change data in
  let net_profit :=
    Py.float_or_0 (Py.or_ (FinancialData.net_profit data)
                          (FinancialData.net_profit data)) in
  let net_profit_margin :=
    Py.or_ (FinancialData.net_profit_margin data)
           (FinancialData.net_profit_margin data) in
  let net_profit_yoy_change :=
    Py.or_ (FinancialData.net_profit_yoy_change data)
           (FinancialData.net_profit_yoy_change data) in
  let number_of_shares := Py.float_or_0 (FinancialData.number_of_shares data) in
  let free_cash_flow := Py.float_or_0 (FinancialData.free_cash_flow data) in
  let free_cash_flow_yoy_change :=
    FinancialData.free_cash_flow_yoy_change data in
  let eps := FinancialData.eps data in
  let price_high := Py.or_ (FinancialData.price_high data) None in
  let price_low := Py.or_ (FinancialData.price_low data) None in
  let earning_power := FinancialData.earning_power data in
  let dividends_per_share := FinancialData.dividends_per_share data in
  let dividend_rate := FinancialData.dividend_rate data in
  (* Get asset account values *)
  let return_on_equity := FinancialData.return_on_equity data in
  let return_on_assets := FinancialData.return_on_assets data in
  let return_on_invested_capital :=
    FinancialData.return_on_invested_capital data in
  let book_value := FinancialData.book_value data in
  let book_value_per_share := FinancialData.book_value_per_share data in
  let book_value_yoy_change := FinancialData.book_value_yoy_change data in
  let current_ratio := FinancialData.current_ratio data in
  (* Calculate margins if not provided *)
  gross_profit_margin <-
    read_margin gross_profit_margin gross_profit total_revenue ;;
  operating_profit_margin <-
    read_margin operating_profit_margin operating_profit total_revenue ;;
  net_profit_margin <-
    read_margin net_profit_margin net_profit total_revenue ;;
  (* Calculate ratios if not provided *)
  return_on_equity <-
    read_ratio return_on_equity net_profit
               (FinancialData.shareholders_equity data) ;;
  return_on_assets <-
    read_ratio return_on_assets net_profit (FinancialData.total_assets data) ;;
  book_value_per_share <-
    read_book_value_per_share book_value_per_share
      (FinancialData.shareholders_equity data) number_of_shares ;;
  (* Initialize YoY dictionary *)
  let yoy :=
    {| Yoy.revenue := revenue_yoy_change;
       Yoy.gross_profit := gross_profit_yoy_change;
       Yoy.operating_profit := operating_profit_yoy_change;
       Yoy.net_profit := net_profit_yoy_change;
       Yoy.free_cash_flow := free_cash_flow_yoy_change;
       Yoy.book_value := book_value_yoy_change;
       Yoy.roa := None;
       Yoy.roe := None |} in
  (* Calculate YoY changes if previous year data exists and not already
     provided *)
  yoy <-
    match prev_year_data with
    | Some prev =>
        y_revenue <-
          read_yoy revenue_yoy_change total_revenue
                   (FinancialData.total_revenue prev) ;;
        y_gross_profit <-
          read_yoy gross_profit_yoy_change gross_profit
                   (FinancialData.gross_profit prev) ;;
        y_operating_profit <-
          read_yoy operating_profit_yoy_change operating_profit
                   (FinancialData.operating_profit prev) ;;
        y_net_profit <-
          read_yoy net_profit_yoy_change net_profit
                   (Py.or_ (FinancialData.net_profit prev)
                           (FinancialData.net_profit prev)) ;;
        y_free_cash_flow <-
          read_yoy free_cash_flow_yoy_change free_cash_flow
                   (FinancialData.free_cash_flow prev) ;;
        y_book_value <-
          read_yoy_book_value book_value_yoy_change book_value
                              (FinancialData.book_value prev) ;;
        (* YoY for calculated ratios *)
        y_roa <-
          read_yoy_ratio return_on_assets
                         (FinancialData.return_on_assets prev) ;;
        y_roe <-
          read_yoy_ratio return_on_equity
                         (FinancialData.return_on_equity prev) ;;
        Ok {| Yoy.revenue := y_revenue;
              Yoy.gross_profit := y_gross_profit;
              Yoy.operating_profit := y_operating_profit;
              Yoy.net_profit := y_net_profit;
              Yoy.free_cash_flow := y_free_cash_flow;
              Yoy.book_value := y_book_value;
              Yoy.roa := y_roa;
              Yoy.roe := y_roe |}
    | None => Ok yoy
    end ;;
  (* Create metric object *)
  Ok {| Metric.year := FinancialData.fiscal_year data;
        Metric.revenue := total_revenue;
        Metric.revenue_yoy_change := revenue_yoy_change;
        Metric.gross_profit := gross_profit;
        Metric.gross_profit_margin := gross_profit_margin;
        Metric.gross_profit_yoy_change := gross_profit_yoy_change;
        Metric.operating_profit := operating_profit;
        Metric.operating_profit_margin := operating_profit_margin;
        Metric.operating_profit_yoy_change := operating_profit_yoy_change;
        Metric.net_profit := net_profit;
        Metric.net_profit_margin := net_profit_margin;
        Metric.net_profit_yoy_change := net_profit_yoy_change;
        Metric.free_cash_flow := free_cash_flow;
        Metric.free_cash_flow_yoy_change := free_cash_flow_yoy_change;
        Metric.number_of_shares := number_of_shares;
        Metric.return_on_equity := return_on_equity;
        Metric.return_on_assets := return_on_assets;
        Metric.return_on_invested_capital := return_on_invested_capital;
        Metric.book_value := book_value;
        Metric.book_value_per_share := book_value_per_share;
        Metric.book_value_yoy_change := book_value_yoy_change;
        Metric.current_ratio := current_ratio;
        Metric.eps := eps;
        Metric.price_high := price_high;
        Metric.price_low := price_low;
        Metric.earning_power := earning_power;
        Metric.dividends_per_share := dividends_per_share;
        Metric.dividend_rate := dividend_rate;
        Metric.yoy := yoy |}.

(** The loop: [prev_year_data] starts as [None] and is the record just
    handled afterwards. *)
Fixpoint metrics_loop (prev_year_data : option FinancialData.t)
  (sorted_data : list FinancialData.t) : result (list Metric.t) :=
  match sorted_data with
  | [] => Ok []
  | data :: rest =>
      metric <- metric_of prev_year_data data ;;
      metrics <- metrics_loop (Some data) rest ;;
      Ok (metric :: metrics)
  end.

(** [calculate_financial_metrics].  [str(x.fiscal_year)] of a string is the
    string. *)
Definition calculate_financial_metrics
  (financial_data_list : list FinancialData.t) (company_name : string)
  : result DashboardResponse.t :=
  match financial_data_list with
  | [] => Ok {| DashboardResponse.company := company_name;
                DashboardResponse.metrics := [] |}
  | _ :: _ =>
      let sorted_data :=
        Py.sorted FinancialData.fiscal_year financial_data_list in
      metrics <- metrics_loop None sorted_data ;;
      Ok {| DashboardResponse.company := company_name;
            DashboardResponse.metrics := metrics |}
  end.

(* ================================================================== *)
(** * The record store *)
(* ================================================================== *)

(** The two tables, in row order.  A query's [first()] is the first row in
    that order that passes the filter. *)
Module Db.
Record t : Type := mk {
  companies : list Company.t;
  financial_data : list FinancialData.t
}.

Definition empty : t := mk [] [].

(** [db.query(Company).filter(Company.id == company_id).first()] *)
Definition company_by_id (s : t) (company_id : Z) : option Company.t :=
  find (fun c => (Company.id c =? company_id)%Z) (companies s).

(** [db.query(FinancialData).filter(FinancialData.company_id == company_id,
    FinancialData.fiscal_year == fiscal_year).first()] *)
Definition financial_data_by_key (s : t) (company_id : Z)
  (fiscal_year : string) : option FinancialData.t :=
  find (FinancialData.has_key company_id fiscal_year) (financial_data s).

(** [db.query(FinancialData).filter(FinancialData.company_id == company_id).all()] *)
Definition financial_data_of (s : t) (company_id : Z) : list FinancialData.t :=
  filter (fun r => (FinancialData.company_id r =? company_id)%Z)
         (financial_data s).

(** The primary key given to a new row: one that no row of the table has,
    here one more than the largest. *)
Definition next_id (ids : list Z) : Z := 1 + fold_right Z.max 0%Z ids.

(** A mapped object fetched by [first()] and then assigned to is written
    back, on commit, to the row it came from: the first row that passes the
    filter is replaced, the others and the order are kept. *)
Fixpoint update_first {A : Type} (p : A -> bool) (new : A) (l : list A)
  : list A :=
  match l with
  | [] => []
  | x :: l' => if p x then new :: l' else x :: update_first p new l'
  end.

(** [db.delete(obj)] of the object fetched by [first()]. *)
Fixpoint delete_first {A : Type} (p : A -> bool) (l : list A) : list A :=
  match l with
  | [] => []
  | x :: l' => if p x then l' else x :: delete_first p l'
  end.

(** [db.add(row); db.commit()] on [financial_data]: the row is stored under
    a new primary key ([row] is the object, awaiting its [id]); the unique
    constraint [uix_company_fiscal_year] refuses a second row with the same
    pair. *)
Definition add_financial_data (s : t) (row : Z -> FinancialData.t)
  : result (t * FinancialData.t) :=
  let stored := row (next_id (map FinancialData.id (financial_data s))) in
  if existsb (FinancialData.has_key (FinancialData.company_id stored)
                                    (FinancialData.fiscal_year stored))
             (financial_data s)
  then Raise IntegrityError
  else Ok (mk (companies s) (financial_data s ++ [stored]), stored).

(** [db.add(company); db.commit()] on [companies], whose [name] is unique. *)
Definition add_company (s : t) (name : string) (created_by : option Z)
  : result (t * Company.t) :=
  if existsb (fun c => (Company.name c =? name)%string) (companies s)
  then Raise IntegrityError
  else
    let stored :=
      {| Company.id := next_id (map Company.id (companies s));
         Company.name := name;
         Company.created_by := created_by |} in
    Ok (mk (companies s ++ [stored]) (financial_data s), stored).

End Db.

(* ================================================================== *)
(** * The metrics engine, write path *)
(* ================================================================== *)

(** The nine calculated columns. *)
Module Calculated.
Record t : Type := mk {
  gross_profit_margin : option float;
  operating_profit_margin : option float;
  net_profit_margin : option float;
  revenue_yoy_change : option float;
  gross_profit_yoy_change : option float;
  operating_profit_yoy_change : option float;
  net_profit_yoy_change : option float;
  free_cash_flow_yoy_change : option float;
  book_value_yoy_change : option float
}.
End Calculated.

(**
<<
    if financial_data.total_revenue > 0:
        gross_profit_margin = financial_data.gross_profit / financial_data.total_revenue
        operating_profit_margin = financial_data.operating_profit / financial_data.total_revenue
        net_profit_margin = financial_data.net_profit / financial_data.total_revenue
>> *)
Definition write_margins (financial_data : FinancialDataCreate.t)
  : result (option float * option float * option float) :=
  let total_revenue := FinancialDataCreate.total_revenue financial_data in
  if (0 <? total_revenue)%float then
    g <- Py.truediv (FinancialDataCreate.gross_profit financial_data)
                    total_revenue ;;
    o <- Py.truediv (FinancialDataCreate.operating_profit financial_data)
                    total_revenue ;;
    n <- Py.truediv (FinancialDataCreate.net_profit financial_data)
                    total_revenue ;;
    Ok (Some g, Some o, Some n)
  else Ok (None, None, None).

(** The year looked up for the previous record:
    [str(int(fiscal_year) - 1)]. *)
Definition previous_year (fiscal_year : string) : result string :=
  year <- Py.int fiscal_year ;; Ok (Py.str (year - 1)).

(** The YoY columns from the payload and the record found for the previous
    year, if any:
<<
    if previous_data:
        revenue_yoy_change = calc_percent_change(
            financial_data.total_revenue, previous_data.total_revenue)
        ...
        if financial_data.book_value is not None and previous_data.book_value is not None:
            book_value_yoy_change = calc_percent_change(
                financial_data.book_value, previous_data.book_value)
>> *)
Definition write_yoy (financial_data : FinancialDataCreate.t)
  (previous_data : option FinancialData.t)
  : result (option float * option float * option float
            * option float * option float * option float) :=
  match previous_data with
  | Some previous_data =>
      revenue <-
        calc_percent_change (FinancialDataCreate.total_revenue financial_data)
                            (FinancialData.total_revenue previous_data) ;;
      gross_profit <-
        calc_percent_change (FinancialDataCreate.gross_profit financial_data)
                            (FinancialData.gross_profit previous_data) ;;
      operating_profit <-
        calc_percent_change
          (FinancialDataCreate.operating_profit financial_data)
          (FinancialData.operating_profit previous_data) ;;
      net_profit <-
        calc_percent_change (FinancialDataCreate.net_profit financial_data)
                            (FinancialData.net_profit previous_data) ;;
      free_cash_flow <-
        calc_percent_change (FinancialDataCreate.free_cash_flow financial_data)
                            (FinancialData.free_cash_flow previous_data) ;;
      book_value <-
        match FinancialDataCreate.book_value financial_data,
              FinancialData.book_value previous_data with
        | Some bv, Some prev_bv => calc_percent_change bv (Some prev_bv)
        | _, _ => Ok None
        end ;;
      Ok (revenue, gross_profit, operating_profit, net_profit,
          free_cash_flow, book_value)
  | None => Ok (None, None, None, None, None, None)
  end.

(** The calculation shared, as repeated text, by [create_financial_data]
    (with the payload's [fiscal_year]) and [update_financial_data] (with the
    path's): margins, the previous year's record, YoY changes. *)
Definition calculate (s : Db.t) (company_id : Z) (fiscal_year : string)
  (financial_data : FinancialDataCreate.t) : result Calculated.t :=
  '(gross_profit_margin, operating_profit_margin, net_profit_margin) <-
    write_margins financial_data ;;
  (* Get previous year's data for YoY calculations *)
  previous_year <- previous_year fiscal_year ;;
  let previous_data := Db.financial_data_by_key s company_id previous_year in
  '(revenue_yoy_change, gross_profit_yoy_change, operating_profit_yoy_change,
    net_profit_yoy_change, free_cash_flow_yoy_change, book_value_yoy_change) <-
    write_yoy financial_data previous_data ;;
  Ok {| Calculated.gross_profit_margin := gross_profit_margin;
        Calculated.operating_profit_margin := operating_profit_margin;
        Calculated.net_profit_margin := net_profit_margin;
        Calculated.revenue_yoy_change := revenue_yoy_change;
        Calculated.gross_profit_yoy_change := gross_profit_yoy_change;
        Calculated.operating_profit_yoy_change := operating_profit_yoy_change;
        Calculated.net_profit_yoy_change := net_profit_yoy_change;
        Calculated.free_cash_flow_yoy_change := free_cash_flow_yoy_change;
        Calculated.book_value_yoy_change := book_value_yoy_change |}.

(* ================================================================== *)
(** * The access layer *)
(* ================================================================== *)

(** The loop that copies the payload onto a mapped object,
<<
    for key, value in financial_data.dict().items():
        setattr(existing_data, key, value)
>>
    and, in [update_financial_data], the same loop under
    [if key != "fiscal_year"] ([keep_fiscal_year]).  The keys are the fields of
    [FinancialDataCreate]; the other attributes of the object are not
    touched. *)
Definition setattr_items (keep_fiscal_year : bool)
  (financial_data : FinancialDataCreate.t) (obj : FinancialData.t)
  : FinancialData.t :=
  {| FinancialData.id := FinancialData.id obj;
     FinancialData.company_id := FinancialData.company_id obj;
     FinancialData.fiscal_year :=
       if keep_fiscal_year then FinancialData.fiscal_year obj
       else FinancialDataCreate.fiscal_year financial_data;
     FinancialData.prepared_by := FinancialDataCreate.prepared_by financial_data;
     FinancialData.notes := FinancialDataCreate.notes financial_data;
     FinancialData.total_revenue :=
       Some (FinancialDataCreate.total_revenue financial_data);
     FinancialData.revenue_yoy_change := FinancialData.revenue_yoy_change obj;
     FinancialData.gross_profit :=
       Some (FinancialDataCreate.gross_profit financial_data);
     FinancialData.gross_profit_margin :=
       FinancialDataCreate.gross_profit_margin financial_data;
     FinancialData.gross_profit_yoy_change :=
       FinancialData.gross_profit_yoy_change obj;
     FinancialData.operating_profit :=
       Some (FinancialDataCreate.operating_profit financial_data);
     FinancialData.operating_profit_margin :=
       FinancialDataCreate.operating_profit_margin financial_data;
     FinancialData.operating_profit_yoy_change :=
       FinancialData.operating_profit_yoy_change obj;
     FinancialData.net_profit :=
       Some (FinancialDataCreate.net_profit financial_data);
     FinancialData.net_profit_margin :=
       FinancialDataCreate.net_profit_margin financial_data;
     FinancialData.net_profit_yoy_change :=
       FinancialData.net_profit_yoy_change obj;
     FinancialData.number_of_shares :=
       Some (FinancialDataCreate.number_of_shares financial_data);
     FinancialData.price_high :=
       Some (FinancialDataCreate.price_high financial_data);
     FinancialData.price_low :=
       Some (FinancialDataCreate.price_low financial_data);
     FinancialData.eps := Some (FinancialDataCreate.eps financial_data);
     FinancialData.earning_power :=
       FinancialDataCreate.earning_power financial_data;
     FinancialData.free_cash_flow :=
       Some (FinancialDataCreate.free_cash_flow financial_data);
     FinancialData.free_cash_flow_yoy_change :=
       FinancialData.free_cash_flow_yoy_change obj;
     FinancialData.return_on_equity :=
       FinancialDataCreate.return_on_equity financial_data;
     FinancialData.return_on_assets :=
       FinancialDataCreate.return_on_assets financial_data;
     FinancialData.return_on_invested_capital :=
       FinancialDataCreate.return_on_invested_capital financial_data;
     FinancialData.book_value := FinancialDataCreate.book_value financial_data;
     FinancialData.book_value_per_share :=
       FinancialDataCreate.book_value_per_share financial_data;
     FinancialData.book_value_yoy_change :=
       FinancialData.book_value_yoy_change obj;
     FinancialData.current_ratio :=
       FinancialDataCreate.current_ratio financial_data;
     FinancialData.total_assets := FinancialData.total_assets obj;
     FinancialData.total_liabilities := FinancialData.total_liabilities obj;
     FinancialData.shareholders_equity := FinancialData.shareholders_equity obj;
     FinancialData.current_assets := FinancialData.current_assets obj;
     FinancialData.current_liabilities := FinancialData.current_liabilities obj;
     FinancialData.dividends_per_share :=
       Some (FinancialDataCreate.dividends_per_share financial_data);
     FinancialData.dividend_rate :=
       Some (FinancialDataCreate.dividend_rate financial_data) |}.

(** The nine assignments under [# Update calculated fields]. *)
Definition set_calculated (c : Calculated.t) (obj : FinancialData.t)
  : FinancialData.t :=
  {| FinancialData.id := FinancialData.id obj;
     FinancialData.company_id := FinancialData.company_id obj;
     FinancialData.fiscal_year := FinancialData.fiscal_year obj;
     FinancialData.prepared_by := FinancialData.prepared_by obj;
     FinancialData.notes := FinancialData.notes obj;
     FinancialData.total_revenue := FinancialData.total_revenue obj;
     FinancialData.revenue_yoy_change := Calculated.revenue_yoy_change c;
     FinancialData.gross_profit := FinancialData.gross_profit obj;
     FinancialData.gross_profit_margin := Calculated.gross_profit_margin c;
     FinancialData.gross_profit_yoy_change :=
       Calculated.gross_profit_yoy_change c;
     FinancialData.operating_profit := FinancialData.operating_profit obj;
     FinancialData.operating_profit_margin :=
       Calculated.operating_profit_margin c;
     FinancialData.operating_profit_yoy_change :=
       Calculated.operating_profit_yoy_change c;
     FinancialData.net_profit := FinancialData.net_profit obj;
     FinancialData.net_profit_margin := Calculated.net_profit_margin c;
     FinancialData.net_profit_yoy_change := Calculated.net_profit_yoy_change c;
     FinancialData.number_of_shares := FinancialData.number_of_shares obj;
     FinancialData.price_high := FinancialData.price_high obj;
     FinancialData.price_low := FinancialData.price_low obj;
     FinancialData.eps := FinancialData.eps obj;
     FinancialData.earning_power := FinancialData.earning_power obj;
     FinancialData.free_cash_flow := FinancialData.free_cash_flow obj;
     FinancialData.free_cash_flow_yoy_change :=
       Calculated.free_cash_flow_yoy_change c;
     FinancialData.return_on_equity := FinancialData.return_on_equity obj;
     FinancialData.return_on_assets := FinancialData.return_on_assets obj;
     FinancialData.return_on_invested_capital :=
       FinancialData.return_on_invested_capital obj;
     FinancialData.book_value := FinancialData.book_value obj;
     FinancialData.book_value_per_share :=
       FinancialData.book_value_per_share obj;
     FinancialData.book_value_yoy_change := Calculated.book_value_yoy_change c;
     FinancialData.current_ratio := FinancialData.current_ratio obj;
     FinancialData.total_assets := FinancialData.total_assets obj;
     FinancialData.total_liabilities := FinancialData.total_liabilities obj;
     FinancialData.shareholders_equity := FinancialData.shareholders_equity obj;
     FinancialData.current_assets := FinancialData.current_assets obj;
     FinancialData.current_liabilities := FinancialData.current_liabilities obj;
     FinancialData.dividends_per_share := FinancialData.dividends_per_share obj;
     FinancialData.dividend_rate := FinancialData.dividend_rate obj |}.

(** The object built by [FinancialData(company_id=..., ...)] in
    [create_financial_data]; the columns it does not name are [None]. *)
Definition new_financial_data (company_id : Z)
  (financial_data : FinancialDataCreate.t) (c : Calculated.t) (id : Z)
  : FinancialData.t :=
  {| FinancialData.id := id;
     FinancialData.company_id := company_id;
     FinancialData.fiscal_year := FinancialDataCreate.fiscal_year financial_data;
     FinancialData.prepared_by := FinancialDataCreate.prepared_by financial_data;
     FinancialData.notes := FinancialDataCreate.notes financial_data;
     FinancialData.total_revenue :=
       Some (FinancialDataCreate.total_revenue financial_data);
     FinancialData.revenue_yoy_change := Calculated.revenue_yoy_change c;
     FinancialData.gross_profit :=
       Some (FinancialDataCreate.gross_profit financial_data);
     FinancialData.gross_profit_margin := Calculated.gross_profit_margin c;
     FinancialData.gross_profit_yoy_change :=
       Calculated.gross_profit_yoy_change c;
     FinancialData.operating_profit :=
       Some (FinancialDataCreate.operating_profit financial_data);
     FinancialData.operating_profit_margin :=
       Calculated.operating_profit_margin c;
     FinancialData.operating_profit_yoy_change :=
       Calculated.operating_profit_yoy_change c;
     FinancialData.net_profit :=
       Some (FinancialDataCreate.net_profit financial_data);
     FinancialData.net_profit_margin := Calculated.net_profit_margin c;
     FinancialData.net_profit_yoy_change := Calculated.net_profit_yoy_change c;
     FinancialData.number_of_shares :=
       Some (FinancialDataCreate.number_of_shares financial_data);
     FinancialData.price_high :=
       Some (FinancialDataCreate.price_high financial_data);
     FinancialData.price_low :=
       Some (FinancialDataCreate.price_low financial_data);
     FinancialData.eps := Some (FinancialDataCreate.eps financial_data);
     FinancialData.earning_power :=
       FinancialDataCreate.earning_power financial_data;
     FinancialData.free_cash_flow :=
       Some (FinancialDataCreate.free_cash_flow financial_data);
     FinancialData.free_cash_flow_yoy_change :=
       Calculated.free_cash_flow_yoy_change c;
     FinancialData.return_on_equity :=
       FinancialDataCreate.return_on_equity financial_data;
     FinancialData.return_on_assets :=
       FinancialDataCreate.return_on_assets financial_data;
     FinancialData.return_on_invested_capital :=
       FinancialDataCreate.return_on_invested_capital financial_data;
     FinancialData.book_value := FinancialDataCreate.book_value financial_data;
     FinancialData.book_value_per_share :=
       FinancialDataCreate.book_value_per_share financial_data;
     FinancialData.book_value_yoy_change := Calculated.book_value_yoy_change c;
     FinancialData.current_ratio :=
       FinancialDataCreate.current_ratio financial_data;
     FinancialData.total_assets := None;
     FinancialData.total_liabilities := None;
     FinancialData.shareholders_equity := None;
     FinancialData.current_assets := None;
     FinancialData.current_liabilities := None;
     FinancialData.dividends_per_share :=
       Some (FinancialDataCreate.dividends_per_share financial_data);
     FinancialData.dividend_rate :=
       Some (FinancialDataCreate.dividend_rate financial_data) |}.

(** [except IntegrityError: db.rollback(); raise HTTPException(400)]: other
    exceptions pass through.  In both cases nothing of the request is
    committed. *)
Definition except_IntegrityError (e : exn) : exn :=
  match e with
  | IntegrityError => HTTPException 400
  | _ => e
  end.

(** [create_company]. *)
Definition create_company (s : Db.t) (name : string) (current_user : option Z)
  : Db.t * result Company.t :=
  match Db.add_company s name current_user with
  | Ok (s', db_company) => (s', Ok db_company)
  | Raise e => (s, Raise (except_IntegrityError e))
  end.

(** [create_financial_data]: the handler of
    [POST /companies/{company_id}/financial-data/], given a validated body.
    The result is the store after the request and the response or the
    exception. *)
Definition create_financial_data (s : Db.t) (company_id : Z)
  (financial_data : FinancialDataCreate.t) : Db.t * result FinancialData.t :=
  (* Check if company exists *)
  match Db.company_by_id s company_id with
  | None => (s, Raise (HTTPException 404))
  | Some _ =>
      let fiscal_year := FinancialDataCreate.fiscal_year financial_data in
      match calculate s company_id fiscal_year financial_data with
      | Raise e => (s, Raise (except_IntegrityError e))
      | Ok c =>
          (* Check if financial data for this company and fiscal year
             already exists *)
          match Db.financial_data_by_key s company_id fiscal_year with
          | Some existing_data =>
              let db_financial_data :=
                set_calculated c
                  (setattr_items false financial_data existing_data) in
              (Db.mk (Db.companies s)
                     (Db.update_first
                        (FinancialData.has_key company_id fiscal_year)
                        db_financial_data (Db.financial_data s)),
               Ok db_financial_data)
          | None =>
              match Db.add_financial_data s
                      (new_financial_data company_id financial_data c) with
              | Ok (s', db_financial_data) => (s', Ok db_financial_data)
              | Raise e => (s, Raise (except_IntegrityError e))
              end
          end
      end
  end.

(** [update_financial_data]: the handler of
    [PUT /companies/{company_id}/financial-data/{fiscal_year}], given a
    validated body.  It has no [try]: an exception propagates as it is. *)
Definition update_financial_data (s : Db.t) (company_id : Z)
  (fiscal_year : string) (financial_data : FinancialDataCreate.t)
  : Db.t * result FinancialData.t :=
  (* Check if financial data exists *)
  match Db.financial_data_by_key s company_id fiscal_year with
  | None => (s, Raise (HTTPException 404))
  | Some db_financial_data =>
      match calculate s company_id fiscal_year financial_data with
      | Raise e => (s, Raise e)
      | Ok c =>
          let db_financial_data :=
            set_calculated c
              (setattr_items true financial_data db_financial_data) in
          (Db.mk (Db.companies s)
                 (Db.update_first
                    (FinancialData.has_key company_id fiscal_year)
                    db_financial_data (Db.financial_data s)),
           Ok db_financial_data)
      end
  end.

(** [delete_financial_data]. *)
Definition delete_financial_data (s : Db.t) (company_id : Z)
  (fiscal_year : string) : Db.t * result unit :=
  match Db.financial_data_by_key s company_id fiscal_year with
  | None => (s, Raise (HTTPException 404))
  | Some _ =>
      (Db.mk (Db.companies s)
             (Db.delete_first (FinancialData.has_key company_id fiscal_year)
                              (Db.financial_data s)),
       Ok tt)
  end.

(** [get_dashboard_data]. *)
Definition get_dashboard_data (s : Db.t) (company_id : Z)
  : result DashboardResponse.t :=
  match Db.company_by_id s company_id with
  | None => Raise (HTTPException 404)
  | Some company =>
      calculate_financial_metrics (Db.financial_data_of s company_id)
                                  (Company.name company)
  end.

(** ** Requests

    A request body is validated against its schema before the handler is
    called; a body that fails never reaches it. *)

(** Submit: [POST /companies/{company_id}/financial-data/]. *)
Definition submit (s : Db.t) (company_id : Z) (body : FinancialDataCreate.t)
  : Db.t * result FinancialData.t :=
  match FinancialDataCreate.validate body with
  | Raise e => (s, Raise e)
  | Ok financial_data => create_financial_data s company_id financial_data
  end.

(** Update: [PUT /companies/{company_id}/financial-data/{fiscal_year}]. *)
Definition update (s : Db.t) (company_id : Z) (fiscal_year : string)
  (body : FinancialDataCreate.t) : Db.t * result FinancialData.t :=
  match FinancialDataCreate.validate body with
  | Raise e => (s, Raise e)
  | Ok financial_data =>
      update_financial_data s company_id fiscal_year financial_data
  end.

(** The requests that write to the store. *)
Inductive request : Type :=
| PostCompany (name : string) (current_user : option Z)
| PostFinancialData (company_id : Z) (body : FinancialDataCreate.t)
| PutFinancialData (company_id : Z) (fiscal_year : string)
                   (body : FinancialDataCreate.t)
| DeleteFinancialData (company_id : Z) (fiscal_year : string).

(** The store after a request. *)
Definition serve (s : Db.t) (r : request) : Db.t :=
  match r with
  | PostCompany name current_user => fst (create_company s name current_user)
  | PostFinancialData company_id body => fst (submit s company_id body)
  | PutFinancialData company_id fiscal_year body =>
      fst (update s company_id fiscal_year body)
  | DeleteFinancialData company_id fiscal_year =>
      fst (delete_financial_data s company_id fiscal_year)
  end.

(** The stores that the service can be in: those that a sequence of requests
    builds from the empty one. *)
Inductive reachable : Db.t -> Prop :=
| reachable_empty : reachable Db.empty
| reachable_serve s r : reachable s -> reachable (serve s r).

(** The rows of a table that hold the pair [(company_id, fiscal_year)]. *)
Definition rows_with_key (s : Db.t) (company_id : Z) (fiscal_year : string)
  : list FinancialData.t :=
  filter (FinancialData.has_key company_id fiscal_year) (Db.financial_data s).

(* ================================================================== *)
(** * The vocabulary of the properties *)
(* ================================================================== *)

(** The order of the sort: the keys compare as strings. *)
Definition key_le {A : Type} (key : A -> string) (x y : A) : Prop :=
  Py.str_le (key x) (key y) = true.

(** The record handed to the loop body as [prev_year_data] at position
    [i] of the sorted sequence. *)
Definition preceding (sorted_data : list FinancialData.t) (i : nat)
  : option FinancialData.t :=
  match i with
  | O => None
  | S j => nth_error sorted_data j
  end.

(** The six YoY columns of a row, in the order of [write_yoy]. *)
Definition yoy_columns (r : FinancialData.t)
  : option float * option float * option float
    * option float * option float * option float :=
  (FinancialData.revenue_yoy_change r,
   FinancialData.gross_profit_yoy_change r,
   FinancialData.operating_profit_yoy_change r,
   FinancialData.net_profit_yoy_change r,
   FinancialData.free_cash_flow_yoy_change r,
   FinancialData.book_value_yoy_change r).

(** The three margin columns of a row. *)
Definition margin_columns (r : FinancialData.t)
  : option float * option float * option float :=
  (FinancialData.gross_profit_margin r,
   FinancialData.operating_profit_margin r,
   FinancialData.net_profit_margin r).

(** What a written row holds: the columns that [c] calculates, over the
    fields of the payload. *)
Definition written (financial_data : FinancialDataCreate.t) (c : Calculated.t)
  (r : FinancialData.t) : Prop :=
  margin_columns r
  = (Calculated.gross_profit_margin c, Calculated.operating_profit_margin c,
     Calculated.net_profit_margin c)
  /\ yoy_columns r
     = (Calculated.revenue_yoy_change c, Calculated.gross_profit_yoy_change c,
        Calculated.operating_profit_yoy_change c,
        Calculated.net_profit_yoy_change c,
        Calculated.free_cash_flow_yoy_change c,
        Calculated.book_value_yoy_change c)
  /\ FinancialData.total_revenue r
     = Some (FinancialDataCreate.total_revenue financial_data)
  /\ FinancialData.gross_profit r
     = Some (FinancialDataCreate.gross_profit financial_data)
  /\ FinancialData.operating_profit r
     = Some (FinancialDataCreate.operating_profit financial_data)
  /\ FinancialData.net_profit r
     = Some (FinancialDataCreate.net_profit financial_data).

(** The uniqueness constraint as a property of a table: no pair is held by
    two rows. *)
Definition unique_keys (s : Db.t) : Prop :=
  forall cid fy, List.length (rows_with_key s cid fy) <= 1.

(** How a request changes the table [financial_data]: not at all, by
    writing a row of some key over the first row of that key, by appending
    a row whose key is not held, or by deleting the first row of a key. *)
Inductive table_step (l : list FinancialData.t)
  : list FinancialData.t -> Prop :=
| table_same : table_step l l
| table_update cid fy r :
    FinancialData.has_key cid fy r = true ->
    table_step l (Db.update_first (FinancialData.has_key cid fy) r l)
| table_insert r :
    existsb (FinancialData.has_key (FinancialData.company_id r)
                                   (FinancialData.fiscal_year r)) l = false ->
    table_step l (l ++ [r])
| table_delete cid fy :
    table_step l (Db.delete_first (FinancialData.has_key cid fy) l).

(** The margin that the write path stores for a profit figure. *)
Definition write_margin (profit total_revenue : float) : option float :=
  if (0 <? total_revenue)%float then Some (profit / total_revenue)%float
  else None.

(** The margin that the read path reports for a profit figure. *)
Definition read_margin_value (stored : option float)
  (profit total_revenue : option float) : option float :=
  match stored with
  | Some v => Some v
  | None =>
      if Py.truthy total_revenue
      then Some (Py.float_or_0 profit / Py.float_or_0 total_revenue)%float
      else None
  end.

(** The rule of the spec for a YoY entry on read: the stored value when
    there is one, else the recomputed one. *)
Definition yoy_on_read (stored : option float)
  (recomputed : result (option float)) : result (option float) :=
  match stored with
  | Some v => Ok (Some v)
  | None => recomputed
  end.

(** The recomputation of the spec: the helper of the write path, applied to
    the record's figure and to the same column of the preceding record;
    nothing without a preceding record or without a figure. *)
Definition recomputed_yoy (prev : option FinancialData.t)
  (column : FinancialData.t -> option float) (current : option float)
  : result (option float) :=
  match prev, current with
  | Some p, Some c => calc_percent_change c (column p)
  | _, _ => Ok None
  end.

(** The six flat YoY keys of a metric hold what the record stores. *)
Definition flat_yoy_is_stored (data : FinancialData.t) (m : Metric.t) : Prop :=
  Metric.revenue_yoy_change m = FinancialData.revenue_yoy_change data
  /\ Metric.gross_profit_yoy_change m
     = FinancialData.gross_profit_yoy_change data
  /\ Metric.operating_profit_yoy_change m
     = FinancialData.operating_profit_yoy_change data
  /\ Metric.net_profit_yoy_change m = FinancialData.net_profit_yoy_change data
  /\ Metric.free_cash_flow_yoy_change m
     = FinancialData.free_cash_flow_yoy_change data
  /\ Metric.book_value_yoy_change m = FinancialData.book_value_yoy_change data.

(** The body with another [fiscal_year]. *)
Definition with_fiscal_year (fiscal_year : string)
  (body : FinancialDataCreate.t) : FinancialDataCreate.t :=
  {| FinancialDataCreate.fiscal_year := fiscal_year;
     FinancialDataCreate.prepared_by := FinancialDataCreate.prepared_by body;
     FinancialDataCreate.notes := FinancialDataCreate.notes body;
     FinancialDataCreate.total_revenue :=
       FinancialDataCreate.total_revenue body;
     FinancialDataCreate.gross_profit := FinancialDataCreate.gross_profit body;
     FinancialDataCreate.gross_profit_margin :=
       FinancialDataCreate.gross_profit_margin body;
     FinancialDataCreate.operating_profit :=
       FinancialDataCreate.operating_profit body;
     FinancialDataCreate.operating_profit_margin :=
       FinancialDataCreate.operating_profit_margin body;
     FinancialDataCreate.net_profit := FinancialDataCreate.net_profit body;
     FinancialDataCreate.net_profit_margin :=
       FinancialDataCreate.net_profit_margin body;
     FinancialDataCreate.number_of_shares :=
       FinancialDataCreate.number_of_shares body;
     FinancialDataCreate.eps := FinancialDataCreate.eps body;
     FinancialDataCreate.price_high := FinancialDataCreate.price_high body;
     FinancialDataCreate.price_low := FinancialDataCreate.price_low body;
     FinancialDataCreate.earning_power :=
       FinancialDataCreate.earning_power body;
     FinancialDataCreate.free_cash_flow :=
       FinancialDataCreate.free_cash_flow body;
     FinancialDataCreate.return_on_equity :=
       FinancialDataCreate.return_on_equity body;
     FinancialDataCreate.return_on_assets :=
       FinancialDataCreate.return_on_assets body;
     FinancialDataCreate.return_on_invested_capital :=
       FinancialDataCreate.return_on_invested_capital body;
     FinancialDataCreate.book_value := FinancialDataCreate.book_value body;
     FinancialDataCreate.book_value_per_share :=
       FinancialDataCreate.book_value_per_share body;
     FinancialDataCreate.current_ratio :=
       FinancialDataCreate.current_ratio body;
     FinancialDataCreate.dividends_per_share :=
       FinancialDataCreate.dividends_per_share body;
     FinancialDataCreate.dividend_rate :=
       FinancialDataCreate.dividend_rate body |}.

(** The base fields of a row (those of the payload that are not calculated
    on write) hold the payload's values. *)
Definition base_fields_from (body : FinancialDataCreate.t)
  (r : FinancialData.t) : Prop :=
  FinancialData.prepared_by r = FinancialDataCreate.prepared_by body
  /\ FinancialData.notes r = FinancialDataCreate.notes body
  /\ FinancialData.total_revenue r
     = Some (FinancialDataCreate.total_revenue body)
  /\ FinancialData.gross_profit r = Some (FinancialDataCreate.gross_profit body)
  /\ FinancialData.operating_profit r
     = Some (FinancialDataCreate.operating_profit body)
  /\ FinancialData.net_profit r = Some (FinancialDataCreate.net_profit body)
  /\ FinancialData.number_of_shares r
     = Some (FinancialDataCreate.number_of_shares body)
  /\ FinancialData.eps r = Some (FinancialDataCreate.eps body)
  /\ FinancialData.price_high r = Some (FinancialDataCreate.price_high body)
  /\ FinancialData.price_low r = Some (FinancialDataCreate.price_low body)
  /\ FinancialData.earning_power r = FinancialDataCreate.earning_power body
  /\ FinancialData.free_cash_flow r
     = Some (FinancialDataCreate.free_cash_flow body)
  /\ FinancialData.return_on_equity r
     = FinancialDataCreate.return_on_equity body
  /\ FinancialData.return_on_assets r
     = FinancialDataCreate.return_on_assets body
  /\ FinancialData.return_on_invested_capital r
     = FinancialDataCreate.return_on_invested_capital body
  /\ FinancialData.book_value r = FinancialDataCreate.book_value body
  /\ FinancialData.book_value_per_share r
     = FinancialDataCreate.book_value_per_share body
  /\ FinancialData.current_ratio r = FinancialDataCreate.current_ratio body
  /\ FinancialData.dividends_per_share r
     = Some (FinancialDataCreate.dividends_per_share body)
  /\ FinancialData.dividend_rate r
     = Some (FinancialDataCreate.dividend_rate body).

(** The columns that no payload field names are those of the row before. *)
Definition other_columns_kept (old r : FinancialData.t) : Prop :=
  FinancialData.id r = FinancialData.id old
  /\ FinancialData.company_id r = FinancialData.company_id old
  /\ FinancialData.total_assets r = FinancialData.total_assets old
  /\ FinancialData.total_liabilities r = FinancialData.total_liabilities old
  /\ FinancialData.shareholders_equity r
     = FinancialData.shareholders_equity old
  /\ FinancialData.current_assets r = FinancialData.current_assets old
  /\ FinancialData.current_liabilities r
     = FinancialData.current_liabilities old.

(** The fiscal year does not read as an integer, or reads as one outside
    1900..2100. *)
Definition bad_fiscal_year (fiscal_year : string) : Prop :=
  (exists e, Py.int fiscal_year = Raise e)
  \/ (exists year,
        Py.int fiscal_year = Ok year /\ (year < 1900 \/ 2100 < year)%Z).

(** ** Example data *)

(** A request body with the given figures; the other required numbers are
    zero and the optional ones absent. *)
Definition example_body (fiscal_year : string)
  (total_revenue gross_profit operating_profit net_profit number_of_shares
   free_cash_flow : float) : FinancialDataCreate.t :=
  {| FinancialDataCreate.fiscal_year := fiscal_year;
     FinancialDataCreate.prepared_by := None;
     FinancialDataCreate.notes := None;
     FinancialDataCreate.total_revenue := total_revenue;
     FinancialDataCreate.gross_profit := gross_profit;
     FinancialDataCreate.gross_profit_margin := None;
     FinancialDataCreate.operating_profit := operating_profit;
     FinancialDataCreate.operating_profit_margin := None;
     FinancialDataCreate.net_profit := net_profit;
     FinancialDataCreate.net_profit_margin := None;
     FinancialDataCreate.number_of_shares := number_of_shares;
     FinancialDataCreate.eps := 0;
     FinancialDataCreate.price_high := 0;
     FinancialDataCreate.price_low := 0;
     FinancialDataCreate.earning_power := None;
     FinancialDataCreate.free_cash_flow := free_cash_flow;
     FinancialDataCreate.return_on_equity := None;
     FinancialDataCreate.return_on_assets := None;
     FinancialDataCreate.return_on_invested_capital := None;
     FinancialDataCreate.book_value := None;
     FinancialDataCreate.book_value_per_share := None;
     FinancialDataCreate.current_ratio := None;
     FinancialDataCreate.dividends_per_share := 0;
     FinancialDataCreate.dividend_rate := 0 |}.

(** A row of company 1 as the table can hold it, legacy columns included;
    the columns not listed are [None]. *)
Definition example_row (fiscal_year : string)
  (total_revenue gross_profit net_profit number_of_shares
   gross_profit_margin revenue_yoy_change
   shareholders_equity total_assets : option float) : FinancialData.t :=
  {| FinancialData.id := 1;
     FinancialData.company_id := 1;
     FinancialData.fiscal_year := fiscal_year;
     FinancialData.prepared_by := None;
     FinancialData.notes := None;
     FinancialData.total_revenue := total_revenue;
     FinancialData.revenue_yoy_change := revenue_yoy_change;
     FinancialData.gross_profit := gross_profit;
     FinancialData.gross_profit_margin := gross_profit_margin;
     FinancialData.gross_profit_yoy_change := None;
     FinancialData.operating_profit := None;
     FinancialData.operating_profit_margin := None;
     FinancialData.operating_profit_yoy_change := None;
     FinancialData.net_profit := net_profit;
     FinancialData.net_profit_margin := None;
     FinancialData.net_profit_yoy_change := None;
     FinancialData.number_of_shares := number_of_shares;
     FinancialData.price_high := None;
     FinancialData.price_low := None;
     FinancialData.eps := None;
     FinancialData.earning_power := None;
     FinancialData.free_cash_flow := None;
     FinancialData.free_cash_flow_yoy_change := None;
     FinancialData.return_on_equity := None;
     FinancialData.return_on_assets := None;
     FinancialData.return_on_invested_capital := None;
     FinancialData.book_value := None;
     FinancialData.book_value_per_share := None;
     FinancialData.book_value_yoy_change := None;
     FinancialData.current_ratio := None;
     FinancialData.total_assets := total_assets;
     FinancialData.total_liabilities := None;
     FinancialData.shareholders_equity := shareholders_equity;
     FinancialData.current_assets := None;
     FinancialData.current_liabilities := None;
     FinancialData.dividends_per_share := None;
     FinancialData.dividend_rate := None |}.

(** The store after a company is created and its years 2020 and 2021 are
    submitted. *)
Definition example_store : Db.t :=
  fold_left serve
    [ PostCompany "Acme" (Some 1%Z);
      PostFinancialData 1
        (example_body "2020" 800000 400000 200000 100000 1000 50000);
      PostFinancialData 1
        (example_body "2021" 1000000 500000 300000 200000 1000 60000) ]
    Db.empty.

(** ** Proof tools *)

Lemma bind_ok_inv {A B : Type} (m : result A) (k : A -> result B) (b : B) :
  bind m k = Ok b -> exists a, m = Ok a /\ k a = Ok b.
Proof. destruct m as [a|e]; cbn; [eauto | discriminate]. Qed.

(** Splits a hypothesis [x <- m ;; k = Ok b] into [m = Ok a] and
    [k a = Ok b], as often as it applies. *)
Ltac bind_inv H :=
  repeat
    (let a := fresh "v" in
     let E := fresh "E" in
     apply bind_ok_inv in H; destruct H as (a & E & H)).

(** Opens [metric_of prev data = Ok m]: one equation for each rule applied,
    and [m] replaced by the dictionary built from their results. *)
Ltac metric_of_inv H :=
  unfold metric_of in H; bind_inv H;
  injection H as H; subst; cbn [Metric.year Metric.revenue
    Metric.revenue_yoy_change Metric.gross_profit Metric.gross_profit_margin
    Metric.gross_profit_yoy_change Metric.operating_profit
    Metric.operating_profit_margin Metric.operating_profit_yoy_change
    Metric.net_profit Metric.net_profit_margin Metric.net_profit_yoy_change
    Metric.free_cash_flow Metric.free_cash_flow_yoy_change
    Metric.number_of_shares Metric.return_on_equity Metric.return_on_assets
    Metric.return_on_invested_capital Metric.book_value
    Metric.book_value_per_share Metric.book_value_yoy_change
    Metric.current_ratio Metric.yoy].

(* ================================================================== *)
(** * The reading endpoints *)
(* ================================================================== *)

(** [get_company]. *)
Definition get_company (s : Db.t) (company_id : Z) : result Company.t :=
  match Db.company_by_id s company_id with
  | None => Raise (HTTPException 404)
  | Some company => Ok company
  end.

(** [get_financial_data_by_company]. *)
Definition get_financial_data_by_company (s : Db.t) (company_id : Z)
  : result (list FinancialData.t) :=
  (* Check if company exists *)
  match Db.company_by_id s company_id with
  | None => Raise (HTTPException 404)
  | Some _ => Ok (Db.financial_data_of s company_id)
  end.

(** [get_financial_data_by_year]. *)
Definition get_financial_data_by_year (s : Db.t) (company_id : Z)
  (fiscal_year : string) : result FinancialData.t :=
  match Db.financial_data_by_key s company_id fiscal_year with
  | None => Raise (HTTPException 404)
  | Some financial_data => Ok financial_data
  end.

(* ================================================================== *)
(** * The caller's identity ([routers/auth.py]) *)
(* ================================================================== *)

Module Auth.

(** [s.partition(" ")]: the text before the first space, the space, and the
    text after it; the whole text and two empty strings when there is no
    space. *)
Fixpoint partition_space (s : string) : string * string * string :=
  match s with
  | EmptyString => ("", "", "")
  | String c s' =>
      if (c =? " ")%char then ("", " ", s')
      else
        let '(before, sep, after) := partition_space s' in
        (String c before, sep, after)
  end.

(** [c.lower()] for a code point below 256: the letters A..Z and the
    capital letters of Latin-1 (0xC0..0xDE without the multiplication
    sign) move up by 32. *)
Definition lower_char (c : ascii) : ascii :=
  let n := N_of_ascii c in
  if ((65 <=? n) && (n <=? 90)
      || (192 <=? n) && (n <=? 222) && negb (n =? 215))%N
  then ascii_of_N (n + 32)
  else c.

(** [s.lower()]. *)
Fixpoint lower (s : string) : string :=
  match s with
  | EmptyString => EmptyString
  | String c s' => String (lower_char c) (lower s')
  end.

(** [get_token_from_header]; an absent header is [None], and [not x] holds
    of [None] and of the empty string. *)
Definition get_token_from_header (authorization : option string)
  : result string :=
  match authorization with
  | None | Some "" => Raise (HTTPException 401)
  | Some authorization =>
      let '(scheme, _, token) := partition_space authorization in
      if negb (lower scheme =? "bearer")%string then
        Raise (HTTPException 401)
      else if (token =? "")%string then Raise (HTTPException 401)
      else Ok token
  end.

(** The claims read from a decoded token: [payload.get("sub")],
    [payload.get("id")] and [payload.get("role")], each [None] when the key
    is absent or null.  [value] is the type of the values of a payload. *)
Record payload (value : Type) : Type := mk_payload {
  sub : option value;
  id : option value;
  role : option value
}.

(** The dictionary that [get_current_user] returns. *)
Record user (value : Type) : Type := mk_user {
  username : value;
  user_id : value;
  user_role : option value
}.

Section CurrentUser.
Variable value : Type.

(** [jwt.decode(token, SECRET_KEY, algorithms=[ALGORITHM])] of the jose
    library: the payload, or [None] for a [JWTError]. *)
Variable jwt_decode : string -> option (payload value).

(** [get_current_user].  Its first three tests repeat the text of
    [get_token_from_header].  The [HTTPException] raised inside the [try]
    is no [JWTError] and leaves it as it is. *)
Definition get_current_user (authorization : option string)
  : result (user value) :=
  match authorization with
  | None | Some "" => Raise (HTTPException 401)
  | Some authorization =>
      let '(scheme, _, token) := partition_space authorization in
      if negb (lower scheme =? "bearer")%string then
        Raise (HTTPException 401)
      else if (token =? "")%string then Raise (HTTPException 401)
      else
        match jwt_decode token with
        | Some p =>
            match sub p, id p with
            | Some name, Some i =>
                Ok {| username := name; user_id := i; user_role := role p |}
            | _, _ => Raise (HTTPException 401)
            end
        | None => Raise (HTTPException 401)
        end
  end.
End CurrentUser.

End Auth.

(** The text holds a space. *)
Fixpoint has_space (s : string) : bool :=
  match s with
  | EmptyString => false
  | String c s' => (c =? " ")%char || has_space s'
  end.

(** The five legacy columns of a row, which no request body names. *)
Definition legacy_columns (r : FinancialData.t)
  : option float * option float * option float * option float * option float :=
  (FinancialData.total_assets r, FinancialData.total_liabilities r,
   FinancialData.shareholders_equity r, FinancialData.current_assets r,
   FinancialData.current_liabilities r).

(** The figures of a row as the write path leaves them: a fiscal year that
    passes [validate_fiscal_year], a revenue and a number of shares that
    are greater than zero, and the three margins over that revenue. *)
Definition valid_figures (r : FinancialData.t) : Prop :=
  FinancialDataCreate.validate_fiscal_year (FinancialData.fiscal_year r)
  = Ok (FinancialData.fiscal_year r)
  /\ exists total_revenue gross_profit operating_profit net_profit
            number_of_shares,
       FinancialData.total_revenue r = Some total_revenue
       /\ FinancialData.gross_profit r = Some gross_profit
       /\ FinancialData.operating_profit r = Some operating_profit
       /\ FinancialData.net_profit r = Some net_profit
       /\ FinancialData.number_of_shares r = Some number_of_shares
       /\ FinancialDataCreate.gt0 total_revenue = true
       /\ FinancialDataCreate.gt0 number_of_shares = true
       /\ margin_columns r
          = (Some (gross_profit / total_revenue)%float,
             Some (operating_profit / total_revenue)%float,
             Some (net_profit / total_revenue)%float).

(** How a request writes a row: as a new object built from a valid body for
    a known company, or over a row of the table, by the loop that copies a
    valid body and the assignments of the calculated columns. *)
Inductive row_written (s : Db.t) (r : FinancialData.t) : Prop :=
| row_new company_id body c id :
    FinancialDataCreate.validate body = Ok body ->
    Db.company_by_id s company_id <> None ->
    write_margins body
    = Ok (Calculated.gross_profit_margin c,
          Calculated.operating_profit_margin c,
          Calculated.net_profit_margin c) ->
    r = new_financial_data company_id body c id ->
    row_written s r
| row_over keep_fiscal_year body c old :
    FinancialDataCreate.validate body = Ok body ->
    In old (Db.financial_data s) ->
    write_margins body
    = Ok (Calculated.gross_profit_margin c,
          Calculated.operating_profit_margin c,
          Calculated.net_profit_margin c) ->
    r = set_calculated c (setattr_items keep_fiscal_year body old) ->
    row_written s r.

(** [a < b] on strings: before, and not the same. *)
Definition str_lt (a b : string) : Prop := Py.str_le a b = true /\ a <> b.

(* ================================================================== *)
(** * Properties *)
(* ================================================================== *)

(** ** Floats, truthiness and division *)

Section FloatFacts.
Local Open Scope float_scope.

Lemma abs_eqb_0 (p : float) : (abs p =? 0) = (p =? 0).
Proof.
  rewrite !eqb_spec, abs_spec.
  destruct (Prim2SF p) as [ [] | [] | | [] m e ]; reflexivity.
Qed.

Lemma ltb_0_eqb_0 (x : float) : (0 <? x) = true -> (x =? 0) = false.
Proof.
  rewrite ltb_spec, eqb_spec.
  destruct (Prim2SF x) as [ [] | [] | | [] m e ]; cbn; congruence.
Qed.

(** For a number, "not greater than zero" is "at most zero"; a NaN is
    neither. *)
Lemma not_gt0_iff_le0 (x : float) :
  is_nan x = false -> ((0 <? x) = false <-> (x <=? 0) = true).
Proof.
  unfold is_nan. rewrite ltb_spec, leb_spec, eqb_spec.
  destruct (Prim2SF x) as [ [] | [] | | [] m e ]; cbn; intuition congruence.
Qed.

Lemma float_truthy_eqb (x : float) : Py.float_truthy x = negb (x =? 0).
Proof. reflexivity. Qed.

Lemma truediv_ok (a b : float) :
  (b =? 0) = false -> Py.truediv a b = Ok (a / b).
Proof. unfold Py.truediv. now intros ->. Qed.

Lemma or_same (x : option float) : Py.or_ x x = x.
Proof. unfold Py.or_. now destruct (Py.truthy x). Qed.

Lemma float_or_0_truthy (v : float) :
  (v =? 0) = false -> Py.float_or_0 (Some v) = v.
Proof. unfold Py.float_or_0, Py.float_truthy. now intros ->. Qed.

Lemma float_or_0_falsy (x : option float) :
  Py.truthy x = false -> Py.float_or_0 x = 0.
Proof.
  destruct x as [v|]; cbn; [|reflexivity]. now intros ->.
Qed.

Lemma float_or_0_eq_of_truthy (x : option float) :
  Py.truthy x = true -> Some (Py.float_or_0 x) = x.
Proof.
  destruct x as [v|]; cbn; [|discriminate]. now intros ->.
Qed.
End FloatFacts.

(** ** [calc_percent_change] *)

Section CalcPercentChange.
Local Open Scope float_scope.

Lemma calc_percent_change_nonzero (current p : float) :
  (p =? 0) = false ->
  calc_percent_change current (Some p)
  = Ok (Some (Py.round2 ((current - p) / abs p * 100))).
Proof.
  intros Hp. unfold calc_percent_change, Py.float_truthy.
  rewrite Hp. cbn. rewrite truediv_ok by now rewrite abs_eqb_0.
  reflexivity.
Qed.

Lemma calc_percent_change_zero (current p : float) :
  (p =? 0) = true -> calc_percent_change current (Some p) = Ok None.
Proof.
  intros Hp. unfold calc_percent_change, Py.float_truthy.
  now rewrite Hp.
Qed.

Lemma calc_percent_change_falsy (current : float) (previous : option float) :
  Py.truthy previous = false -> calc_percent_change current previous = Ok None.
Proof.
  destruct previous as [p|]; [|reflexivity].
  cbn. unfold Py.float_truthy. intros H.
  apply calc_percent_change_zero. now apply negb_false_iff in H.
Qed.

Lemma calc_percent_change_total (current : float) (previous : option float) :
  exists v, calc_percent_change current previous = Ok v.
Proof.
  destruct previous as [p|]; [|now exists None].
  destruct (p =? 0) eqn:Hp.
  - exists None. now apply calc_percent_change_zero.
  - eexists. now apply calc_percent_change_nonzero.
Qed.

(** The read path hands [float(previous or 0)] to the helper where the
    write path hands the column itself: the result is the same. *)
Lemma calc_percent_change_float_or_0 (current : float)
  (previous : option float) :
  calc_percent_change current (Some (Py.float_or_0 previous))
  = calc_percent_change current previous.
Proof.
  destruct (Py.truthy previous) eqn:Ht.
  - now rewrite float_or_0_eq_of_truthy.
  - rewrite float_or_0_falsy by assumption.
    rewrite (calc_percent_change_falsy current previous Ht).
    now apply calc_percent_change_zero.
Qed.
End CalcPercentChange.

(** C1.  For every current value and every previous value, the percentage
    change of [calc_percent_change] (the one helper of the write and the read
    path) is [round((current - previous) / abs(previous) * 100, 2)] when
    [previous] is not [None] and not zero, and is [None] when [previous] is
    [None] or zero; the call never raises, so no division by zero occurs. *)
Theorem calc_percent_change_spec (current : float) (previous : option float) :
  raises (calc_percent_change current previous) = false
  /\ (forall p : float,
        previous = Some p -> (p =? 0)%float = false ->
        (abs p =? 0)%float = false
        /\ calc_percent_change current previous
           = Ok (Some (Py.round2 ((current - p) / abs p * 100)%float)))
  /\ (previous = None -> calc_percent_change current previous = Ok None)
  /\ (forall p : float,
        previous = Some p -> (p =? 0)%float = true ->
        calc_percent_change current previous = Ok None).
Proof.
  repeat split.
  - destruct (calc_percent_change_total current previous) as [v ->].
    reflexivity.
  - now rewrite abs_eqb_0.
  - subst previous. now apply calc_percent_change_nonzero.
  - now intros ->.
  - intros p -> Hp. now apply calc_percent_change_zero.
Qed.

(** The spec's example: revenue 1,000,000 after 800,000 is a change of
    25.0 percent. *)
Lemma calc_percent_change_spec_witness :
  calc_percent_change 1000000 (Some 800000%float) = Ok (Some 25%float).
Proof.
  exact (proj2 (proj1 (proj2 (calc_percent_change_spec 1000000 (Some 800000%float)))
           800000%float eq_refl eq_refl)).
Defined.

(** ** The rules of the read path *)

Section ReadRules.
Local Open Scope float_scope.

Lemma truediv_truthy (a b : float) :
  Py.float_truthy b = true -> Py.truediv a b = Ok (a / b).
Proof.
  unfold Py.float_truthy. intros H. apply truediv_ok.
  now apply negb_true_iff in H.
Qed.

Lemma float_or_0_truthy_iff (x : option float) :
  Py.truthy x = true -> Py.float_truthy (Py.float_or_0 x) = true.
Proof.
  destruct x as [v|]; cbn; [|discriminate]. intros H. now rewrite H.
Qed.

Lemma read_margin_stored (v profit total_revenue : float) :
  read_margin (Some v) profit total_revenue = Ok (Some v).
Proof. reflexivity. Qed.

Lemma read_margin_null (profit total_revenue : float) :
  read_margin None profit total_revenue
  = Ok (if Py.float_truthy total_revenue
        then Some (profit / total_revenue) else None).
Proof.
  unfold read_margin. destruct (Py.float_truthy total_revenue) eqn:Ht.
  - now rewrite truediv_truthy.
  - reflexivity.
Qed.

(** The [else 0] of the conditional expression is never taken: the
    enclosing [if] has already found the denominator truthy. *)
Lemma read_ratio_null (net_profit : float) (denominator : option float) :
  read_ratio None net_profit denominator
  = Ok (if Py.float_truthy net_profit && Py.truthy denominator
        then Some (net_profit / Py.float_or_0 denominator) else None).
Proof.
  unfold read_ratio.
  destruct (Py.float_truthy net_profit); cbn; [|reflexivity].
  destruct (Py.truthy denominator) eqn:Hd; [|reflexivity].
  rewrite (float_or_0_truthy_iff _ Hd).
  now rewrite truediv_truthy by now apply float_or_0_truthy_iff.
Qed.

Lemma read_book_value_per_share_null (shareholders_equity : option float)
  (number_of_shares : float) :
  read_book_value_per_share None shareholders_equity number_of_shares
  = Ok (if Py.truthy shareholders_equity && Py.float_truthy number_of_shares
        then Some (Py.float_or_0 shareholders_equity / number_of_shares)
        else None).
Proof.
  unfold read_book_value_per_share.
  destruct (Py.truthy shareholders_equity); cbn; [|reflexivity].
  destruct (Py.float_truthy number_of_shares) eqn:Hn; [|reflexivity].
  now rewrite truediv_truthy.
Qed.

Lemma read_yoy_stored (v current : float) (prev_column : option float) :
  read_yoy (Some v) current prev_column = Ok (Some v).
Proof. reflexivity. Qed.

Lemma read_yoy_null (current : float) (prev_column : option float) :
  read_yoy None current prev_column
  = calc_percent_change current prev_column.
Proof. apply calc_percent_change_float_or_0. Qed.

Lemma read_yoy_book_value_stored (v : float)
  (book_value prev_book_value : option float) :
  read_yoy_book_value (Some v) book_value prev_book_value = Ok (Some v).
Proof. reflexivity. Qed.

Lemma read_yoy_book_value_null (book_value prev_book_value : option float) :
  read_yoy_book_value None book_value prev_book_value
  = match book_value with
    | Some bv => calc_percent_change bv prev_book_value
    | None => Ok None
    end.
Proof.
  unfold read_yoy_book_value. destruct book_value as [bv|]; [|reflexivity].
  destruct (Py.truthy prev_book_value) eqn:Hp; [reflexivity|].
  now rewrite calc_percent_change_falsy.
Qed.

Lemma read_margin_total (margin : option float) (profit total_revenue : float) :
  exists v, read_margin margin profit total_revenue = Ok v.
Proof.
  destruct margin; [now eexists|]. rewrite read_margin_null. now eexists.
Qed.

Lemma read_ratio_total (stored : option float) (net_profit : float)
  (denominator : option float) :
  exists v, read_ratio stored net_profit denominator = Ok v.
Proof.
  destruct stored; [now eexists|]. rewrite read_ratio_null. now eexists.
Qed.

Lemma read_book_value_per_share_total (stored shareholders_equity : option float)
  (number_of_shares : float) :
  exists v,
    read_book_value_per_share stored shareholders_equity number_of_shares
    = Ok v.
Proof.
  destruct stored; [now eexists|].
  rewrite read_book_value_per_share_null. now eexists.
Qed.

Lemma read_yoy_total (stored : option float) (current : float)
  (prev_column : option float) :
  exists v, read_yoy stored current prev_column = Ok v.
Proof.
  destruct stored; [now eexists|]. rewrite read_yoy_null.
  apply calc_percent_change_total.
Qed.

Lemma read_yoy_book_value_total (stored book_value prev : option float) :
  exists v, read_yoy_book_value stored book_value prev = Ok v.
Proof.
  destruct stored; [now eexists|]. rewrite read_yoy_book_value_null.
  destruct book_value; [apply calc_percent_change_total | now eexists].
Qed.

Lemma read_yoy_ratio_total (ratio prev_ratio : option float) :
  exists v, read_yoy_ratio ratio prev_ratio = Ok v.
Proof.
  unfold read_yoy_ratio. destruct ratio; [|now eexists].
  destruct (Py.truthy prev_ratio);
    [apply calc_percent_change_total | now eexists].
Qed.
End ReadRules.

(** The loop body never raises: every division in it is guarded. *)
Lemma metric_of_total (prev_year_data : option FinancialData.t)
  (data : FinancialData.t) :
  exists m, metric_of prev_year_data data = Ok m.
Proof.
  unfold metric_of.
  repeat
    match goal with
    | |- exists m, bind (read_margin ?a ?b ?c) _ = _ =>
        destruct (read_margin_total a b c) as [? ->]; cbn [bind]
    | |- exists m, bind (read_ratio ?a ?b ?c) _ = _ =>
        destruct (read_ratio_total a b c) as [? ->]; cbn [bind]
    | |- exists m, bind (read_book_value_per_share ?a ?b ?c) _ = _ =>
        destruct (read_book_value_per_share_total a b c) as [? ->]; cbn [bind]
    end.
  destruct prev_year_data as [prev|]; [|cbn [bind]; now eexists].
  repeat
    match goal with
    | |- context [bind (read_yoy ?a ?b ?c) _] =>
        destruct (read_yoy_total a b c) as [? ->]; cbn [bind]
    | |- context [bind (read_yoy_book_value ?a ?b ?c) _] =>
        destruct (read_yoy_book_value_total a b c) as [? ->]; cbn [bind]
    | |- context [bind (read_yoy_ratio ?a ?b) _] =>
        destruct (read_yoy_ratio_total a b) as [? ->]; cbn [bind]
    end.
  now eexists.
Qed.

Section MetricOf.
Variable prev_year_data : option FinancialData.t.
Variable data : FinancialData.t.
Variable m : Metric.t.
Hypothesis Hm : metric_of prev_year_data data = Ok m.

Lemma metric_year : Metric.year m = FinancialData.fiscal_year data.
Proof. metric_of_inv Hm. reflexivity. Qed.

Lemma metric_gross_profit_margin :
  read_margin (FinancialData.gross_profit_margin data)
              (Py.float_or_0 (FinancialData.gross_profit data))
              (Py.float_or_0 (FinancialData.total_revenue data))
  = Ok (Metric.gross_profit_margin m).
Proof. metric_of_inv Hm. assumption. Qed.

Lemma metric_operating_profit_margin :
  read_margin (FinancialData.operating_profit_margin data)
              (Py.float_or_0 (FinancialData.operating_profit data))
              (Py.float_or_0 (FinancialData.total_revenue data))
  = Ok (Metric.operating_profit_margin m).
Proof. metric_of_inv Hm. assumption. Qed.

Lemma metric_net_profit_margin :
  read_margin (FinancialData.net_profit_margin data)
              (Py.float_or_0 (FinancialData.net_profit data))
              (Py.float_or_0 (FinancialData.total_revenue data))
  = Ok (Metric.net_profit_margin m).
Proof. metric_of_inv Hm. now rewrite !or_same in *. Qed.

Lemma metric_return_on_equity :
  read_ratio (FinancialData.return_on_equity data)
             (Py.float_or_0 (FinancialData.net_profit data))
             (FinancialData.shareholders_equity data)
  = Ok (Metric.return_on_equity m).
Proof. metric_of_inv Hm. now rewrite !or_same in *. Qed.

Lemma metric_return_on_assets :
  read_ratio (FinancialData.return_on_assets data)
             (Py.float_or_0 (FinancialData.net_profit data))
             (FinancialData.total_assets data)
  = Ok (Metric.return_on_assets m).
Proof. metric_of_inv Hm. now rewrite !or_same in *. Qed.

Lemma metric_book_value_per_share :
  read_book_value_per_share (FinancialData.book_value_per_share data)
    (FinancialData.shareholders_equity data)
    (Py.float_or_0 (FinancialData.number_of_shares data))
  = Ok (Metric.book_value_per_share m).
Proof. metric_of_inv Hm. assumption. Qed.

(** The flat YoY keys are the local variables read from the record, which
    the loop body never assigns again. *)
Lemma metric_flat_yoy :
  Metric.revenue_yoy_change m = FinancialData.revenue_yoy_change data
  /\ Metric.gross_profit_yoy_change m
     = FinancialData.gross_profit_yoy_change data
  /\ Metric.operating_profit_yoy_change m
     = FinancialData.operating_profit_yoy_change data
  /\ Metric.net_profit_yoy_change m
     = FinancialData.net_profit_yoy_change data
  /\ Metric.free_cash_flow_yoy_change m
     = FinancialData.free_cash_flow_yoy_change data
  /\ Metric.book_value_yoy_change m
     = FinancialData.book_value_yoy_change data.
Proof. metric_of_inv Hm. now rewrite !or_same. Qed.
End MetricOf.

Arguments metric_year [prev_year_data data m] Hm.
Arguments metric_gross_profit_margin [prev_year_data data m] Hm.
Arguments metric_operating_profit_margin [prev_year_data data m] Hm.
Arguments metric_net_profit_margin [prev_year_data data m] Hm.
Arguments metric_return_on_equity [prev_year_data data m] Hm.
Arguments metric_return_on_assets [prev_year_data data m] Hm.
Arguments metric_book_value_per_share [prev_year_data data m] Hm.
Arguments metric_flat_yoy [prev_year_data data m] Hm.

(** The [yoy] dictionary of the first record of the sequence: the stored
    values, and [None] under [roa] and [roe]. *)
Lemma metric_yoy_first (data : FinancialData.t) (m : Metric.t) :
  metric_of None data = Ok m ->
  Metric.yoy m
  = {| Yoy.revenue := FinancialData.revenue_yoy_change data;
       Yoy.gross_profit := FinancialData.gross_profit_yoy_change data;
       Yoy.operating_profit := FinancialData.operating_profit_yoy_change data;
       Yoy.net_profit := FinancialData.net_profit_yoy_change data;
       Yoy.free_cash_flow := FinancialData.free_cash_flow_yoy_change data;
       Yoy.book_value := FinancialData.book_value_yoy_change data;
       Yoy.roa := None;
       Yoy.roe := None |}.
Proof.
  intros Hm. metric_of_inv Hm. cbn in *.
  match goal with H : Ok _ = Ok _ |- _ => injection H as <- end.
  now rewrite !or_same.
Qed.

(** The [yoy] dictionary of a record that has a predecessor [prev] in the
    sequence. *)
Lemma metric_yoy_next (prev data : FinancialData.t) (m : Metric.t) :
  metric_of (Some prev) data = Ok m ->
  read_yoy (FinancialData.revenue_yoy_change data)
           (Py.float_or_0 (FinancialData.total_revenue data))
           (FinancialData.total_revenue prev)
  = Ok (Yoy.revenue (Metric.yoy m))
  /\ read_yoy (FinancialData.gross_profit_yoy_change data)
              (Py.float_or_0 (FinancialData.gross_profit data))
              (FinancialData.gross_profit prev)
     = Ok (Yoy.gross_profit (Metric.yoy m))
  /\ read_yoy (FinancialData.operating_profit_yoy_change data)
              (Py.float_or_0 (FinancialData.operating_profit data))
              (FinancialData.operating_profit prev)
     = Ok (Yoy.operating_profit (Metric.yoy m))
  /\ read_yoy (FinancialData.net_profit_yoy_change data)
              (Py.float_or_0 (FinancialData.net_profit data))
              (FinancialData.net_profit prev)
     = Ok (Yoy.net_profit (Metric.yoy m))
  /\ read_yoy (FinancialData.free_cash_flow_yoy_change data)
              (Py.float_or_0 (FinancialData.free_cash_flow data))
              (FinancialData.free_cash_flow prev)
     = Ok (Yoy.free_cash_flow (Metric.yoy m))
  /\ read_yoy_book_value (FinancialData.book_value_yoy_change data)
                         (FinancialData.book_value data)
                         (FinancialData.book_value prev)
     = Ok (Yoy.book_value (Metric.yoy m)).
Proof.
  intros Hm. metric_of_inv Hm. rewrite !or_same in *.
  match goal with H : bind _ _ = Ok _ |- _ => bind_inv H; injection H as <- end.
  cbn. repeat split; assumption.
Qed.

(** ** Sorting by a string key *)

Section SortedFacts.
Variable A : Type.
Variable key : A -> string.

Lemma key_le_total (x y : A) : (key_le key) x y \/ (key_le key) y x.
Proof. apply String.leb_total. Qed.

Lemma insert_perm (x : A) (l : list A) :
  Permutation (x :: l) (Py.insert key x l).
Proof.
  induction l as [|y l IH]; cbn; [reflexivity|].
  destruct (Py.str_le (key x) (key y)); [reflexivity|].
  rewrite perm_swap. now apply perm_skip.
Qed.

Lemma sorted_perm (l : list A) : Permutation l (Py.sorted key l).
Proof.
  induction l as [|x l IH]; cbn; [constructor|].
  rewrite <- insert_perm. now apply perm_skip.
Qed.

Lemma insert_hd_rel (z x : A) (l : list A) :
  (key_le key) z x -> HdRel (key_le key) z l -> HdRel (key_le key) z (Py.insert key x l).
Proof.
  intros Hzx Hz. destruct l as [|y l]; cbn; [now constructor|].
  destruct (Py.str_le (key x) (key y)); constructor;
    [assumption | now inversion Hz].
Qed.

Lemma insert_sorted (x : A) (l : list A) :
  Sorted (key_le key) l -> Sorted (key_le key) (Py.insert key x l).
Proof.
  induction 1 as [|y l Hs IH Hy]; cbn; [repeat constructor|].
  destruct (Py.str_le (key x) (key y)) eqn:Hxy.
  - repeat constructor; assumption.
  - constructor; [assumption|].
    apply insert_hd_rel; [|assumption].
    destruct (key_le_total x y) as [H|H]; [|assumption].
    unfold key_le in H. congruence.
Qed.

Lemma sorted_sorted (l : list A) : Sorted (key_le key) (Py.sorted key l).
Proof.
  induction l as [|x l IH]; cbn; [constructor | now apply insert_sorted].
Qed.

Lemma sorted_length (l : list A) : List.length (Py.sorted key l) = List.length l.
Proof. symmetry. apply Permutation_length, sorted_perm. Qed.

Lemma sorted_keys (l : list A) :
  Sorted (fun a b => Py.str_le a b = true) (map key (Py.sorted key l)).
Proof.
  generalize (sorted_sorted l).
  induction 1 as [|y l' Hs IH Hy]; cbn; constructor; [assumption|].
  destruct Hy; cbn; now constructor.
Qed.
End SortedFacts.

(** ** The loop of the dashboard *)

Lemma metrics_loop_total (prev : option FinancialData.t)
  (l : list FinancialData.t) :
  exists ms, metrics_loop prev l = Ok ms.
Proof.
  revert prev. induction l as [|data l IH]; intros prev; cbn; [now eexists|].
  destruct (metric_of_total prev data) as [m ->].
  destruct (IH (Some data)) as [ms ->]. cbn. now eexists.
Qed.

Lemma metrics_loop_nth (l : list FinancialData.t) :
  forall prev ms,
    metrics_loop prev l = Ok ms ->
    List.length ms = List.length l
    /\ forall i data,
         nth_error l i = Some data ->
         exists m,
           nth_error ms i = Some m
           /\ metric_of (match i with O => prev | S j => nth_error l j end)
                        data = Ok m.
Proof.
  induction l as [|d l IH]; intros prev ms H; cbn in H.
  - injection H as <-. split; [reflexivity|]. now intros [|i] data.
  - bind_inv H. injection H as <-.
    destruct (IH _ _ E0) as [Hlen Hnth]. split; [cbn; congruence|].
    intros [|i] data Hi; cbn in Hi.
    + injection Hi as <-. now exists v.
    + destruct (Hnth i data Hi) as (m & Hm & Hmo). exists m. split; [assumption|].
      destruct i as [|j]; cbn; assumption.
Qed.

(** The dashboard never raises; its metrics are the loop body applied along
    the sorted sequence, each record with the one before it. *)
Lemma calculate_financial_metrics_spec (l : list FinancialData.t)
  (company_name : string) :
  exists ms,
    calculate_financial_metrics l company_name
    = Ok {| DashboardResponse.company := company_name;
            DashboardResponse.metrics := ms |}
    /\ List.length ms = List.length l
    /\ forall i data,
         nth_error (Py.sorted FinancialData.fiscal_year l) i = Some data ->
         exists m,
           nth_error ms i = Some m
           /\ metric_of
                (preceding (Py.sorted FinancialData.fiscal_year l) i) data
              = Ok m.
Proof.
  destruct l as [|d l].
  - exists []. cbn. repeat split. now intros [|i] data.
  - unfold calculate_financial_metrics.
    set (sd := Py.sorted FinancialData.fiscal_year (d :: l)).
    destruct (metrics_loop_total None sd) as [ms Hms]. rewrite Hms. cbn [bind].
    exists ms. destruct (metrics_loop_nth _ _ Hms) as [Hlen Hnth].
    repeat split.
    + rewrite Hlen. apply sorted_length.
    + intros i data Hi. destruct (Hnth i data Hi) as (m & Hm & Hmo).
      exists m. split; [assumption|]. now destruct i.
Qed.

(** ** The write path *)

Section WritePath.
Local Open Scope float_scope.

Lemma write_margins_spec (financial_data : FinancialDataCreate.t) :
  let total_revenue := FinancialDataCreate.total_revenue financial_data in
  write_margins financial_data
  = Ok (if 0 <? total_revenue
        then (Some (FinancialDataCreate.gross_profit financial_data
                    / total_revenue),
              Some (FinancialDataCreate.operating_profit financial_data
                    / total_revenue),
              Some (FinancialDataCreate.net_profit financial_data
                    / total_revenue))
        else (None, None, None)).
Proof.
  cbv zeta. unfold write_margins.
  destruct (0 <? FinancialDataCreate.total_revenue financial_data) eqn:Hpos;
    [|reflexivity].
  now rewrite !truediv_ok by now apply ltb_0_eqb_0.
Qed.

Lemma write_yoy_total (financial_data : FinancialDataCreate.t)
  (previous_data : option FinancialData.t) :
  exists y, write_yoy financial_data previous_data = Ok y.
Proof.
  destruct previous_data as [prev|]; [|now eexists].
  unfold write_yoy.
  repeat
    match goal with
    | |- context [bind (calc_percent_change ?a ?b) _] =>
        destruct (calc_percent_change_total a b) as [? ->]; cbn [bind]
    end.
  destruct (FinancialDataCreate.book_value financial_data) as [bv|];
    [destruct (FinancialData.book_value prev) as [pbv|];
     [destruct (calc_percent_change_total bv (Some pbv)) as [? ->]|]|];
    cbn [bind]; now eexists.
Qed.

Lemma previous_year_ok (fiscal_year : string) (year : Z) :
  Py.int fiscal_year = Ok year ->
  previous_year fiscal_year = Ok (Py.str (year - 1)).
Proof. unfold previous_year. now intros ->. Qed.

Lemma previous_year_inv (fiscal_year py : string) :
  previous_year fiscal_year = Ok py ->
  exists year, Py.int fiscal_year = Ok year /\ py = Py.str (year - 1).
Proof.
  unfold previous_year. intros H. bind_inv H. injection H as <-. eauto.
Qed.

(** The calculation succeeds whenever the fiscal year reads as an integer;
    of the store it uses the previous year's record and nothing else. *)
Lemma calculate_spec (s : Db.t) (company_id : Z) (fiscal_year py : string)
  (financial_data : FinancialDataCreate.t) :
  previous_year fiscal_year = Ok py ->
  exists c,
    calculate s company_id fiscal_year financial_data = Ok c
    /\ write_margins financial_data
       = Ok (Calculated.gross_profit_margin c,
             Calculated.operating_profit_margin c,
             Calculated.net_profit_margin c)
    /\ write_yoy financial_data (Db.financial_data_by_key s company_id py)
       = Ok (Calculated.revenue_yoy_change c,
             Calculated.gross_profit_yoy_change c,
             Calculated.operating_profit_yoy_change c,
             Calculated.net_profit_yoy_change c,
             Calculated.free_cash_flow_yoy_change c,
             Calculated.book_value_yoy_change c).
Proof.
  intros Hpy. unfold calculate.
  rewrite write_margins_spec. cbn [bind]. rewrite Hpy. cbn [bind].
  destruct (write_yoy_total financial_data
              (Db.financial_data_by_key s company_id py))
    as [[[[[[y1 y2] y3] y4] y5] y6] Hy].
  rewrite Hy. cbn [bind].
  destruct (0 <? FinancialDataCreate.total_revenue financial_data);
    eexists; repeat split.
Qed.

Lemma calculate_raise (s : Db.t) (company_id : Z) (fiscal_year : string)
  (financial_data : FinancialDataCreate.t) (e : exn) :
  previous_year fiscal_year = Raise e ->
  calculate s company_id fiscal_year financial_data = Raise e.
Proof.
  intros Hpy. unfold calculate. rewrite write_margins_spec. cbn [bind].
  destruct (0 <? _); now rewrite Hpy.
Qed.

Lemma written_set_calculated (keep : bool)
  (financial_data : FinancialDataCreate.t) (c : Calculated.t)
  (obj : FinancialData.t) :
  written financial_data c
          (set_calculated c (setattr_items keep financial_data obj)).
Proof. repeat split. Qed.

Lemma written_new (company_id id : Z)
  (financial_data : FinancialDataCreate.t) (c : Calculated.t) :
  written financial_data c (new_financial_data company_id financial_data c id).
Proof. repeat split. Qed.
End WritePath.

(** ** The store *)

Section StoreLists.
Variable A : Type.
Variable p : A -> bool.

Lemma find_none_existsb (l : list A) : find p l = None -> existsb p l = false.
Proof.
  induction l as [|x l IH]; cbn; [reflexivity|].
  destruct (p x); [discriminate | assumption].
Qed.

Lemma find_some_true (l : list A) (x : A) : find p l = Some x -> p x = true.
Proof. intros H. now apply find_some in H. Qed.

Lemma update_first_length (new : A) (l : list A) :
  List.length (Db.update_first p new l) = List.length l.
Proof.
  induction l as [|x l IH]; cbn; [reflexivity|].
  destruct (p x); cbn; congruence.
Qed.

Lemma find_update_first (new old : A) (l : list A) :
  p new = true -> find p l = Some old ->
  find p (Db.update_first p new l) = Some new.
Proof.
  intros Hnew. induction l as [|x l IH]; cbn; [discriminate|].
  destruct (p x) eqn:Hx; cbn.
  - now rewrite Hnew.
  - now rewrite Hx.
Qed.

Lemma update_first_in (new old : A) (l : list A) :
  find p l = Some old -> In new (Db.update_first p new l).
Proof.
  induction l as [|x l IH]; cbn; [discriminate|].
  destruct (p x); cbn; [now left | right; now apply IH].
Qed.

(** Replacing the first [p]-row by one that every filter [q] treats alike
    changes no count. *)
Lemma filter_update_first_length (q : A -> bool) (new : A) (l : list A) :
  (forall x, p x = true -> q x = q new) ->
  List.length (filter q (Db.update_first p new l)) = List.length (filter q l).
Proof.
  intros Hq. induction l as [|x l IH]; cbn; [reflexivity|].
  destruct (p x) eqn:Hx; cbn.
  - rewrite (Hq x Hx). now destruct (q new).
  - destruct (q x); cbn; congruence.
Qed.

Lemma filter_delete_first_length (q : A -> bool) (l : list A) :
  List.length (filter q (Db.delete_first p l)) <= List.length (filter q l).
Proof.
  induction l as [|x l IH]; cbn; [lia|].
  destruct (p x); cbn.
  - destruct (q x); cbn; lia.
  - destruct (q x); cbn; lia.
Qed.

Lemma filter_none_length (l : list A) :
  existsb p l = false -> filter p l = [].
Proof.
  induction l as [|x l IH]; cbn; [reflexivity|].
  destruct (p x); cbn; [discriminate | assumption].
Qed.
End StoreLists.

Lemma has_key_iff (cid : Z) (fy : string) (r : FinancialData.t) :
  FinancialData.has_key cid fy r = true
  <-> FinancialData.company_id r = cid /\ FinancialData.fiscal_year r = fy.
Proof.
  unfold FinancialData.has_key.
  rewrite andb_true_iff, Z.eqb_eq, String.eqb_eq. reflexivity.
Qed.

Lemma has_key_same (cid cid' : Z) (fy fy' : string) (x y : FinancialData.t) :
  FinancialData.has_key cid fy x = true ->
  FinancialData.has_key cid fy y = true ->
  FinancialData.has_key cid' fy' x = FinancialData.has_key cid' fy' y.
Proof.
  intros [Hx1 Hx2]%has_key_iff [Hy1 Hy2]%has_key_iff.
  unfold FinancialData.has_key. congruence.
Qed.

(** ** What the handlers do *)

Section Handlers.
Variable s : Db.t.
Variable company_id : Z.
Variable financial_data : FinancialDataCreate.t.

(** What [create_financial_data] does once the company is found and the
    fiscal year reads as an integer: it succeeds, on the existing row when
    there is one, else with a new row. *)
Lemma create_financial_data_ok (company : Company.t) (py : string) :
  let fiscal_year := FinancialDataCreate.fiscal_year financial_data in
  Db.company_by_id s company_id = Some company ->
  previous_year fiscal_year = Ok py ->
  exists c,
    calculate s company_id fiscal_year financial_data = Ok c
    /\ match Db.financial_data_by_key s company_id fiscal_year with
       | Some existing_data =>
           let r := set_calculated c
                      (setattr_items false financial_data existing_data) in
           create_financial_data s company_id financial_data
           = (Db.mk (Db.companies s)
                    (Db.update_first
                       (FinancialData.has_key company_id fiscal_year) r
                       (Db.financial_data s)),
              Ok r)
       | None =>
           let r := new_financial_data company_id financial_data c
                      (Db.next_id (map FinancialData.id (Db.financial_data s))) in
           create_financial_data s company_id financial_data
           = (Db.mk (Db.companies s) (Db.financial_data s ++ [r]), Ok r)
       end.
Proof.
  intros fiscal_year Hc Hpy.
  destruct (calculate_spec s company_id fiscal_year financial_data Hpy)
    as (c & Hcalc & _).
  exists c. split; [assumption|].
  unfold create_financial_data. fold fiscal_year. rewrite Hc, Hcalc.
  destruct (Db.financial_data_by_key s company_id fiscal_year) eqn:Hex;
    [reflexivity|].
  unfold Db.add_financial_data. cbn [new_financial_data
    FinancialData.company_id FinancialData.fiscal_year].
  fold fiscal_year. now rewrite (find_none_existsb _ _ Hex).
Qed.

(** What [update_financial_data] does once the row is found and the path's
    fiscal year reads as an integer. *)
Lemma update_financial_data_ok (fiscal_year py : string)
  (db_financial_data : FinancialData.t) :
  Db.financial_data_by_key s company_id fiscal_year = Some db_financial_data ->
  previous_year fiscal_year = Ok py ->
  exists c,
    calculate s company_id fiscal_year financial_data = Ok c
    /\ let r := set_calculated c
                  (setattr_items true financial_data db_financial_data) in
       update_financial_data s company_id fiscal_year financial_data
       = (Db.mk (Db.companies s)
                (Db.update_first
                   (FinancialData.has_key company_id fiscal_year) r
                   (Db.financial_data s)),
          Ok r).
Proof.
  intros Hex Hpy.
  destruct (calculate_spec s company_id fiscal_year financial_data Hpy)
    as (c & Hcalc & _).
  exists c. split; [assumption|].
  unfold update_financial_data. now rewrite Hex, Hcalc.
Qed.
End Handlers.

(** A body that passes validation is returned as it is, and its fiscal year
    reads as an integer. *)
Lemma validate_ok_inv (body financial_data : FinancialDataCreate.t) :
  FinancialDataCreate.validate body = Ok financial_data ->
  financial_data = body
  /\ exists year,
       Py.int (FinancialDataCreate.fiscal_year body) = Ok year
       /\ (1900 <= year <= 2100)%Z
       /\ FinancialDataCreate.gt0 (FinancialDataCreate.total_revenue body) = true
       /\ FinancialDataCreate.gt0 (FinancialDataCreate.number_of_shares body)
          = true.
Proof.
  unfold FinancialDataCreate.validate, FinancialDataCreate.validate_fiscal_year.
  destruct (Py.int (FinancialDataCreate.fiscal_year body)) as [year|e];
    [|discriminate].
  destruct ((year <? 1900)%Z || (2100 <? year)%Z) eqn:Hr; [discriminate|].
  destruct (FinancialDataCreate.gt0 _ && FinancialDataCreate.gt0 _) eqn:Hg;
    [|discriminate].
  intros [= <-]. split; [reflexivity|]. exists year.
  apply orb_false_iff in Hr. apply andb_true_iff in Hg.
  repeat split; try tauto; lia.
Qed.

(** ** The previous year's record on the write path *)

(** C2.  On submit and on update of a record with fiscal year [Y], the YoY
    columns written are computed from the payload and from the record that
    the store holds for the same company under the string
    [str(int(Y) - 1)], and from nothing else of the store; when there is no
    record under that key all six are [None], whatever other years the
    company has. *)
Theorem write_yoy_uses_literal_previous_year
  (s : Db.t) (company_id : Z) (fiscal_year : string) (year : Z)
  (financial_data : FinancialDataCreate.t) :
  Py.int fiscal_year = Ok year ->
  let previous_data :=
    Db.financial_data_by_key s company_id (Py.str (year - 1)) in
  (FinancialDataCreate.fiscal_year financial_data = fiscal_year ->
   Db.company_by_id s company_id <> None ->
   exists s' r,
     create_financial_data s company_id financial_data = (s', Ok r)
     /\ In r (Db.financial_data s')
     /\ write_yoy financial_data previous_data = Ok (yoy_columns r)
     /\ (previous_data = None ->
         yoy_columns r = (None, None, None, None, None, None)))
  /\ (Db.financial_data_by_key s company_id fiscal_year <> None ->
      exists s' r,
        update_financial_data s company_id fiscal_year financial_data
        = (s', Ok r)
        /\ In r (Db.financial_data s')
        /\ write_yoy financial_data previous_data = Ok (yoy_columns r)
        /\ (previous_data = None ->
            yoy_columns r = (None, None, None, None, None, None))).
Proof.
  intros Hint previous_data. subst previous_data.
  pose proof (previous_year_ok _ Hint) as Hpy.
  set (py := Py.str (year - 1)) in *.
  assert (Hnone : forall r,
            write_yoy financial_data (Db.financial_data_by_key s company_id py)
            = Ok (yoy_columns r) ->
            Db.financial_data_by_key s company_id py = None ->
            yoy_columns r = (None, None, None, None, None, None)).
  { intros r Hy Hno. rewrite Hno in Hy. cbn in Hy. congruence. }
  destruct (calculate_spec s company_id fiscal_year financial_data Hpy)
    as (c & Hcalc & _ & Hyoy).
  split.
  - intros Hfy Hcompany.
    destruct (Db.company_by_id s company_id) as [company|] eqn:Hc;
      [|congruence].
    subst fiscal_year.
    destruct (create_financial_data_ok s company_id financial_data Hc Hpy)
      as (c' & Hcalc' & Hcreate).
    assert (c' = c) by congruence. subst c'.
    destruct (Db.financial_data_by_key s company_id
                (FinancialDataCreate.fiscal_year financial_data))
      as [existing|] eqn:Hex; cbv zeta in Hcreate;
      do 2 eexists; (split; [exact Hcreate|]); cbn [Db.financial_data].
    + split; [eapply update_first_in; exact Hex|].
      split; [exact Hyoy | apply Hnone; exact Hyoy].
    + split; [apply in_or_app; right; now left|].
      split; [exact Hyoy | apply Hnone; exact Hyoy].
  - intros Hrow.
    destruct (Db.financial_data_by_key s company_id fiscal_year)
      as [old|] eqn:Hex; [|congruence].
    destruct (update_financial_data_ok s company_id financial_data
                fiscal_year Hex Hpy) as (c' & Hcalc' & Hupdate).
    assert (c' = c) by congruence. subst c'. cbv zeta in Hupdate.
    do 2 eexists. split; [exact Hupdate|]. cbn [Db.financial_data].
    split; [eapply update_first_in; exact Hex|].
    split; [exact Hyoy | apply Hnone; exact Hyoy].
Qed.

(** The company has 2020 and 2021; 2023 is submitted; no record is keyed
    "2022", so the new record has no YoY value. *)
Lemma write_yoy_uses_literal_previous_year_witness :
  map FinancialData.fiscal_year (Db.financial_data_of example_store 1)
  = ["2020"; "2021"]
  /\ exists s' r,
       create_financial_data example_store 1
         (example_body "2023" 1200000 600000 400000 300000 1000 70000)
       = (s', Ok r)
       /\ In r (Db.financial_data s')
       /\ yoy_columns r = (None, None, None, None, None, None).
Proof.
  split; [reflexivity|].
  destruct (proj1 (@write_yoy_uses_literal_previous_year example_store 1
                     "2023" 2023
                     (example_body "2023" 1200000 600000 400000 300000 1000
                                   70000)
                     eq_refl) eq_refl)
    as (s' & r & Hcreate & Hin & _ & Hnone).
  - vm_compute. discriminate.
  - exists s', r. split; [exact Hcreate|]. split; [exact Hin|].
    apply Hnone. reflexivity.
Defined.

(** ** One record for each company and fiscal year *)

Lemma has_key_self (r : FinancialData.t) :
  FinancialData.has_key (FinancialData.company_id r)
                        (FinancialData.fiscal_year r) r = true.
Proof. now apply has_key_iff. Qed.

Lemma create_financial_data_step (s : Db.t) (company_id : Z)
  (financial_data : FinancialDataCreate.t) :
  let s' := fst (create_financial_data s company_id financial_data) in
  Db.companies s' = Db.companies s
  /\ table_step (Db.financial_data s) (Db.financial_data s').
Proof.
  unfold create_financial_data.
  destruct (Db.company_by_id s company_id); [|split; [reflexivity|constructor]].
  destruct (calculate _ _ _ _) as [c|e]; [|split; [reflexivity|constructor]].
  destruct (Db.financial_data_by_key _ _ _) as [existing|] eqn:Hex; cbn.
  - split; [reflexivity|]. apply table_update.
    apply find_some_true in Hex. apply has_key_iff in Hex.
    now apply has_key_iff.
  - unfold Db.add_financial_data.
    destruct (existsb _ _) eqn:Hk; cbn; split; try reflexivity;
      [constructor | now apply table_insert].
Qed.

Lemma update_financial_data_step (s : Db.t) (company_id : Z)
  (fiscal_year : string) (financial_data : FinancialDataCreate.t) :
  let s' := fst (update_financial_data s company_id fiscal_year
                                       financial_data) in
  Db.companies s' = Db.companies s
  /\ table_step (Db.financial_data s) (Db.financial_data s').
Proof.
  unfold update_financial_data.
  destruct (Db.financial_data_by_key _ _ _) as [old|] eqn:Hex;
    [|split; [reflexivity|constructor]].
  destruct (calculate _ _ _ _) as [c|e]; [|split; [reflexivity|constructor]].
  cbn. split; [reflexivity|]. apply table_update.
  apply find_some_true in Hex. apply has_key_iff in Hex.
  now apply has_key_iff.
Qed.

Lemma serve_step (s : Db.t) (r : request) :
  table_step (Db.financial_data s) (Db.financial_data (serve s r)).
Proof.
  destruct r as [name user | cid body | cid fy body | cid fy]; cbn.
  - unfold create_company, Db.add_company.
    destruct (existsb _ _); cbn; constructor.
  - unfold submit. destruct (FinancialDataCreate.validate body);
      [apply create_financial_data_step | constructor].
  - unfold update. destruct (FinancialDataCreate.validate body);
      [apply update_financial_data_step | constructor].
  - unfold delete_financial_data.
    destruct (Db.financial_data_by_key _ _ _); cbn; constructor.
Qed.

Lemma table_step_unique (s s' : Db.t) :
  table_step (Db.financial_data s) (Db.financial_data s') ->
  unique_keys s -> unique_keys s'.
Proof.
  unfold unique_keys, rows_with_key.
  generalize (Db.financial_data s) (Db.financial_data s').
  intros l l' Hstep Hu cid fy. specialize (Hu cid fy).
  destruct Hstep as [ | cid0 fy0 r Hr | r Hr | cid0 fy0 ].
  - assumption.
  - rewrite filter_update_first_length; [assumption|].
    intros x Hx. now apply has_key_same with (cid := cid0) (fy := fy0).
  - rewrite filter_app, length_app. cbn.
    destruct (FinancialData.has_key cid fy r) eqn:Hk; cbn; [|lia].
    apply has_key_iff in Hk. destruct Hk as [<- <-].
    rewrite (filter_none_length _ _ Hr). cbn. lia.
  - etransitivity; [apply filter_delete_first_length | assumption].
Qed.

Lemma reachable_unique_keys (s : Db.t) : reachable s -> unique_keys s.
Proof.
  induction 1 as [|s r _ IH].
  - intros cid fy. cbn. lia.
  - eapply table_step_unique; [apply serve_step | assumption].
Qed.

Lemma find_filter_head {A : Type} (p : A -> bool) (l : list A) (x : A) :
  find p l = Some x -> exists rest, filter p l = x :: rest.
Proof.
  induction l as [|y l IH]; cbn; [discriminate|].
  destruct (p y); [intros [= ->]; now eexists | assumption].
Qed.

Lemma unique_find_rows (s : Db.t) (cid : Z) (fy : string)
  (r : FinancialData.t) :
  unique_keys s -> Db.financial_data_by_key s cid fy = Some r ->
  rows_with_key s cid fy = [r].
Proof.
  intros Hu Hf. specialize (Hu cid fy). unfold rows_with_key in *.
  destruct (find_filter_head _ _ Hf) as [rest Hrest].
  rewrite Hrest in *. destruct rest; [reflexivity | cbn in Hu; lia].
Qed.

Lemma find_app_new {A : Type} (p : A -> bool) (l : list A) (x : A) :
  find p l = None -> p x = true -> find p (l ++ [x]) = Some x.
Proof.
  intros Hl Hx. induction l as [|y l IH]; cbn in *; [now rewrite Hx|].
  destruct (p y); [discriminate | now apply IH].
Qed.

(** After a submit that succeeds, the record returned is the one the store
    holds under the key. *)
Lemma submit_stores (s s1 : Db.t) (cid : Z) (body : FinancialDataCreate.t)
  (r1 : FinancialData.t) :
  submit s cid body = (s1, Ok r1) ->
  Db.companies s1 = Db.companies s
  /\ Db.financial_data_by_key s1 cid (FinancialDataCreate.fiscal_year body)
     = Some r1.
Proof.
  unfold submit. destruct (FinancialDataCreate.validate body) as [fd|] eqn:Hv;
    [|discriminate].
  destruct (validate_ok_inv _ Hv) as (-> & year & Hint & _).
  unfold create_financial_data.
  destruct (Db.company_by_id s cid); [|discriminate].
  destruct (calculate _ _ _ _) as [c|e]; [|discriminate].
  destruct (Db.financial_data_by_key s cid _) as [existing|] eqn:Hex.
  - intros [= <- <-]. split; [reflexivity|].
    unfold Db.financial_data_by_key. cbn [Db.financial_data].
    eapply find_update_first; [|exact Hex].
    apply find_some_true in Hex. apply has_key_iff in Hex.
    now apply has_key_iff.
  - unfold Db.add_financial_data. destruct (existsb _ _); [discriminate|].
    intros [= <- <-]. split; [reflexivity|].
    unfold Db.financial_data_by_key. cbn [Db.financial_data].
    apply find_app_new; [exact Hex | now apply has_key_iff].
Qed.

Lemma submit_ok_inv (s s1 : Db.t) (cid : Z) (body : FinancialDataCreate.t)
  (r1 : FinancialData.t) :
  submit s cid body = (s1, Ok r1) ->
  FinancialDataCreate.validate body = Ok body
  /\ exists company, Db.company_by_id s cid = Some company.
Proof.
  unfold submit. destruct (FinancialDataCreate.validate body) as [fd|] eqn:Hv;
    [|discriminate].
  destruct (validate_ok_inv _ Hv) as (-> & _).
  unfold create_financial_data.
  destruct (Db.company_by_id s cid) as [company|]; [|discriminate].
  intros _. split; [reflexivity | now exists company].
Qed.

(** A second submit for the key of a first one that succeeded: it
    succeeds, and writes over the row that the first one left. *)
Lemma submit_again (s s1 : Db.t) (cid : Z)
  (body1 body2 : FinancialDataCreate.t) (r1 : FinancialData.t) :
  reachable s ->
  submit s cid body1 = (s1, Ok r1) ->
  FinancialDataCreate.validate body2 = Ok body2 ->
  FinancialDataCreate.fiscal_year body2 = FinancialDataCreate.fiscal_year body1 ->
  let fy := FinancialDataCreate.fiscal_year body1 in
  exists s2 r2,
    submit s1 cid body2 = (s2, Ok r2)
    /\ rows_with_key s1 cid fy = [r1]
    /\ rows_with_key s2 cid fy = [r2]
    /\ FinancialData.id r2 = FinancialData.id r1
    /\ Db.financial_data s2
       = Db.update_first (FinancialData.has_key cid fy) r2
                         (Db.financial_data s1)
    /\ List.length (Db.financial_data s2) = List.length (Db.financial_data s1).
Proof.
  intros Hreach H1 Hv2 Hfy fy.
  assert (Hreach1 : reachable s1).
  { replace s1 with (serve s (PostFinancialData cid body1))
      by (cbn; now rewrite H1).
    now constructor. }
  destruct (submit_ok_inv _ _ _ H1) as (_ & company & Hcompany).
  destruct (submit_stores _ _ _ H1) as (Hcs & Hrow1). fold fy in Hrow1.
  destruct (validate_ok_inv _ Hv2) as (_ & year & Hint & _).
  assert (Hcompany1 : Db.company_by_id s1 cid = Some company).
  { unfold Db.company_by_id in *. now rewrite Hcs. }
  destruct (create_financial_data_ok s1 cid body2 Hcompany1
              (previous_year_ok _ Hint)) as (c & _ & Hcreate).
  rewrite Hfy in Hcreate. fold fy in Hcreate. rewrite Hrow1 in Hcreate.
  cbv zeta in Hcreate.
  assert (H2 : submit s1 cid body2
               = (Db.mk (Db.companies s1)
                        (Db.update_first (FinancialData.has_key cid fy)
                           (set_calculated c (setattr_items false body2 r1))
                           (Db.financial_data s1)),
                  Ok (set_calculated c (setattr_items false body2 r1)))).
  { unfold submit. now rewrite Hv2. }
  do 2 eexists. split; [exact H2|].
  assert (Hreach2 : reachable
            (Db.mk (Db.companies s1)
               (Db.update_first (FinancialData.has_key cid fy)
                  (set_calculated c (setattr_items false body2 r1))
                  (Db.financial_data s1)))).
  { replace (Db.mk _ _) with (serve s1 (PostFinancialData cid body2))
      by (cbn; now rewrite H2).
    now constructor. }
  destruct (submit_stores _ _ _ H2) as (_ & Hrow2).
  rewrite Hfy in Hrow2. fold fy in Hrow2.
  repeat split.
  - apply unique_find_rows; [now apply reachable_unique_keys | assumption].
  - apply unique_find_rows; [now apply reachable_unique_keys | assumption].
  - cbn [Db.financial_data]. apply update_first_length.
Qed.



(** ** The dashboard as a whole *)

Lemma calculate_financial_metrics_loop (l : list FinancialData.t)
  (company_name : string) :
  exists ms,
    calculate_financial_metrics l company_name
    = Ok {| DashboardResponse.company := company_name;
            DashboardResponse.metrics := ms |}
    /\ metrics_loop None (Py.sorted FinancialData.fiscal_year l) = Ok ms.
Proof.
  destruct l as [|d l]; [now exists []|].
  unfold calculate_financial_metrics.
  destruct (metrics_loop_total None
              (Py.sorted FinancialData.fiscal_year (d :: l))) as [ms Hms].
  rewrite Hms. now exists ms.
Qed.

Lemma metrics_loop_years (l : list FinancialData.t) :
  forall prev ms,
    metrics_loop prev l = Ok ms ->
    map Metric.year ms = map FinancialData.fiscal_year l.
Proof.
  induction l as [|d l IH]; intros prev ms H; cbn in H.
  - now injection H as <-.
  - bind_inv H. injection H as <-. cbn.
    now rewrite (@metric_year _ _ _ E), (IH _ _ E0).
Qed.

(** Every metric is the loop body applied to the record of its position and
    to the record before it. *)
Lemma metrics_loop_preceding (l : list FinancialData.t) (ms : list Metric.t) :
  metrics_loop None l = Ok ms ->
  forall i data,
    nth_error l i = Some data ->
    exists m, nth_error ms i = Some m /\ metric_of (preceding l i) data = Ok m.
Proof.
  intros H i data Hi.
  destruct (metrics_loop_nth _ _ H) as [_ Hnth].
  destruct (Hnth i data Hi) as (m & Hm & Hmo).
  exists m. split; [assumption | now destruct i].
Qed.

Lemma metrics_loop_forall2 (l : list FinancialData.t) :
  forall prev ms,
    metrics_loop prev l = Ok ms ->
    Forall2 (fun data m => exists p, metric_of p data = Ok m) l ms.
Proof.
  induction l as [|d l IH]; intros prev ms H; cbn in H.
  - injection H as <-. constructor.
  - bind_inv H. injection H as <-. constructor; [now exists prev|].
    now apply IH with (Some d).
Qed.

(** ** Margins *)

Lemma calculate_inv (s : Db.t) (company_id : Z) (fiscal_year : string)
  (financial_data : FinancialDataCreate.t) (c : Calculated.t) :
  calculate s company_id fiscal_year financial_data = Ok c ->
  write_margins financial_data
  = Ok (Calculated.gross_profit_margin c, Calculated.operating_profit_margin c,
        Calculated.net_profit_margin c).
Proof.
  intros Hc. destruct (previous_year fiscal_year) as [py|e] eqn:Hpy.
  - destruct (calculate_spec s company_id fiscal_year financial_data Hpy)
      as (c' & Hc' & Hm & _).
    now replace c with c' by congruence.
  - rewrite (calculate_raise s company_id fiscal_year financial_data Hpy) in Hc.
    discriminate.
Qed.

Lemma create_financial_data_inv (s s' : Db.t) (company_id : Z)
  (financial_data : FinancialDataCreate.t) (r : FinancialData.t) :
  create_financial_data s company_id financial_data = (s', Ok r) ->
  exists c,
    calculate s company_id (FinancialDataCreate.fiscal_year financial_data)
              financial_data = Ok c
    /\ written financial_data c r.
Proof.
  unfold create_financial_data.
  destruct (Db.company_by_id s company_id); [|discriminate].
  destruct (calculate _ _ _ _) as [c|e]; [|discriminate].
  destruct (Db.financial_data_by_key _ _ _) as [existing|].
  - intros [= <- <-]. exists c. split; [reflexivity|].
    apply written_set_calculated.
  - unfold Db.add_financial_data. destruct (existsb _ _); [discriminate|].
    intros [= <- <-]. exists c. split; [reflexivity | apply written_new].
Qed.

Lemma update_financial_data_inv (s s' : Db.t) (company_id : Z)
  (fiscal_year : string) (financial_data : FinancialDataCreate.t)
  (r : FinancialData.t) :
  update_financial_data s company_id fiscal_year financial_data = (s', Ok r) ->
  exists c old,
    Db.financial_data_by_key s company_id fiscal_year = Some old
    /\ calculate s company_id fiscal_year financial_data = Ok c
    /\ r = set_calculated c (setattr_items true financial_data old)
    /\ s' = Db.mk (Db.companies s)
              (Db.update_first (FinancialData.has_key company_id fiscal_year)
                               r (Db.financial_data s)).
Proof.
  unfold update_financial_data.
  destruct (Db.financial_data_by_key _ _ _) as [old|]; [|discriminate].
  destruct (calculate _ _ _ _) as [c|e]; [|discriminate].
  intros [= <- <-]. now exists c, old.
Qed.

Lemma read_margin_value_spec (stored profit total_revenue : option float) :
  read_margin stored (Py.float_or_0 profit) (Py.float_or_0 total_revenue)
  = Ok (read_margin_value stored profit total_revenue).
Proof.
  destruct stored as [v|]; [reflexivity|]. rewrite read_margin_null.
  unfold read_margin_value. destruct (Py.truthy total_revenue) eqn:Ht.
  - now rewrite float_or_0_truthy_iff.
  - rewrite (float_or_0_falsy _ Ht). reflexivity.
Qed.

Lemma written_margins (financial_data : FinancialDataCreate.t)
  (c : Calculated.t) (r : FinancialData.t) :
  write_margins financial_data
  = Ok (Calculated.gross_profit_margin c, Calculated.operating_profit_margin c,
        Calculated.net_profit_margin c) ->
  written financial_data c r ->
  let total_revenue := FinancialDataCreate.total_revenue financial_data in
  margin_columns r
  = (write_margin (FinancialDataCreate.gross_profit financial_data)
                  total_revenue,
     write_margin (FinancialDataCreate.operating_profit financial_data)
                  total_revenue,
     write_margin (FinancialDataCreate.net_profit financial_data)
                  total_revenue).
Proof.
  intros Hm (Hcols & _). cbv zeta. rewrite Hcols.
  rewrite write_margins_spec in Hm. cbv zeta in Hm. unfold write_margin.
  destruct (0 <? FinancialDataCreate.total_revenue financial_data)%float;
    congruence.
Qed.




(** ** Ratios derived on read *)

(** C5, as the code has it.  On read, a [return_on_equity] that is not
    stored is [net_profit / shareholders_equity] when [net_profit] is
    present and not zero and [shareholders_equity] is present and not zero;
    likewise [return_on_assets] over [total_assets]; a
    [book_value_per_share] that is not stored is
    [shareholders_equity / number_of_shares] when both are present and not
    zero.  A ratio that is stored is reported as it is. *)
Theorem ratios_derived_on_read (prev_year_data : option FinancialData.t)
  (data : FinancialData.t) :
  exists m,
    metric_of prev_year_data data = Ok m
    /\ (forall np se,
          FinancialData.return_on_equity data = None ->
          FinancialData.net_profit data = Some np -> (np =? 0)%float = false ->
          FinancialData.shareholders_equity data = Some se ->
          (se =? 0)%float = false ->
          Metric.return_on_equity m = Some (np / se)%float)
    /\ (forall np ta,
          FinancialData.return_on_assets data = None ->
          FinancialData.net_profit data = Some np -> (np =? 0)%float = false ->
          FinancialData.total_assets data = Some ta ->
          (ta =? 0)%float = false ->
          Metric.return_on_assets m = Some (np / ta)%float)
    /\ (forall se ns,
          FinancialData.book_value_per_share data = None ->
          FinancialData.shareholders_equity data = Some se ->
          (se =? 0)%float = false ->
          FinancialData.number_of_shares data = Some ns ->
          (ns =? 0)%float = false ->
          Metric.book_value_per_share m = Some (se / ns)%float)
    /\ (forall v, FinancialData.return_on_equity data = Some v ->
                  Metric.return_on_equity m = Some v)
    /\ (forall v, FinancialData.return_on_assets data = Some v ->
                  Metric.return_on_assets m = Some v)
    /\ (forall v, FinancialData.book_value_per_share data = Some v ->
                  Metric.book_value_per_share m = Some v).
Proof.
  destruct (metric_of_total prev_year_data data) as [m Hm].
  exists m. split; [assumption|].
  pose proof (metric_return_on_equity Hm) as Hroe.
  pose proof (metric_return_on_assets Hm) as Hroa.
  pose proof (metric_book_value_per_share Hm) as Hbv.
  repeat apply conj.
  - intros np se Hs Hnp Hnz Hse Hsz.
    rewrite Hs, Hnp, Hse, read_ratio_null in Hroe.
    rewrite !float_or_0_truthy in Hroe by assumption.
    cbn in Hroe. unfold Py.float_truthy in Hroe. rewrite Hnz, Hsz in Hroe.
    cbn in Hroe. congruence.
  - intros np ta Hs Hnp Hnz Hta Htz.
    rewrite Hs, Hnp, Hta, read_ratio_null in Hroa.
    rewrite !float_or_0_truthy in Hroa by assumption.
    cbn in Hroa. unfold Py.float_truthy in Hroa. rewrite Hnz, Htz in Hroa.
    cbn in Hroa. congruence.
  - intros se ns Hs Hse Hsz Hns Hnz.
    rewrite Hs, Hse, Hns, read_book_value_per_share_null in Hbv.
    rewrite !float_or_0_truthy in Hbv by assumption.
    cbn in Hbv. unfold Py.float_truthy in Hbv. rewrite Hnz, Hsz in Hbv.
    cbn in Hbv. congruence.
  - intros v Hs. rewrite Hs in Hroe. cbn in Hroe. congruence.
  - intros v Hs. rewrite Hs in Hroa. cbn in Hroa. congruence.
  - intros v Hs. rewrite Hs in Hbv. cbn in Hbv. congruence.
Qed.

(** A legacy row with a net profit of 200,000, an equity of 1,000,000,
    assets of 2,000,000 and 1,000 shares. *)
Lemma ratios_derived_on_read_witness :
  exists m,
    metric_of None
      (example_row "2023" (Some 1000000%float) (Some 500000%float)
                   (Some 200000%float) (Some 1000%float) None None
                   (Some 1000000%float) (Some 2000000%float)) = Ok m
    /\ Metric.return_on_equity m = Some (200000 / 1000000)%float
    /\ Metric.return_on_assets m = Some (200000 / 2000000)%float
    /\ Metric.book_value_per_share m = Some (1000000 / 1000)%float.
Proof.
  destruct (ratios_derived_on_read None
              (example_row "2023" (Some 1000000%float) (Some 500000%float)
                           (Some 200000%float) (Some 1000%float) None None
                           (Some 1000000%float) (Some 2000000%float)))
    as (m & Hm & Hroe & Hroa & Hbv & _).
  exists m. split; [exact Hm|]. split; [|split].
  - apply Hroe; reflexivity.
  - apply Hroa; reflexivity.
  - apply Hbv; reflexivity.
Defined.

(** C5 as stated fails when a numerator is present and zero.  With a stored
    [net_profit] of zero and an equity of 100 the dashboard leaves
    [return_on_equity] unset, where [net_profit / shareholders_equity] is
    zero; with an equity of zero and 10 shares it leaves
    [book_value_per_share] unset, where the quotient is zero. *)
Lemma ratio_zero_numerator_counterexample :
  (exists m,
      metric_of None
        (example_row "2023" (Some 1000%float) (Some 500%float)
                     (Some 0%float) (Some 10%float) None None
                     (Some 100%float) None) = Ok m
      /\ Metric.return_on_equity m = None
      /\ (0 / 100)%float = 0%float)
  /\ (exists m,
        metric_of None
          (example_row "2023" (Some 1000%float) (Some 500%float)
                       (Some 50%float) (Some 10%float) None None
                       (Some 0%float) None) = Ok m
        /\ Metric.book_value_per_share m = None
        /\ (0 / 10)%float = 0%float).
Proof.
  split; eexists; repeat split.
Qed.

(** ** YoY values on read *)

Lemma metric_yoy_rule (prev : option FinancialData.t) (data : FinancialData.t)
  (m : Metric.t) :
  metric_of prev data = Ok m ->
  Ok (Yoy.revenue (Metric.yoy m))
  = yoy_on_read (FinancialData.revenue_yoy_change data)
      (recomputed_yoy prev FinancialData.total_revenue
         (Some (Py.float_or_0 (FinancialData.total_revenue data))))
  /\ Ok (Yoy.gross_profit (Metric.yoy m))
     = yoy_on_read (FinancialData.gross_profit_yoy_change data)
         (recomputed_yoy prev FinancialData.gross_profit
            (Some (Py.float_or_0 (FinancialData.gross_profit data))))
  /\ Ok (Yoy.operating_profit (Metric.yoy m))
     = yoy_on_read (FinancialData.operating_profit_yoy_change data)
         (recomputed_yoy prev FinancialData.operating_profit
            (Some (Py.float_or_0 (FinancialData.operating_profit data))))
  /\ Ok (Yoy.net_profit (Metric.yoy m))
     = yoy_on_read (FinancialData.net_profit_yoy_change data)
         (recomputed_yoy prev FinancialData.net_profit
            (Some (Py.float_or_0 (FinancialData.net_profit data))))
  /\ Ok (Yoy.free_cash_flow (Metric.yoy m))
     = yoy_on_read (FinancialData.free_cash_flow_yoy_change data)
         (recomputed_yoy prev FinancialData.free_cash_flow
            (Some (Py.float_or_0 (FinancialData.free_cash_flow data))))
  /\ Ok (Yoy.book_value (Metric.yoy m))
     = yoy_on_read (FinancialData.book_value_yoy_change data)
         (recomputed_yoy prev FinancialData.book_value
            (FinancialData.book_value data)).
Proof.
  intros Hm. destruct prev as [p|].
  - destruct (@metric_yoy_next _ _ _ Hm) as (H1 & H2 & H3 & H4 & H5 & H6).
    rewrite <- H1, <- H2, <- H3, <- H4, <- H5, <- H6.
    unfold yoy_on_read, recomputed_yoy.
    repeat split;
      match goal with
      | |- read_yoy ?s _ _ = _ =>
          destruct s; [reflexivity | apply read_yoy_null]
      | |- read_yoy_book_value ?s _ _ = _ =>
          destruct s; [reflexivity | apply read_yoy_book_value_null]
      end.
  - rewrite (@metric_yoy_first _ _ Hm). cbn.
    unfold yoy_on_read, recomputed_yoy.
    repeat split;
      match goal with
      | |- _ = match ?s with _ => _ end => now destruct s
      end.
Qed.

(** C6.  On the dashboard, for every record and every YoY metric, the entry
    of the [yoy] mapping is the stored value, unchanged, when the stored
    YoY column is not [None]; only when it is [None] is the entry
    recomputed, from the record that precedes it in the sorted sequence,
    with [calc_percent_change], the helper of the write path. *)
Theorem yoy_recomputed_only_when_null (l : list FinancialData.t)
  (company_name : string) :
  exists ms,
    calculate_financial_metrics l company_name
    = Ok {| DashboardResponse.company := company_name;
            DashboardResponse.metrics := ms |}
    /\ forall i data,
         nth_error (Py.sorted FinancialData.fiscal_year l) i = Some data ->
         let prev := preceding (Py.sorted FinancialData.fiscal_year l) i in
         exists m,
           nth_error ms i = Some m
           /\ Ok (Yoy.revenue (Metric.yoy m))
              = yoy_on_read (FinancialData.revenue_yoy_change data)
                  (recomputed_yoy prev FinancialData.total_revenue
                     (Some (Py.float_or_0 (FinancialData.total_revenue data))))
           /\ Ok (Yoy.gross_profit (Metric.yoy m))
              = yoy_on_read (FinancialData.gross_profit_yoy_change data)
                  (recomputed_yoy prev FinancialData.gross_profit
                     (Some (Py.float_or_0 (FinancialData.gross_profit data))))
           /\ Ok (Yoy.operating_profit (Metric.yoy m))
              = yoy_on_read (FinancialData.operating_profit_yoy_change data)
                  (recomputed_yoy prev FinancialData.operating_profit
                     (Some (Py.float_or_0
                              (FinancialData.operating_profit data))))
           /\ Ok (Yoy.net_profit (Metric.yoy m))
              = yoy_on_read (FinancialData.net_profit_yoy_change data)
                  (recomputed_yoy prev FinancialData.net_profit
                     (Some (Py.float_or_0 (FinancialData.net_profit data))))
           /\ Ok (Yoy.free_cash_flow (Metric.yoy m))
              = yoy_on_read (FinancialData.free_cash_flow_yoy_change data)
                  (recomputed_yoy prev FinancialData.free_cash_flow
                     (Some (Py.float_or_0 (FinancialData.free_cash_flow data))))
           /\ Ok (Yoy.book_value (Metric.yoy m))
              = yoy_on_read (FinancialData.book_value_yoy_change data)
                  (recomputed_yoy prev FinancialData.book_value
                     (FinancialData.book_value data)).
Proof.
  destruct (calculate_financial_metrics_loop l company_name)
    as (ms & Hcalc & Hloop).
  exists ms. split; [assumption|].
  intros i data Hi prev.
  destruct (@metrics_loop_preceding _ _ Hloop i data Hi) as (m & Hm & Hmo).
  exists m. split; [assumption|]. now apply metric_yoy_rule.
Qed.

(** Three legacy rows, given out of order: 2021 has no stored revenue YoY,
    2022 has a stored one of 7.  The entry of 2021 is recomputed from 2020 (25
    percent); the entry of 2022 stays 7, though 1,500,000 after 1,000,000 is
    50 percent. *)
Lemma yoy_recomputed_only_when_null_witness :
  let r2020 := example_row "2020" (Some 800000%float) None None None
                           None None None None in
  let r2021 := example_row "2021" (Some 1000000%float) None None None
                           None None None None in
  let r2022 := example_row "2022" (Some 1500000%float) None None None
                           None (Some 7%float) None None in
  exists ms m1 m2,
    calculate_financial_metrics [r2022; r2020; r2021] "Acme"
    = Ok {| DashboardResponse.company := "Acme";
            DashboardResponse.metrics := ms |}
    /\ nth_error ms 1 = Some m1
    /\ Ok (Yoy.revenue (Metric.yoy m1)) = Ok (Some 25%float)
    /\ nth_error ms 2 = Some m2
    /\ Ok (Yoy.revenue (Metric.yoy m2)) = Ok (Some 7%float).
Proof.
  intros r2020 r2021 r2022.
  destruct (yoy_recomputed_only_when_null [r2022; r2020; r2021] "Acme")
    as (ms & Hcalc & Hnth).
  destruct (Hnth 1%nat r2021 eq_refl) as (m1 & Hm1 & Hrev1 & _).
  destruct (Hnth 2%nat r2022 eq_refl) as (m2 & Hm2 & Hrev2 & _).
  exists ms, m1, m2. repeat split; assumption.
Defined.

(** ** The flat YoY keys of the dashboard *)

(** C7.  On the dashboard the flat YoY keys of every metric
    ([revenue_yoy_change], [gross_profit_yoy_change],
    [operating_profit_yoy_change], [net_profit_yoy_change],
    [free_cash_flow_yoy_change], [book_value_yoy_change]) equal the values
    stored on its record, [None] included, whatever precedes the record: a
    value recomputed at read time is in the [yoy] mapping only. *)
Theorem dashboard_flat_yoy_is_stored (l : list FinancialData.t)
  (company_name : string) :
  exists ms,
    calculate_financial_metrics l company_name
    = Ok {| DashboardResponse.company := company_name;
            DashboardResponse.metrics := ms |}
    /\ Forall2 flat_yoy_is_stored (Py.sorted FinancialData.fiscal_year l) ms
    /\ Forall2 (fun data m =>
                  forall prev m',
                    metric_of prev data = Ok m' ->
                    flat_yoy_is_stored data m'
                    /\ Metric.revenue_yoy_change m'
                       = Metric.revenue_yoy_change m)
               (Py.sorted FinancialData.fiscal_year l) ms.
Proof.
  destruct (calculate_financial_metrics_loop l company_name)
    as (ms & Hcalc & Hloop).
  exists ms. split; [assumption|].
  pose proof (metrics_loop_forall2 _ _ Hloop) as Hall.
  split.
  - eapply Forall2_impl; [|exact Hall].
    intros data m (p & Hm). exact (metric_flat_yoy Hm).
  - eapply Forall2_impl; [|exact Hall].
    intros data m (p & Hm) prev m' Hm'.
    pose proof (metric_flat_yoy Hm) as (H1 & _).
    pose proof (metric_flat_yoy Hm') as Hflat.
    split; [exact Hflat|]. destruct Hflat as (H1' & _). congruence.
Qed.

(** The rows of the example for C6: the revenue YoY of 2021 is recomputed in
    the mapping (25 percent) and stays [None] in the flat key. *)
Lemma dashboard_flat_yoy_is_stored_witness :
  let r2020 := example_row "2020" (Some 800000%float) None None None
                           None None None None in
  let r2021 := example_row "2021" (Some 1000000%float) None None None
                           None None None None in
  exists ms m1,
    calculate_financial_metrics [r2021; r2020] "Acme"
    = Ok {| DashboardResponse.company := "Acme";
            DashboardResponse.metrics := ms |}
    /\ Forall2 flat_yoy_is_stored [r2020; r2021] ms
    /\ nth_error ms 1 = Some m1
    /\ Metric.revenue_yoy_change m1 = None
    /\ Yoy.revenue (Metric.yoy m1) = Some 25%float.
Proof.
  intros r2020 r2021.
  destruct (dashboard_flat_yoy_is_stored [r2021; r2020] "Acme")
    as (ms & Hcalc & Hflat & _).
  exists ms.
  assert (Hms : exists m1, nth_error ms 1 = Some m1
                           /\ Metric.revenue_yoy_change m1 = None
                           /\ Yoy.revenue (Metric.yoy m1) = Some 25%float).
  { vm_compute in Hcalc. injection Hcalc as <-. eexists. repeat split. }
  destruct Hms as (m1 & Hm1 & Hflat1 & Hyoy1).
  exists m1. repeat split; assumption.
Defined.

(** ** The order of the dashboard *)

(** C8.  The dashboard never raises.  Its metrics follow the records
    reordered by ascending comparison of [fiscal_year] as strings (the
    years of the metrics are those of the input, in ascending string order),
    and the metric of each position is computed with the record of the
    position before it as the previous one, the first with none.  The order
    is not the numeric one: "10" sorts before "9". *)
Theorem dashboard_sorted_by_fiscal_year_string (l : list FinancialData.t)
  (company_name : string) :
  let sorted_data := Py.sorted FinancialData.fiscal_year l in
  exists ms,
    calculate_financial_metrics l company_name
    = Ok {| DashboardResponse.company := company_name;
            DashboardResponse.metrics := ms |}
    /\ Permutation l sorted_data
    /\ map Metric.year ms = map FinancialData.fiscal_year sorted_data
    /\ Sorted (fun a b => Py.str_le a b = true) (map Metric.year ms)
    /\ (forall i data,
          nth_error sorted_data i = Some data ->
          exists m,
            nth_error ms i = Some m
            /\ metric_of (preceding sorted_data i) data = Ok m)
    /\ (Py.str_le "10" "9" = true /\ Py.str_le "9" "10" = false
        /\ Py.int "9" = Ok 9%Z /\ Py.int "10" = Ok 10%Z).
Proof.
  intros sorted_data.
  destruct (calculate_financial_metrics_loop l company_name)
    as (ms & Hcalc & Hloop).
  fold sorted_data in Hloop.
  exists ms. split; [assumption|].
  split; [apply sorted_perm|].
  pose proof (metrics_loop_years _ _ Hloop) as Hyears.
  split; [assumption|].
  split; [rewrite Hyears; apply sorted_keys|].
  split; [|repeat split].
  intros i data Hi. now apply metrics_loop_preceding.
Qed.

(** Records keyed "9" and "10" come out as "10", "9"; the revenue change
    reported for "9" is computed against "10". *)
Lemma dashboard_sorted_by_fiscal_year_string_witness :
  let r9 := example_row "9" (Some 800000%float) None None None
                        None None None None in
  let r10 := example_row "10" (Some 1000000%float) None None None
                         None None None None in
  exists ms m,
    calculate_financial_metrics [r9; r10] "Acme"
    = Ok {| DashboardResponse.company := "Acme";
            DashboardResponse.metrics := ms |}
    /\ map Metric.year ms = ["10"; "9"]
    /\ nth_error ms 1 = Some m
    /\ metric_of (Some r10) r9 = Ok m
    /\ Yoy.revenue (Metric.yoy m) = Some (-20)%float.
Proof.
  intros r9 r10.
  destruct (dashboard_sorted_by_fiscal_year_string [r9; r10] "Acme")
    as (ms & Hcalc & _ & Hyears & _ & Hnth & _).
  destruct (Hnth 1%nat r9 eq_refl) as (m & Hm & Hmo).
  exists ms, m. repeat split; try assumption.
  vm_compute in Hmo. now injection Hmo as <-.
Defined.

(** ** Update keeps the fiscal year *)

Lemma update_financial_data_ignores_fiscal_year (s : Db.t) (company_id : Z)
  (fiscal_year fiscal_year' : string) (body : FinancialDataCreate.t) :
  update_financial_data s company_id fiscal_year
    (with_fiscal_year fiscal_year' body)
  = update_financial_data s company_id fiscal_year body.
Proof. reflexivity. Qed.

(** C9.  An update that succeeds leaves the record's [fiscal_year] as it
    was, equal to the path parameter under which the record was found, with
    the same [id] and company; the [fiscal_year] of the payload plays no
    part (two valid payloads that differ only in it give the same result);
    every other base field takes the payload's value (the three margin
    columns take the calculated values).  The update does succeed
    whenever the record exists, the payload is valid and the path's year
    reads as an integer. *)
Theorem update_keeps_fiscal_year (s : Db.t) (company_id : Z)
  (fiscal_year : string) (body : FinancialDataCreate.t) :
  (forall s' r,
      update s company_id fiscal_year body = (s', Ok r) ->
      exists old,
        Db.financial_data_by_key s company_id fiscal_year = Some old
        /\ FinancialData.fiscal_year r = FinancialData.fiscal_year old
        /\ FinancialData.fiscal_year r = fiscal_year
        /\ Db.financial_data_by_key s' company_id fiscal_year = Some r
        /\ base_fields_from body r
        /\ other_columns_kept old r
        /\ margin_columns r
           = (write_margin (FinancialDataCreate.gross_profit body)
                           (FinancialDataCreate.total_revenue body),
              write_margin (FinancialDataCreate.operating_profit body)
                           (FinancialDataCreate.total_revenue body),
              write_margin (FinancialDataCreate.net_profit body)
                           (FinancialDataCreate.total_revenue body)))
  /\ (forall fiscal_year',
        FinancialDataCreate.validate body = Ok body ->
        FinancialDataCreate.validate (with_fiscal_year fiscal_year' body)
        = Ok (with_fiscal_year fiscal_year' body) ->
        update s company_id fiscal_year (with_fiscal_year fiscal_year' body)
        = update s company_id fiscal_year body)
  /\ (forall old year,
        Db.financial_data_by_key s company_id fiscal_year = Some old ->
        FinancialDataCreate.validate body = Ok body ->
        Py.int fiscal_year = Ok year ->
        exists s' r, update s company_id fiscal_year body = (s', Ok r)).
Proof.
  repeat apply conj.
  - intros s' r H. unfold update in H.
    destruct (FinancialDataCreate.validate body) as [fd|] eqn:Hv;
      [|discriminate].
    destruct (validate_ok_inv _ Hv) as (-> & _).
    destruct (update_financial_data_inv _ _ _ _ H)
      as (c & old & Hold & Hc & Hr & Hs').
    exists old. split; [assumption|].
    pose proof (find_some_true _ _ Hold) as Hkey.
    apply has_key_iff in Hkey. destruct Hkey as [Hcid Hfy].
    assert (Hfyr : FinancialData.fiscal_year r = FinancialData.fiscal_year old)
      by now subst r.
    split; [assumption|]. split; [congruence|].
    split.
    { rewrite Hs'. unfold Db.financial_data_by_key. cbn [Db.financial_data].
      eapply find_update_first; [|exact Hold].
      apply has_key_iff. split; [now subst r | congruence]. }
    split; [subst r; repeat split|].
    split; [subst r; repeat split|].
    rewrite Hr.
    exact (written_margins (calculate_inv _ _ _ _ Hc)
             (written_set_calculated true body c old)).
  - intros fy' Hv Hv'. unfold update. rewrite Hv, Hv'.
    apply update_financial_data_ignores_fiscal_year.
  - intros old year Hold Hv Hint. unfold update. rewrite Hv.
    destruct (update_financial_data_ok s company_id body fiscal_year Hold
                (previous_year_ok _ Hint)) as (c & _ & Hu).
    cbv zeta in Hu. rewrite Hu. now do 2 eexists.
Qed.

(** The year 2021 of the example store updated with a payload that says
    "2099": the record is still the one of 2021, with the new revenue. *)
Lemma update_keeps_fiscal_year_witness :
  exists s' r,
    update example_store 1 "2021"
      (example_body "2099" 1100000 500000 300000 200000 1000 60000)
    = (s', Ok r)
    /\ FinancialData.fiscal_year r = "2021"
    /\ FinancialData.total_revenue r = Some 1100000%float
    /\ Db.financial_data_by_key s' 1 "2021" = Some r
    /\ Db.financial_data_by_key s' 1 "2099" = None.
Proof.
  pose proof (@update_keeps_fiscal_year example_store 1 "2021"
                (example_body "2099" 1100000 500000 300000 200000 1000 60000))
    as (Hkeep & _ & Htotal).
  assert (Hold : exists old,
            Db.financial_data_by_key example_store 1 "2021" = Some old)
    by (vm_compute; eexists; reflexivity).
  destruct Hold as (old & Hold).
  destruct (Htotal old 2021%Z Hold eq_refl eq_refl) as (s' & r & Hu).
  destruct (Hkeep s' r Hu) as (old' & _ & _ & Hfy & Hrow & Hbase & _).
  exists s', r. split; [exact Hu|]. split; [exact Hfy|].
  split; [apply Hbase|]. split; [exact Hrow|].
  replace s' with (fst (update example_store 1 "2021"
                     (example_body "2099" 1100000 500000 300000 200000 1000
                                   60000)))
    by now rewrite Hu.
  reflexivity.
Defined.

(** ** Validation *)

Lemma validate_fiscal_year_raise_iff (v : string) :
  (exists e, FinancialDataCreate.validate_fiscal_year v = Raise e)
  <-> bad_fiscal_year v.
Proof.
  unfold FinancialDataCreate.validate_fiscal_year, bad_fiscal_year.
  destruct (Py.int v) as [year|e].
  - destruct ((year <? 1900)%Z || (2100 <? year)%Z) eqn:Hr.
    + split; [|now eexists]. intros _. right. exists year.
      split; [reflexivity|]. apply orb_true_iff in Hr. lia.
    + split; [intros [e He]; discriminate|].
      apply orb_false_iff in Hr.
      intros [[e He] | (y & [= <-] & Hy)]; [discriminate | lia].
  - split; [intros _; left; now exists e | now eexists].
Qed.

Lemma validate_raise_iff (body : FinancialDataCreate.t) :
  FinancialDataCreate.validate body = Raise ValidationError
  <-> bad_fiscal_year (FinancialDataCreate.fiscal_year body)
      \/ FinancialDataCreate.gt0 (FinancialDataCreate.total_revenue body)
         = false
      \/ FinancialDataCreate.gt0 (FinancialDataCreate.number_of_shares body)
         = false.
Proof.
  rewrite <- validate_fiscal_year_raise_iff.
  unfold FinancialDataCreate.validate.
  destruct (FinancialDataCreate.validate_fiscal_year _) as [v|e].
  - destruct (FinancialDataCreate.gt0 (FinancialDataCreate.total_revenue body));
      destruct (FinancialDataCreate.gt0
                  (FinancialDataCreate.number_of_shares body)); cbn;
      split; try discriminate; try tauto;
      intros [[e He] | [H | H]]; discriminate.
  - split; [intros _; left; now exists e | reflexivity].
Qed.

Lemma validate_cases (body : FinancialDataCreate.t) :
  FinancialDataCreate.validate body = Ok body
  \/ FinancialDataCreate.validate body = Raise ValidationError.
Proof.
  unfold FinancialDataCreate.validate.
  destruct (FinancialDataCreate.validate_fiscal_year _); [|now right].
  destruct (_ && _); [now left | now right].
Qed.



(* ================================================================== *)
(** * Further properties *)
(* ================================================================== *)

(** ** The authorization header *)

Lemma partition_space_join (s : string) :
  let '(before, sep, after) := Auth.partition_space s in
  s = before ++ sep ++ after
  /\ has_space before = false
  /\ (sep = " " \/ (sep = "" /\ after = "")).
Proof.
  induction s as [|c s IH]; cbn; [repeat split; now right|].
  destruct (c =? " ")%char eqn:Hc.
  - apply Ascii.eqb_eq in Hc. subst c. repeat split. now left.
  - destruct (Auth.partition_space s) as [[before sep] after].
    destruct IH as (Hs & Hb & Hsep). cbn. rewrite Hc, Hb.
    repeat split; [now rewrite Hs | assumption].
Qed.

Lemma partition_space_found (before after : string) :
  has_space before = false ->
  Auth.partition_space (before ++ " " ++ after) = (before, " ", after).
Proof.
  induction before as [|c before IH]; [reflexivity|].
  cbn [has_space]. intros H. apply orb_false_iff in H. destruct H as [Hc Hb].
  change (String c before ++ " " ++ after)
    with (String c (before ++ " " ++ after)).
  cbn [Auth.partition_space]. now rewrite Hc, (IH Hb).
Qed.

Lemma lower_char_space (c : ascii) :
  (Auth.lower_char c =? " ")%char = (c =? " ")%char.
Proof.
  destruct c as [[] [] [] [] [] [] [] []]; reflexivity.
Qed.

Lemma lower_has_space (s : string) : has_space (Auth.lower s) = has_space s.
Proof.
  induction s as [|c s IH]; cbn; [reflexivity|].
  now rewrite lower_char_space, IH.
Qed.

Lemma bearer_no_space (scheme : string) :
  Auth.lower scheme = "bearer" -> has_space scheme = false.
Proof. intros H. rewrite <- lower_has_space, H. reflexivity. Qed.

Lemma get_token_from_header_cases (authorization : option string) :
  (exists token, Auth.get_token_from_header authorization = Ok token)
  \/ Auth.get_token_from_header authorization = Raise (HTTPException 401).
Proof.
  destruct authorization as [[|c a]|]; cbn; try now right.
  destruct (if (c =? " ")%char then ("", " ", a)
            else let '(before, sep, after) := Auth.partition_space a in
                 (String c before, sep, after))
    as [[scheme sep] tok].
  destruct (negb _); [now right|].
  destruct (tok =? "")%string; [now right | left; now eexists].
Qed.

(** X1.  [get_token_from_header] returns a token exactly when the header is
    a scheme, a space and the token, with a scheme that is "bearer" up to
    case and a token that is not empty; the token is all the text after the
    first space, as it is.  Every other header, the absent and the empty one
    included, is refused with status 401. *)
Theorem get_token_from_header_iff (authorization : option string) :
  (forall token,
      Auth.get_token_from_header authorization = Ok token
      <-> token <> ""
          /\ exists scheme,
               Auth.lower scheme = "bearer"
               /\ authorization = Some (scheme ++ " " ++ token))
  /\ ((exists token, Auth.get_token_from_header authorization = Ok token)
      \/ Auth.get_token_from_header authorization
         = Raise (HTTPException 401)).
Proof.
  split.
  - intros token. split.
    + destruct authorization as [[|c a]|]; cbn; try discriminate.
      pose proof (partition_space_join (String c a)) as Hj.
      change (Auth.partition_space (String c a))
        with (if (c =? " ")%char then ("", " ", a)
              else let '(before, sep, after) := Auth.partition_space a in
                   (String c before, sep, after)) in Hj.
      destruct (if (c =? " ")%char then ("", " ", a)
                else let '(before, sep, after) := Auth.partition_space a in
                     (String c before, sep, after))
        as [[scheme sep] tok].
      destruct Hj as (Hs & _ & Hsep).
      destruct (Auth.lower scheme =? "bearer")%string eqn:Hb; cbn;
        [|discriminate].
      destruct (tok =? "")%string eqn:Ht; [discriminate|].
      intros [= <-]. apply String.eqb_neq in Ht. split; [assumption|].
      exists scheme. apply String.eqb_eq in Hb. split; [assumption|].
      destruct Hsep as [-> | [_ ->]]; [now rewrite Hs | congruence].
    + intros (Ht & scheme & Hb & ->).
      pose proof (partition_space_found scheme token (bearer_no_space _ Hb))
        as Hp.
      destruct scheme as [|c scheme]; [discriminate|].
      unfold Auth.get_token_from_header.
      change (String c scheme ++ " " ++ token)
        with (String c (scheme ++ " " ++ token)) in *.
      rewrite Hp, Hb. cbn. apply String.eqb_neq in Ht. now rewrite Ht.
  - apply get_token_from_header_cases.
Qed.

(** The scheme in mixed case; the token keeps its own spaces. *)
Lemma get_token_from_header_iff_witness :
  Auth.get_token_from_header (Some "bEaReR  a b") = Ok " a b".
Proof.
  apply (proj1 (get_token_from_header_iff (Some "bEaReR  a b"))).
  split; [discriminate|]. exists "bEaReR". split; reflexivity.
Defined.

(** X2.  [get_current_user] gives a user exactly when
    [get_token_from_header] gives a token for the same header, the token
    decodes, and the payload has both "sub" and "id"; the user carries
    these two and the "role", which may be missing.  Every failure is a
    status 401. *)
Theorem get_current_user_iff (value : Type)
  (jwt_decode : string -> option (Auth.payload value))
  (authorization : option string) :
  (forall u,
      Auth.get_current_user jwt_decode authorization = Ok u
      <-> exists token p name i,
            Auth.get_token_from_header authorization = Ok token
            /\ jwt_decode token = Some p
            /\ Auth.sub p = Some name /\ Auth.id p = Some i
            /\ u = {| Auth.username := name; Auth.user_id := i;
                      Auth.user_role := Auth.role p |})
  /\ ((exists u, Auth.get_current_user jwt_decode authorization = Ok u)
      \/ Auth.get_current_user jwt_decode authorization
         = Raise (HTTPException 401)).
Proof.
  assert (Hcomp :
    Auth.get_current_user jwt_decode authorization
    = token <- Auth.get_token_from_header authorization ;;
      match jwt_decode token with
      | Some p =>
          match Auth.sub p, Auth.id p with
          | Some name, Some i =>
              Ok {| Auth.username := name; Auth.user_id := i;
                    Auth.user_role := Auth.role p |}
          | _, _ => Raise (HTTPException 401)
          end
      | None => Raise (HTTPException 401)
      end).
  { destruct authorization as [[|c a]|]; try reflexivity.
    unfold Auth.get_current_user, Auth.get_token_from_header.
    destruct (Auth.partition_space (String c a)) as [[scheme sep] tok].
    destruct (negb _); [reflexivity|].
    now destruct (tok =? "")%string. }
  rewrite Hcomp. split.
  - intros u. split.
    + intros H. bind_inv H. rename v into token.
      destruct (jwt_decode token) as [p|] eqn:Hd; [|discriminate].
      destruct (Auth.sub p) as [name|] eqn:Hn; [|discriminate].
      destruct (Auth.id p) as [i|] eqn:Hi; [|discriminate].
      injection H as <-. now exists token, p, name, i.
    + intros (token & p & name & i & Ht & Hd & Hn & Hi & ->).
      rewrite Ht. cbn. now rewrite Hd, Hn, Hi.
  - destruct (Auth.get_token_from_header authorization) as [token|e] eqn:Ht.
    + cbn. destruct (jwt_decode token) as [p|]; [|now right].
      destruct (Auth.sub p); [|now right].
      destruct (Auth.id p); [left; now eexists | now right].
    + destruct (get_token_from_header_cases authorization)
        as [[t Ht'] | Ht']; [congruence|].
      right. cbn. congruence.
Qed.

(** A decoder that knows one token: the user of that token, and a token
    without "id". *)
Lemma get_current_user_iff_witness :
  let decode (token : string) :=
    if (token =? "t1")%string
    then Some (Auth.mk_payload (Some "a@b.c") (Some "7") None)
    else if (token =? "t2")%string
    then Some (Auth.mk_payload (Some "a@b.c") None (Some "admin"))
    else None in
  Auth.get_current_user decode (Some "Bearer t1")
  = Ok (Auth.mk_user "a@b.c" "7" None)
  /\ Auth.get_current_user decode (Some "Bearer t2")
     = Raise (HTTPException 401).
Proof.
  intros decode. split.
  - apply (proj1 (get_current_user_iff decode (Some "Bearer t1"))).
    exists "t1", (Auth.mk_payload (Some "a@b.c") (Some "7") None), "a@b.c", "7".
    repeat split.
  - reflexivity.
Defined.

(** ** Lists of rows *)

Section RowLists.
Variable A : Type.
Variables p q : A -> bool.

Lemma update_first_other (new : A) (l : list A) :
  (forall x, p x = true -> q x = false) -> q new = false ->
  find q (Db.update_first p new l) = find q l.
Proof.
  intros Hpq Hnew. induction l as [|x l IH]; cbn; [reflexivity|].
  destruct (p x) eqn:Hx; cbn.
  - now rewrite Hnew, (Hpq x Hx).
  - now rewrite IH.
Qed.

Lemma delete_first_other (l : list A) :
  (forall x, p x = true -> q x = false) ->
  find q (Db.delete_first p l) = find q l.
Proof.
  intros Hpq. induction l as [|x l IH]; cbn; [reflexivity|].
  destruct (p x) eqn:Hx; cbn.
  - now rewrite (Hpq x Hx).
  - now rewrite IH.
Qed.

Lemma find_app_other (l : list A) (x : A) :
  q x = false -> find q (l ++ [x]) = find q l.
Proof.
  intros Hx. induction l as [|y l IH]; cbn; [now rewrite Hx|].
  now destruct (q y).
Qed.

Lemma find_app_some (l : list A) (x y : A) :
  find q l = Some y -> find q (l ++ [x]) = Some y.
Proof.
  induction l as [|z l IH]; cbn; [discriminate|].
  now destruct (q z).
Qed.

End RowLists.

Section RowLists1.
Variable A : Type.
Variable p : A -> bool.

Lemma delete_first_length (l : list A) (x : A) :
  find p l = Some x ->
  S (List.length (Db.delete_first p l)) = List.length l.
Proof.
  induction l as [|y l IH]; cbn; [discriminate|].
  destruct (p y); cbn; [reflexivity|]. intros H. now rewrite IH.
Qed.

Lemma delete_first_gone (l : list A) :
  List.length (filter p l) <= 1 -> find p (Db.delete_first p l) = None.
Proof.
  induction l as [|y l IH]; cbn; [reflexivity|].
  destruct (p y) eqn:Hy; cbn.
  - intros H. destruct (find p l) as [z|] eqn:Hz; [|reflexivity].
    destruct (find_filter_head _ _ Hz) as [rest Hrest].
    rewrite Hrest in H. cbn in H. lia.
  - rewrite Hy. assumption.
Qed.

Lemma update_first_in_inv (new : A) (l : list A) (x : A) :
  In x (Db.update_first p new l) -> x = new \/ In x l.
Proof.
  induction l as [|y l IH]; cbn; [tauto|].
  destruct (p y); cbn; intuition.
Qed.

Lemma delete_first_in_inv (l : list A) (x : A) :
  In x (Db.delete_first p l) -> In x l.
Proof.
  induction l as [|y l IH]; cbn; [tauto|].
  destruct (p y); cbn; intuition.
Qed.
End RowLists1.

Lemma has_key_other (cid cid' : Z) (fy fy' : string) (x : FinancialData.t) :
  (cid', fy') <> (cid, fy) ->
  FinancialData.has_key cid fy x = true ->
  FinancialData.has_key cid' fy' x = false.
Proof.
  intros Hne [Hc Hf]%has_key_iff.
  destruct (FinancialData.has_key cid' fy' x) eqn:Hk; [|reflexivity].
  apply has_key_iff in Hk. destruct Hk. congruence.
Qed.

Lemma next_id_fresh (ids : list Z) : ~ In (Db.next_id ids) ids.
Proof.
  assert (H : forall i, In i ids -> (i <= fold_right Z.max 0 ids)%Z).
  { induction ids as [|j ids IH]; cbn; [tauto|].
    intros i [-> | Hi]; [lia | specialize (IH i Hi); lia]. }
  intros Hin. apply H in Hin. unfold Db.next_id in Hin. lia.
Qed.

(** ** Submit *)





(** ** What every stored record satisfies *)

Lemma serve_rows (s : Db.t) (req : request) (r : FinancialData.t) :
  In r (Db.financial_data (serve s req)) ->
  In r (Db.financial_data s) \/ row_written s r.
Proof.
  destruct req as [name user | cid body | cid fy body | cid fy]; cbn.
  - unfold create_company, Db.add_company.
    destruct (existsb _ _); cbn; now left.
  - unfold submit.
    destruct (FinancialDataCreate.validate body) as [fd|] eqn:Hv;
      [|now left].
    destruct (validate_ok_inv _ Hv) as (-> & _).
    unfold create_financial_data.
    destruct (Db.company_by_id s cid) as [company|] eqn:Hc; [|now left].
    destruct (calculate _ _ _ _) as [c|e] eqn:Hcalc; [|now left].
    pose proof (calculate_inv _ _ _ _ Hcalc) as Hm.
    destruct (Db.financial_data_by_key s cid _) as [old|] eqn:Hold;
      cbn [fst Db.financial_data].
    + intros [-> | Hin]%update_first_in_inv; [right | now left].
      apply find_some in Hold. destruct Hold as [Hold _].
      now apply row_over with false body c old.
    + unfold Db.add_financial_data. destruct (existsb _ _); [now left|].
      cbn [fst Db.financial_data].
      intros [Hin | [<- | []]]%in_app_or; [now left | right].
      eapply row_new with (company_id := cid) (body := body) (c := c);
        first [assumption | congruence | reflexivity].
  - unfold update.
    destruct (FinancialDataCreate.validate body) as [fd|] eqn:Hv;
      [|now left].
    destruct (validate_ok_inv _ Hv) as (-> & _).
    unfold update_financial_data.
    destruct (Db.financial_data_by_key s cid fy) as [old|] eqn:Hold;
      [|now left].
    destruct (calculate _ _ _ _) as [c|e] eqn:Hcalc; [|now left].
    pose proof (calculate_inv _ _ _ _ Hcalc) as Hm.
    cbn [fst Db.financial_data].
    intros [-> | Hin]%update_first_in_inv; [right | now left].
    apply find_some in Hold. destruct Hold as [Hold _].
    now apply row_over with true body c old.
  - unfold delete_financial_data.
    destruct (Db.financial_data_by_key s cid fy); [|now left].
    cbn [fst Db.financial_data]. intros Hin%delete_first_in_inv. now left.
Qed.

Lemma serve_company_by_id (s : Db.t) (req : request) (company_id : Z) :
  Db.company_by_id s company_id <> None ->
  Db.company_by_id (serve s req) company_id <> None.
Proof.
  intros Hc.
  destruct req as [name user | cid body | cid fy body | cid fy]; cbn.
  - unfold create_company, Db.add_company.
    destruct (existsb _ _); cbn; [assumption|].
    unfold Db.company_by_id in *. cbn.
    destruct (find _ (Db.companies s)) as [c|] eqn:Hf; [|congruence].
    now rewrite (find_app_some _ _ _ Hf).
  - unfold Db.company_by_id, submit.
    destruct (FinancialDataCreate.validate body);
      [rewrite (proj1 (create_financial_data_step s cid _)) | ];
      assumption.
  - unfold Db.company_by_id, update.
    destruct (FinancialDataCreate.validate body);
      [rewrite (proj1 (update_financial_data_step s cid fy _)) | ];
      assumption.
  - unfold Db.company_by_id, delete_financial_data.
    destruct (Db.financial_data_by_key s cid fy); assumption.
Qed.

Lemma validate_fiscal_year_ok (body : FinancialDataCreate.t) :
  FinancialDataCreate.validate body = Ok body ->
  FinancialDataCreate.validate_fiscal_year
    (FinancialDataCreate.fiscal_year body)
  = Ok (FinancialDataCreate.fiscal_year body).
Proof.
  intros Hv. destruct (validate_ok_inv _ Hv) as (_ & year & Hint & Hr & _).
  unfold FinancialDataCreate.validate_fiscal_year. rewrite Hint.
  destruct (year <? 1900)%Z eqn:H1; [lia|].
  destruct (2100 <? year)%Z eqn:H2; [lia | reflexivity].
Qed.

Lemma row_written_valid_figures (s : Db.t) (r : FinancialData.t) :
  (forall old, In old (Db.financial_data s) -> valid_figures old) ->
  row_written s r -> valid_figures r.
Proof.
  intros Hall Hw.
  assert (Hfig : forall body c,
    FinancialDataCreate.validate body = Ok body ->
    write_margins body
    = Ok (Calculated.gross_profit_margin c,
          Calculated.operating_profit_margin c,
          Calculated.net_profit_margin c) ->
    forall r',
      written body c r' ->
      FinancialData.number_of_shares r'
      = Some (FinancialDataCreate.number_of_shares body) ->
      exists tr gp op np ns,
        FinancialData.total_revenue r' = Some tr
        /\ FinancialData.gross_profit r' = Some gp
        /\ FinancialData.operating_profit r' = Some op
        /\ FinancialData.net_profit r' = Some np
        /\ FinancialData.number_of_shares r' = Some ns
        /\ FinancialDataCreate.gt0 tr = true
        /\ FinancialDataCreate.gt0 ns = true
        /\ margin_columns r'
           = (Some (gp / tr)%float, Some (op / tr)%float,
              Some (np / tr)%float)).
  { intros body c Hv Hm r' Hwr Hns.
    destruct (validate_ok_inv _ Hv) as (_ & year & _ & _ & Htr & Hsh).
    pose proof (written_margins Hm Hwr) as Hcols. cbv zeta in Hcols.
    destruct Hwr as (_ & _ & H1 & H2 & H3 & H4).
    unfold write_margin, FinancialDataCreate.gt0 in *. rewrite Htr in Hcols.
    do 5 eexists. repeat split; eassumption. }
  destruct Hw as [cid body c id Hv _ Hm -> | keep body c old Hv Hold Hm ->].
  - split; [now apply validate_fiscal_year_ok|].
    apply (Hfig body c Hv Hm); [apply written_new | reflexivity].
  - split.
    + destruct keep; cbn; [apply (Hall old Hold) |
                          now apply validate_fiscal_year_ok].
    + apply (Hfig body c Hv Hm);
        [apply written_set_calculated | reflexivity].
Qed.

Lemma reachable_valid_figures (s : Db.t) :
  reachable s -> forall r, In r (Db.financial_data s) -> valid_figures r.
Proof.
  induction 1 as [|s req _ IH]; [now intros r []|].
  intros r [Hin | Hw]%serve_rows; [now apply IH|].
  now apply row_written_valid_figures with s.
Qed.

Lemma reachable_legacy_unset (s : Db.t) :
  reachable s ->
  forall r, In r (Db.financial_data s) ->
            legacy_columns r = (None, None, None, None, None).
Proof.
  induction 1 as [|s req _ IH]; [now intros r []|].
  intros r [Hin | Hw]%serve_rows; [now apply IH|].
  destruct Hw as [cid body c id _ _ _ -> | keep body c old _ Hold _ ->];
    [reflexivity|].
  exact (IH old Hold).
Qed.

Lemma reachable_company_exists (s : Db.t) :
  reachable s ->
  forall r, In r (Db.financial_data s) ->
            Db.company_by_id s (FinancialData.company_id r) <> None.
Proof.
  induction 1 as [|s req _ IH]; [now intros r []|].
  intros r [Hin | Hw]%serve_rows; apply serve_company_by_id;
    [now apply IH|].
  destruct Hw as [cid body c id _ Hc _ -> | keep body c old _ Hold _ ->];
    [assumption|].
  exact (IH old Hold).
Qed.

(** X5.  In every store that the service can be in, each financial record
    has a fiscal year that passes [validate_fiscal_year], a total revenue
    and a number of shares that are present and greater than zero, and the
    three margins equal to its own profit figures over its total revenue. *)
Theorem stored_records_valid (s : Db.t) (r : FinancialData.t) :
  reachable s -> In r (Db.financial_data s) -> valid_figures r.
Proof. intros Hs. now apply reachable_valid_figures. Qed.

(** The two records of the example store. *)
Lemma stored_records_valid_witness :
  Forall valid_figures (Db.financial_data example_store).
Proof.
  apply Forall_forall. intros r Hr.
  apply (@stored_records_valid example_store r); [|exact Hr].
  unfold example_store. cbn [fold_left]. repeat constructor.
Defined.

(** X6.  In every store that the service can be in, each financial record
    belongs to a company of the store: listing the records of the record's
    company succeeds and the list has the record. *)
Theorem stored_records_have_company (s : Db.t) (r : FinancialData.t) :
  reachable s -> In r (Db.financial_data s) ->
  exists rows,
    get_financial_data_by_company s (FinancialData.company_id r) = Ok rows
    /\ In r rows.
Proof.
  intros Hs Hr. pose proof (reachable_company_exists Hs r Hr) as Hc.
  unfold get_financial_data_by_company.
  destruct (Db.company_by_id s (FinancialData.company_id r)); [|congruence].
  eexists. split; [reflexivity|].
  unfold Db.financial_data_of. apply filter_In. split; [assumption|].
  apply Z.eqb_refl.
Qed.

Lemma stored_records_have_company_witness :
  Forall (fun r => exists rows,
            get_financial_data_by_company example_store
              (FinancialData.company_id r) = Ok rows /\ In r rows)
         (Db.financial_data example_store).
Proof.
  apply Forall_forall. intros r Hr.
  apply (@stored_records_have_company example_store r); [|exact Hr].
  unfold example_store. cbn [fold_left]. repeat constructor.
Defined.



(** ** Update and delete *)



(** X9.  A delete of a key that has no record raises status 404 and leaves
    the store as it was.  Of a key that has a record it succeeds and removes
    one row, the companies staying as they are; in a store that the service
    can be in, no record is left under the key:
    [get_financial_data_by_year] then raises 404. *)
Theorem delete_outcome (s : Db.t) (company_id : Z) (fiscal_year : string) :
  (Db.financial_data_by_key s company_id fiscal_year = None ->
   delete_financial_data s company_id fiscal_year
   = (s, Raise (HTTPException 404)))
  /\ (forall old,
        Db.financial_data_by_key s company_id fiscal_year = Some old ->
        exists s',
          delete_financial_data s company_id fiscal_year = (s', Ok tt)
          /\ Db.companies s' = Db.companies s
          /\ S (List.length (Db.financial_data s'))
             = List.length (Db.financial_data s)
          /\ (reachable s ->
              get_financial_data_by_year s' company_id fiscal_year
              = Raise (HTTPException 404))).
Proof.
  split.
  - intros Hnone. unfold delete_financial_data. now rewrite Hnone.
  - intros old Hold. unfold delete_financial_data. rewrite Hold.
    eexists. split; [reflexivity|]. cbn [Db.companies Db.financial_data].
    split; [reflexivity|]. split; [now apply delete_first_length with old|].
    intros Hs. unfold get_financial_data_by_year, Db.financial_data_by_key.
    cbn [Db.financial_data].
    rewrite delete_first_gone; [reflexivity|].
    apply (reachable_unique_keys Hs).
Qed.

(** The year 2021 of the example store deleted. *)
Lemma delete_outcome_witness :
  exists s',
    delete_financial_data example_store 1 "2021" = (s', Ok tt)
    /\ get_financial_data_by_year s' 1 "2021" = Raise (HTTPException 404)
    /\ map FinancialData.fiscal_year (Db.financial_data s') = ["2020"].
Proof.
  assert (Hold : exists old,
            Db.financial_data_by_key example_store 1 "2021" = Some old)
    by (vm_compute; eexists; reflexivity).
  destruct Hold as (old & Hold).
  destruct (proj2 (delete_outcome example_store 1 "2021") old Hold)
    as (s' & Hd & _ & _ & Hgone).
  exists s'. split; [exact Hd|]. split.
  - apply Hgone. unfold example_store. cbn [fold_left]. repeat constructor.
  - replace s' with (fst (delete_financial_data example_store 1 "2021"))
      by now rewrite Hd.
    reflexivity.
Defined.

(** ** What a request leaves alone *)

Lemma create_financial_data_frame (s : Db.t) (cid cid' : Z) (fy' : string)
  (body : FinancialDataCreate.t) :
  (cid', fy') <> (cid, FinancialDataCreate.fiscal_year body) ->
  Db.financial_data_by_key (fst (create_financial_data s cid body)) cid' fy'
  = Db.financial_data_by_key s cid' fy'.
Proof.
  intros Hne. unfold create_financial_data.
  destruct (Db.company_by_id s cid); [|reflexivity].
  destruct (calculate _ _ _ _) as [c|e]; [|reflexivity].
  destruct (Db.financial_data_by_key s cid _) as [old|] eqn:Hold.
  - unfold Db.financial_data_by_key. cbn [fst Db.financial_data].
    apply update_first_other.
    + intros x Hx. now apply has_key_other with cid
                     (FinancialDataCreate.fiscal_year body).
    + apply has_key_other with cid (FinancialDataCreate.fiscal_year body);
        [assumption|].
      pose proof (find_some_true _ _ Hold) as Hk.
      apply has_key_iff in Hk. now apply has_key_iff.
  - unfold Db.add_financial_data. destruct (existsb _ _); [reflexivity|].
    unfold Db.financial_data_by_key. cbn [fst Db.financial_data].
    apply find_app_other.
    apply has_key_other with cid (FinancialDataCreate.fiscal_year body);
      [assumption | now apply has_key_iff].
Qed.

Lemma update_financial_data_frame (s : Db.t) (cid cid' : Z) (fy fy' : string)
  (body : FinancialDataCreate.t) :
  (cid', fy') <> (cid, fy) ->
  Db.financial_data_by_key (fst (update_financial_data s cid fy body)) cid' fy'
  = Db.financial_data_by_key s cid' fy'.
Proof.
  intros Hne. unfold update_financial_data.
  destruct (Db.financial_data_by_key s cid fy) as [old|] eqn:Hold;
    [|reflexivity].
  destruct (calculate _ _ _ _) as [c|e]; [|reflexivity].
  unfold Db.financial_data_by_key. cbn [fst Db.financial_data].
  apply update_first_other.
  - intros x Hx. now apply has_key_other with cid fy.
  - apply has_key_other with cid fy; [assumption|].
    pose proof (find_some_true _ _ Hold) as Hk.
    apply has_key_iff in Hk. now apply has_key_iff.
Qed.

(** X10.  A submit, an update or a delete for one key, whatever its
    outcome, leaves the record of every other key as it was, its stored YoY
    columns included (an update of one year does not recompute the changes
    stored for the next), and leaves the companies as they were. *)
Theorem other_records_untouched (s : Db.t) (company_id company_id' : Z)
  (fiscal_year fiscal_year' : string) (body : FinancialDataCreate.t) :
  (company_id', fiscal_year') <> (company_id, fiscal_year) ->
  (FinancialDataCreate.fiscal_year body = fiscal_year ->
   Db.financial_data_by_key (fst (submit s company_id body))
     company_id' fiscal_year'
   = Db.financial_data_by_key s company_id' fiscal_year'
   /\ Db.companies (fst (submit s company_id body)) = Db.companies s)
  /\ (Db.financial_data_by_key (fst (update s company_id fiscal_year body))
        company_id' fiscal_year'
      = Db.financial_data_by_key s company_id' fiscal_year'
      /\ Db.companies (fst (update s company_id fiscal_year body))
         = Db.companies s)
  /\ (Db.financial_data_by_key
        (fst (delete_financial_data s company_id fiscal_year))
        company_id' fiscal_year'
      = Db.financial_data_by_key s company_id' fiscal_year'
      /\ Db.companies (fst (delete_financial_data s company_id fiscal_year))
         = Db.companies s).
Proof.
  intros Hne. split; [|split].
  - intros <-. unfold submit.
    destruct (FinancialDataCreate.validate body) as [fd|] eqn:Hv;
      [|now split].
    destruct (validate_ok_inv _ Hv) as (-> & _).
    split; [now apply create_financial_data_frame|].
    apply create_financial_data_step.
  - unfold update.
    destruct (FinancialDataCreate.validate body) as [fd|] eqn:Hv;
      [|now split].
    split; [now apply update_financial_data_frame|].
    apply update_financial_data_step.
  - unfold delete_financial_data.
    destruct (Db.financial_data_by_key s company_id fiscal_year);
      [|now split].
    split; [|reflexivity].
    unfold Db.financial_data_by_key. cbn [fst Db.financial_data].
    apply delete_first_other.
    intros x Hx. now apply has_key_other with company_id fiscal_year.
Qed.

(** The revenue of 2020 is halved by an update: the record of 2021 keeps
    the 25 percent that it stored against the old figure. *)
Lemma other_records_untouched_witness :
  let s' := fst (update example_store 1 "2020"
                   (example_body "2020" 400000 400000 200000 100000 1000
                                 50000)) in
  Db.financial_data_by_key s' 1 "2021"
  = Db.financial_data_by_key example_store 1 "2021"
  /\ option_map FinancialData.revenue_yoy_change
       (Db.financial_data_by_key s' 1 "2021") = Some (Some 25%float)
  /\ option_map FinancialData.total_revenue
       (Db.financial_data_by_key s' 1 "2020") = Some (Some 400000%float).
Proof.
  intros s'. split; [|split; reflexivity].
  apply (proj1 (proj1 (proj2
           (@other_records_untouched example_store 1 1 "2020" "2021"
              (example_body "2020" 400000 400000 200000 100000 1000 50000)
              ltac:(discriminate))))).
Defined.

(** ** Companies *)

Lemma find_id_fresh (l : list Company.t) (i : Z) :
  ~ In i (map Company.id l) ->
  find (fun c => (Company.id c =? i)%Z) l = None.
Proof.
  induction l as [|c l IH]; cbn; [reflexivity|].
  intros H. destruct (Company.id c =? i)%Z eqn:Hc.
  - apply Z.eqb_eq in Hc. tauto.
  - apply IH. tauto.
Qed.

Lemma existsb_name_false (l : list Company.t) (name : string) :
  existsb (fun c => (Company.name c =? name)%string) l = false
  <-> ~ In name (map Company.name l).
Proof.
  induction l as [|c l IH]; cbn; [tauto|].
  rewrite orb_false_iff, IH, String.eqb_neq. tauto.
Qed.

(** X11.  [create_company] with a name that a company of the store has
    (compared as a string) raises status 400 and leaves the store as it
    was.  With a new name it adds one company, after those there were, under
    an [id] that none of them has, with the caller as creator; it leaves
    the financial records as they were, and [get_company] of the new [id]
    returns the new company. *)
Theorem create_company_outcome (s : Db.t) (name : string)
  (current_user : option Z) :
  (In name (map Company.name (Db.companies s)) ->
   create_company s name current_user = (s, Raise (HTTPException 400)))
  /\ (~ In name (map Company.name (Db.companies s)) ->
      exists s' company,
        create_company s name current_user = (s', Ok company)
        /\ Company.name company = name
        /\ Company.created_by company = current_user
        /\ ~ In (Company.id company) (map Company.id (Db.companies s))
        /\ Db.companies s' = (Db.companies s ++ [company])%list
        /\ Db.financial_data s' = Db.financial_data s
        /\ get_company s' (Company.id company) = Ok company).
Proof.
  unfold create_company, Db.add_company. split.
  - intros Hin.
    destruct (existsb _ (Db.companies s)) eqn:He; [reflexivity|].
    apply existsb_name_false in He. contradiction.
  - intros Hnew. apply existsb_name_false in Hnew. rewrite Hnew.
    do 2 eexists. split; [reflexivity|]. cbn.
    repeat split; [apply next_id_fresh|].
    unfold get_company, Db.company_by_id. cbn.
    rewrite find_app_new; [reflexivity | | apply Z.eqb_refl].
    apply find_id_fresh, next_id_fresh.
Qed.

(** "Acme" is taken in the example store; "Beta" is not. *)
Lemma create_company_outcome_witness :
  create_company example_store "Acme" None
  = (example_store, Raise (HTTPException 400))
  /\ exists s' company,
       create_company example_store "Beta" None = (s', Ok company)
       /\ Company.id company = 2%Z
       /\ get_company s' 2 = Ok company.
Proof.
  split.
  - apply (proj1 (create_company_outcome example_store "Acme" None)).
    left. reflexivity.
  - destruct (proj2 (create_company_outcome example_store "Beta" None))
      as (s' & company & Hc & _ & _ & _ & _ & _ & Hget).
    + intros [H | []]. discriminate.
    + exists s', company. split; [exact Hc|].
      assert (Hid : Company.id company = 2%Z).
      { replace company
          with (match snd (create_company example_store "Beta" None) with
                | Ok c => c
                | Raise _ => company
                end) by now rewrite Hc.
        reflexivity. }
      split; [exact Hid | now rewrite <- Hid].
Defined.

Lemma serve_companies (s : Db.t) (req : request) :
  Db.companies (serve s req) = Db.companies s
  \/ exists company,
       Db.companies (serve s req) = (Db.companies s ++ [company])%list
       /\ ~ In (Company.name company) (map Company.name (Db.companies s))
       /\ ~ In (Company.id company) (map Company.id (Db.companies s)).
Proof.
  destruct req as [name user | cid body | cid fy body | cid fy]; cbn.
  - destruct (existsb (fun c => (Company.name c =? name)%string)
                      (Db.companies s)) eqn:He.
    + left. unfold create_company, Db.add_company. now rewrite He.
    + right. unfold create_company, Db.add_company. rewrite He.
      eexists. split; [reflexivity|]. cbn.
      split; [now apply existsb_name_false | apply next_id_fresh].
  - left. unfold submit. destruct (FinancialDataCreate.validate body);
      [apply create_financial_data_step | reflexivity].
  - left. unfold update. destruct (FinancialDataCreate.validate body);
      [apply update_financial_data_step | reflexivity].
  - left. unfold delete_financial_data.
    now destruct (Db.financial_data_by_key s cid fy).
Qed.

Lemma NoDup_snoc {A : Type} (l : list A) (x : A) :
  NoDup l -> ~ In x l -> NoDup (l ++ [x]).
Proof.
  intros Hl Hx. apply NoDup_app; [assumption | repeat constructor; tauto |].
  intros y Hy [<- | []]. contradiction.
Qed.

(** X12.  In every store that the service can be in, no two companies have
    the same name and no two have the same [id]. *)
Theorem companies_unique (s : Db.t) :
  reachable s ->
  NoDup (map Company.name (Db.companies s))
  /\ NoDup (map Company.id (Db.companies s)).
Proof.
  induction 1 as [|s req _ [IHn IHi]]; [split; constructor|].
  destruct (serve_companies s req) as [-> | (company & -> & Hn & Hi)];
    [now split|].
  rewrite !map_app. cbn. split; now apply NoDup_snoc.
Qed.

(** "Acme" posted twice, and "Beta": two companies. *)
Lemma companies_unique_witness :
  let s := fold_left serve
             [PostCompany "Acme" None; PostCompany "Acme" (Some 3%Z);
              PostCompany "Beta" None] Db.empty in
  map Company.name (Db.companies s) = ["Acme"; "Beta"]
  /\ NoDup (map Company.name (Db.companies s))
  /\ NoDup (map Company.id (Db.companies s)).
Proof.
  intros s. split; [reflexivity|].
  apply (@companies_unique s). unfold s. cbn [fold_left]. repeat constructor.
Defined.

(** ** The dashboard of a company *)

Lemma filter_length_in {A : Type} (p : A -> bool) (l : list A) (x : A) :
  In x l -> p x = true -> 1 <= List.length (filter p l).
Proof.
  induction l as [|y l IH]; cbn; [tauto|].
  intros [-> | Hin] Hp.
  - rewrite Hp. cbn. lia.
  - specialize (IH Hin Hp). destruct (p y); cbn; lia.
Qed.

Lemma company_years_nodup (cid : Z) (l : list FinancialData.t) :
  (forall fy, List.length (filter (FinancialData.has_key cid fy) l) <= 1) ->
  NoDup (map FinancialData.fiscal_year
           (filter (fun r => (FinancialData.company_id r =? cid)%Z) l)).
Proof.
  induction l as [|x l IH]; intros Hu; cbn; [constructor|].
  assert (Hl : forall fy,
            List.length (filter (FinancialData.has_key cid fy) l) <= 1).
  { intros fy. specialize (Hu fy). cbn in Hu.
    destruct (FinancialData.has_key cid fy x); cbn in Hu; lia. }
  destruct (FinancialData.company_id x =? cid)%Z eqn:Hx; [|now apply IH].
  cbn. constructor; [|now apply IH].
  intros Hin. apply in_map_iff in Hin. destruct Hin as (y & Hfy & Hy).
  apply filter_In in Hy. destruct Hy as [Hy Hcy].
  specialize (Hu (FinancialData.fiscal_year x)). cbn in Hu.
  unfold FinancialData.has_key at 1 in Hu.
  rewrite Hx, String.eqb_refl in Hu. cbn in Hu.
  assert (1 <= List.length
                 (filter (FinancialData.has_key cid
                            (FinancialData.fiscal_year x)) l)).
  { apply filter_length_in with y; [assumption|].
    unfold FinancialData.has_key. rewrite Hcy, Hfy. apply String.eqb_refl. }
  lia.
Qed.

Lemma sorted_nodup_strict (l : list string) :
  Sorted (fun a b => Py.str_le a b = true) l -> NoDup l -> Sorted str_lt l.
Proof.
  induction 1 as [|a l Hs IH Hhd]; intros Hnd; [constructor|].
  inversion Hnd as [|? ? Ha Hl]; subst.
  constructor; [now apply IH|].
  destruct Hhd as [|b l Hab]; constructor.
  split; [assumption|]. intros ->. apply Ha. now left.
Qed.

(** X13.  [get_dashboard_data] of an unknown company raises status 404.  Of
    a company of a store that the service can be in it succeeds, under the
    company's name, with one metric for each record of the company and no
    other: the years of the metrics are the fiscal years of the company's
    records, each once, in strictly ascending order of strings. *)
Theorem dashboard_of_company (s : Db.t) (company_id : Z) :
  reachable s ->
  (Db.company_by_id s company_id = None ->
   get_dashboard_data s company_id = Raise (HTTPException 404))
  /\ (forall company,
        Db.company_by_id s company_id = Some company ->
        exists ms,
          get_dashboard_data s company_id
          = Ok {| DashboardResponse.company := Company.name company;
                  DashboardResponse.metrics := ms |}
          /\ Permutation (map Metric.year ms)
               (map FinancialData.fiscal_year
                    (Db.financial_data_of s company_id))
          /\ NoDup (map Metric.year ms)
          /\ Sorted str_lt (map Metric.year ms)).
Proof.
  intros Hs. split.
  - intros Hc. unfold get_dashboard_data. now rewrite Hc.
  - intros company Hc. unfold get_dashboard_data. rewrite Hc.
    destruct (calculate_financial_metrics_loop
                (Db.financial_data_of s company_id) (Company.name company))
      as (ms & Hcalc & Hloop).
    pose proof (sorted_perm FinancialData.fiscal_year
                  (Db.financial_data_of s company_id)) as Hperm.
    pose proof (metrics_loop_years _ _ Hloop) as Hyears.
    assert (Hsorted : Sorted (fun a b => Py.str_le a b = true)
                             (map Metric.year ms))
      by (rewrite Hyears; apply sorted_keys).
    exists ms. split; [assumption|].
    assert (Hp : Permutation (map Metric.year ms)
                   (map FinancialData.fiscal_year
                        (Db.financial_data_of s company_id))).
    { rewrite Hyears. symmetry. now apply Permutation_map. }
    assert (Hnd : NoDup (map Metric.year ms)).
    { apply Permutation_NoDup with
        (map FinancialData.fiscal_year (Db.financial_data_of s company_id));
        [now symmetry|].
      apply company_years_nodup. apply (reachable_unique_keys Hs). }
    split; [assumption|]. split; [assumption|].
    now apply sorted_nodup_strict.
Qed.

(** The example store after 2019 is submitted last: three years in
    order, and no dashboard for company 9. *)
Lemma dashboard_of_company_witness :
  let s := serve example_store
             (PostFinancialData 1
                (example_body "2019" 700000 300000 100000 50000 1000 40000)) in
  get_dashboard_data s 9 = Raise (HTTPException 404)
  /\ exists ms,
       get_dashboard_data s 1
       = Ok {| DashboardResponse.company := "Acme";
               DashboardResponse.metrics := ms |}
       /\ map Metric.year ms = ["2019"; "2020"; "2021"]
       /\ Sorted str_lt (map Metric.year ms).
Proof.
  intros s.
  assert (Hs : reachable s).
  { unfold s, example_store. cbn [fold_left]. repeat constructor. }
  destruct (dashboard_of_company 1 Hs) as (_ & Hd).
  split; [apply (proj1 (dashboard_of_company 9 Hs)); reflexivity|].
  destruct (Hd (Company.mk 1 "Acme" (Some 1%Z)) eq_refl)
    as (ms & Hcalc & _ & _ & Hsorted).
  exists ms. split; [exact Hcalc|]. split; [|exact Hsorted].
  vm_compute in Hcalc. now injection Hcalc as <-.
Defined.

(** ** The YoY of the ratios *)

Lemma read_yoy_ratio_spec (ratio prev_ratio : option float) :
  read_yoy_ratio ratio prev_ratio
  = match ratio with
    | Some r => calc_percent_change r prev_ratio
    | None => Ok None
    end.
Proof.
  unfold read_yoy_ratio. destruct ratio as [r|]; [|reflexivity].
  destruct (Py.truthy prev_ratio) eqn:Hp; [reflexivity|].
  now rewrite calc_percent_change_falsy.
Qed.

Lemma metric_yoy_ratios (prev data : FinancialData.t) (m : Metric.t) :
  metric_of (Some prev) data = Ok m ->
  read_yoy_ratio (Metric.return_on_assets m)
                 (FinancialData.return_on_assets prev)
  = Ok (Yoy.roa (Metric.yoy m))
  /\ read_yoy_ratio (Metric.return_on_equity m)
                    (FinancialData.return_on_equity prev)
     = Ok (Yoy.roe (Metric.yoy m)).
Proof.
  intros Hm. metric_of_inv Hm.
  match goal with H : bind _ _ = Ok _ |- _ => bind_inv H; injection H as <- end.
  cbn. split; assumption.
Qed.

(** X14.  The entries "roa" and "roe" of the [yoy] mapping compare the ratio
    that the metric reports, stored or derived, with the ratio that the
    preceding record stores: [calc_percent_change] of the two when the
    metric has a ratio, [None] without a preceding record.  A preceding
    record whose ratio is not stored (or is zero) gives [None], also when
    the dashboard derived a ratio for that record's own metric. *)
Theorem yoy_of_ratios (prev_year_data : option FinancialData.t)
  (data : FinancialData.t) :
  exists m,
    metric_of prev_year_data data = Ok m
    /\ Ok (Yoy.roa (Metric.yoy m))
       = recomputed_yoy prev_year_data FinancialData.return_on_assets
           (Metric.return_on_assets m)
    /\ Ok (Yoy.roe (Metric.yoy m))
       = recomputed_yoy prev_year_data FinancialData.return_on_equity
           (Metric.return_on_equity m)
    /\ (forall prev,
          prev_year_data = Some prev ->
          Py.truthy (FinancialData.return_on_assets prev) = false ->
          Yoy.roa (Metric.yoy m) = None)
    /\ (forall prev,
          prev_year_data = Some prev ->
          Py.truthy (FinancialData.return_on_equity prev) = false ->
          Yoy.roe (Metric.yoy m) = None).
Proof.
  destruct (metric_of_total prev_year_data data) as [m Hm].
  exists m. split; [assumption|].
  destruct prev_year_data as [prev|].
  - destruct (@metric_yoy_ratios _ _ _ Hm) as [Hroa Hroe].
    rewrite read_yoy_ratio_spec in Hroa, Hroe.
    unfold recomputed_yoy. repeat split.
    + now destruct (Metric.return_on_assets m).
    + now destruct (Metric.return_on_equity m).
    + intros p [= <-] Hp.
      destruct (Metric.return_on_assets m);
        [rewrite calc_percent_change_falsy in Hroa by assumption|];
        congruence.
    + intros p [= <-] Hp.
      destruct (Metric.return_on_equity m);
        [rewrite calc_percent_change_falsy in Hroe by assumption|];
        congruence.
  - rewrite (@metric_yoy_first _ _ Hm). cbn. repeat split; discriminate.
Qed.

(** Two legacy rows with net profit and total assets and no stored ratio:
    the dashboard derives 0.125 and 0.25 as [return_on_assets], and reports no
    "roa" change between them. *)
Lemma yoy_of_ratios_witness :
  let r2020 := example_row "2020" (Some 800000%float) None
                 (Some 125000%float) None None None None
                 (Some 1000000%float) in
  let r2021 := example_row "2021" (Some 1000000%float) None
                 (Some 250000%float) None None None None
                 (Some 1000000%float) in
  exists m0 m1,
    metric_of None r2020 = Ok m0
    /\ Metric.return_on_assets m0 = Some 0.125%float
    /\ metric_of (Some r2020) r2021 = Ok m1
    /\ Metric.return_on_assets m1 = Some 0.25%float
    /\ Yoy.roa (Metric.yoy m1) = None.
Proof.
  intros r2020 r2021.
  destruct (yoy_of_ratios (Some r2020) r2021) as (m1 & Hm1 & _ & _ & Hroa & _).
  eexists. exists m1. split; [reflexivity|]. split; [reflexivity|].
  split; [exact Hm1|].
  split; [|now apply (Hroa r2020)].
  vm_compute in Hm1. now injection Hm1 as <-.
Defined.

(** ** The figures that the dashboard copies *)

(** X15.  The metric of a record reports its fiscal year as it is, and the
    six required figures with [None] and zero read as [0.0].  [price_high]
    and [price_low] are reported as stored when they are not zero and as
    [None] when they are zero or unset; the other optional figures are
    reported as stored. *)
Theorem dashboard_copied_figures (prev_year_data : option FinancialData.t)
  (data : FinancialData.t) :
  exists m,
    metric_of prev_year_data data = Ok m
    /\ Metric.year m = FinancialData.fiscal_year data
    /\ (Metric.revenue m, Metric.gross_profit m, Metric.operating_profit m,
        Metric.net_profit m, Metric.free_cash_flow m, Metric.number_of_shares m)
       = (Py.float_or_0 (FinancialData.total_revenue data),
          Py.float_or_0 (FinancialData.gross_profit data),
          Py.float_or_0 (FinancialData.operating_profit data),
          Py.float_or_0 (FinancialData.net_profit data),
          Py.float_or_0 (FinancialData.free_cash_flow data),
          Py.float_or_0 (FinancialData.number_of_shares data))
    /\ Metric.price_high m
       = (if Py.truthy (FinancialData.price_high data)
          then FinancialData.price_high data else None)
    /\ Metric.price_low m
       = (if Py.truthy (FinancialData.price_low data)
          then FinancialData.price_low data else None)
    /\ (Metric.eps m, Metric.earning_power m, Metric.dividends_per_share m,
        Metric.dividend_rate m, Metric.return_on_invested_capital m,
        Metric.book_value m, Metric.current_ratio m)
       = (FinancialData.eps data, FinancialData.earning_power data,
          FinancialData.dividends_per_share data,
          FinancialData.dividend_rate data,
          FinancialData.return_on_invested_capital data,
          FinancialData.book_value data, FinancialData.current_ratio data).
Proof.
  destruct (metric_of_total prev_year_data data) as [m Hm].
  exists m. split; [assumption|].
  metric_of_inv Hm. cbn. rewrite !or_same. repeat split.
Qed.

(** A record written by a submit whose body has [price_high = 0] (the
    example bodies do): the stored zero is reported as [None], and the
    [eps] of zero as zero. *)
Lemma dashboard_copied_figures_witness :
  Forall (fun r => FinancialData.price_high r = Some 0%float
                   /\ exists m,
                        metric_of None r = Ok m
                        /\ Metric.price_high m = None
                        /\ Metric.eps m = Some 0%float)
         (Db.financial_data example_store).
Proof.
  apply Forall_forall. intros r Hr.
  destruct (dashboard_copied_figures None r)
    as (m & Hm & _ & _ & Hhigh & _ & Hrest).
  injection Hrest as Heps _ _ _ _ _ _.
  vm_compute in Hr.
  destruct Hr as [<- | [<- | []]]; (split; [reflexivity|]);
    exists m; (split; [exact Hm|]); rewrite Hhigh, Heps; split; reflexivity.
Defined.

(** ** The key of the previous year *)

Lemma int_str_years (y : Z) :
  (1899 <= y <= 2100)%Z -> Py.int (Py.str y) = Ok y.
Proof.
  intros Hy.
  assert (Hall :
    forallb (fun n =>
               match Py.int (Py.str (1899 + Z.of_nat n)) with
               | Ok z => (z =? 1899 + Z.of_nat n)%Z
               | Raise _ => false
               end) (seq 0 202) = true) by (vm_compute; reflexivity).
  rewrite forallb_forall in Hall.
  specialize (Hall (Z.to_nat (y - 1899))).
  replace (1899 + Z.of_nat (Z.to_nat (y - 1899)))%Z with y in Hall by lia.
  destruct (Py.int (Py.str y)) as [z|e].
  - f_equal. apply Z.eqb_eq, Hall. apply in_seq. lia.
  - discriminate Hall. apply in_seq. lia.
Qed.

(** X16.  For a fiscal year that reads as a year of 1900..2100, the key under
    which the write path looks for the previous record is the plain decimal
    string of the year before, which reads back as that year and, after
    1900, is itself a valid fiscal year.  The record found under it has
    exactly that string as fiscal year: a record stored under another
    spelling of its year (one that [int] accepts, such as a leading blank or
    zero) is never the previous record.  For 1900 the key is "1899", which
    no record of a store that the service can be in has. *)
Theorem previous_year_key (fiscal_year : string) (year : Z) :
  Py.int fiscal_year = Ok year -> (1900 <= year <= 2100)%Z ->
  previous_year fiscal_year = Ok (Py.str (year - 1))
  /\ Py.int (Py.str (year - 1)) = Ok (year - 1)%Z
  /\ (year <> 1900%Z ->
      FinancialDataCreate.validate_fiscal_year (Py.str (year - 1))
      = Ok (Py.str (year - 1)))
  /\ (forall s company_id r y,
        Py.int (FinancialData.fiscal_year r) = Ok y ->
        FinancialData.fiscal_year r <> Py.str y ->
        Db.financial_data_by_key s company_id (Py.str (year - 1)) <> Some r)
  /\ (year = 1900%Z ->
      forall s company_id,
        reachable s ->
        Db.financial_data_by_key s company_id (Py.str (year - 1)) = None).
Proof.
  intros Hint Hy.
  assert (Hrt : Py.int (Py.str (year - 1)) = Ok (year - 1)%Z)
    by (apply int_str_years; lia).
  split; [now apply previous_year_ok|]. split; [assumption|].
  split; [|split].
  - intros Hne. unfold FinancialDataCreate.validate_fiscal_year. rewrite Hrt.
    destruct (year - 1 <? 1900)%Z eqn:H1; [lia|].
    destruct (2100 <? year - 1)%Z eqn:H2; [lia | reflexivity].
  - intros s cid r y Hr Hne Hfind.
    pose proof (find_some_true _ _ Hfind) as Hk. apply has_key_iff in Hk.
    destruct Hk as [_ Hfy]. rewrite Hfy in Hr, Hne. congruence.
  - intros -> s cid Hs.
    destruct (Db.financial_data_by_key s cid (Py.str (1900 - 1)))
      as [r|] eqn:Hfind; [|reflexivity].
    pose proof (find_some _ _ Hfind) as [Hin Hk].
    apply has_key_iff in Hk. destruct Hk as [_ Hfy].
    destruct (reachable_valid_figures Hs r Hin) as [Hv _].
    rewrite Hfy in Hv. vm_compute in Hv. discriminate.
Qed.

(** The year 2022 submitted as " 2022", then 2023: the record of 2023 has no
    YoY value, the record of " 2022" not being the one keyed "2022". *)
Lemma previous_year_key_witness :
  let s := serve example_store
             (PostFinancialData 1
                (example_body " 2022" 1100000 500000 300000 200000 1000
                              60000)) in
  map FinancialData.fiscal_year (Db.financial_data s)
  = ["2020"; "2021"; " 2022"]
  /\ previous_year "2023" = Ok "2022"
  /\ Db.financial_data_by_key s 1 "2022" = None
  /\ option_map yoy_columns
       (Db.financial_data_by_key
          (serve s (PostFinancialData 1
                      (example_body "2023" 1200000 600000 400000 300000 1000
                                    70000))) 1 "2023")
     = Some (None, None, None, None, None, None).
Proof.
  intros s.
  destruct (@previous_year_key "2023" 2023 eq_refl ltac:(lia))
    as (Hprev & _ & _ & _ & _).
  split; [reflexivity|]. split; [exact Hprev|]. split; reflexivity.
Defined.

(** ** A figure that does not change *)

Section NoChange.
Local Open Scope float_scope.

Lemma finite_nonzero_inv (p : float) :
  is_finite p = true -> (p =? 0) = false ->
  exists s m e, Prim2SF p = S754_finite s m e.
Proof.
  unfold is_finite, is_nan, is_infinity.
  rewrite !eqb_spec, abs_spec.
  destruct (Prim2SF p) as [ [] | [] | | s m e ]; cbn; try discriminate.
  intros _ _. now exists s, m, e.
Qed.

Lemma sub_self_finite (p : float) (s : bool) (m : positive) (e : Z) :
  Prim2SF p = S754_finite s m e -> p - p = 0.
Proof.
  intros Hp. apply Prim2SF_inj. rewrite sub_spec, Hp.
  unfold SF64sub, SFsub. cbv zeta. now rewrite Z.sub_diag.
Qed.

Lemma zero_div_finite (q : float) (m : positive) (e : Z) :
  Prim2SF q = S754_finite false m e -> 0 / q = 0.
Proof.
  intros Hq. apply Prim2SF_inj. rewrite div_spec, Hq. reflexivity.
Qed.
End NoChange.

(** X17.  For a figure that is finite and not zero and has not changed,
    [calc_percent_change] gives exactly [0.0]. *)
Theorem calc_percent_change_no_change (p : float) :
  is_finite p = true -> (p =? 0)%float = false ->
  calc_percent_change p (Some p) = Ok (Some 0%float).
Proof.
  intros Hfin Hnz.
  destruct (@finite_nonzero_inv p Hfin Hnz) as (s & m & e & Hp).
  rewrite calc_percent_change_nonzero by assumption.
  rewrite (@sub_self_finite p s m e Hp).
  rewrite (@zero_div_finite (abs p) m e) by (now rewrite abs_spec, Hp).
  reflexivity.
Qed.

Lemma calc_percent_change_no_change_witness :
  calc_percent_change (-800000) (Some (-800000)%float) = Ok (Some 0%float).
Proof.
  apply calc_percent_change_no_change; reflexivity.
Defined.

(** ** Submit twice, and update as submit *)

Lemma update_first_same {A : Type} (p : A -> bool) (l : list A) (x : A) :
  find p l = Some x -> Db.update_first p x l = l.
Proof.
  induction l as [|y l IH]; cbn; [reflexivity|].
  destruct (p y); [now intros [= ->] | intros H; now rewrite IH].
Qed.

Lemma calculated_eq (c1 c2 : Calculated.t) :
  (Calculated.gross_profit_margin c1, Calculated.operating_profit_margin c1,
   Calculated.net_profit_margin c1)
  = (Calculated.gross_profit_margin c2, Calculated.operating_profit_margin c2,
     Calculated.net_profit_margin c2) ->
  (Calculated.revenue_yoy_change c1, Calculated.gross_profit_yoy_change c1,
   Calculated.operating_profit_yoy_change c1,
   Calculated.net_profit_yoy_change c1,
   Calculated.free_cash_flow_yoy_change c1,
   Calculated.book_value_yoy_change c1)
  = (Calculated.revenue_yoy_change c2, Calculated.gross_profit_yoy_change c2,
     Calculated.operating_profit_yoy_change c2,
     Calculated.net_profit_yoy_change c2,
     Calculated.free_cash_flow_yoy_change c2,
     Calculated.book_value_yoy_change c2) ->
  c1 = c2.
Proof. destruct c1, c2; cbn. congruence. Qed.

(** The calculation reads the store at the previous year's key only. *)
Lemma calculate_same_previous (s1 s2 : Db.t) (company_id : Z)
  (fiscal_year py : string) (financial_data : FinancialDataCreate.t) :
  previous_year fiscal_year = Ok py ->
  Db.financial_data_by_key s1 company_id py
  = Db.financial_data_by_key s2 company_id py ->
  calculate s1 company_id fiscal_year financial_data
  = calculate s2 company_id fiscal_year financial_data.
Proof.
  intros Hpy Hsame.
  destruct (calculate_spec s1 company_id fiscal_year financial_data Hpy)
    as (c1 & -> & Hm1 & Hy1).
  destruct (calculate_spec s2 company_id fiscal_year financial_data Hpy)
    as (c2 & -> & Hm2 & Hy2).
  f_equal. apply calculated_eq; congruence.
Qed.

Lemma previous_key_differs (fiscal_year : string) (year : Z) :
  Py.int fiscal_year = Ok year -> (1900 <= year <= 2100)%Z ->
  Py.str (year - 1) <> fiscal_year.
Proof.
  intros Hint Hy Heq.
  assert (Hrt : Py.int (Py.str (year - 1)) = Ok (year - 1)%Z)
    by (apply int_str_years; lia).
  rewrite Heq, Hint in Hrt. injection Hrt. lia.
Qed.

(** X18.  Submit is idempotent: after a submit that succeeds, the same
    submit again returns the same record, field for field, and leaves the
    store exactly as the first one left it. *)
Theorem submit_idempotent (s s1 : Db.t) (company_id : Z)
  (body : FinancialDataCreate.t) (r1 : FinancialData.t) :
  submit s company_id body = (s1, Ok r1) ->
  submit s1 company_id body = (s1, Ok r1).
Proof.
  intros H1.
  destruct (submit_ok_inv _ _ _ H1) as (Hv & company & Hcompany).
  destruct (submit_stores _ _ _ H1) as (Hcs & Hrow1).
  destruct (validate_ok_inv _ Hv) as (_ & year & Hint & Hyear & _).
  pose proof (previous_year_ok _ Hint) as Hpy.
  set (fy := FinancialDataCreate.fiscal_year body) in *.
  assert (Hcompany1 : Db.company_by_id s1 company_id = Some company)
    by (unfold Db.company_by_id in *; now rewrite Hcs).
  assert (Hprev : Db.financial_data_by_key s1 company_id (Py.str (year - 1))
                  = Db.financial_data_by_key s company_id (Py.str (year - 1))).
  { replace s1 with (fst (create_financial_data s company_id body)).
    - apply create_financial_data_frame.
      intros [= Heq]. now apply (@previous_key_differs fy year Hint Hyear).
    - unfold submit in H1. rewrite Hv in H1. now rewrite H1. }
  pose proof (@calculate_same_previous s1 s company_id fy _ body Hpy Hprev)
    as Hcalc.
  assert (Hr1 : exists c,
            calculate s company_id fy body = Ok c
            /\ set_calculated c (setattr_items false body r1) = r1).
  { unfold submit in H1. rewrite Hv in H1. unfold create_financial_data in H1.
    fold fy in H1. rewrite Hcompany in H1.
    destruct (calculate s company_id fy body) as [c|e]; [|discriminate].
    exists c. split; [reflexivity|].
    destruct (Db.financial_data_by_key s company_id fy) as [old|].
    - injection H1 as _ <-. reflexivity.
    - unfold Db.add_financial_data in H1.
      destruct (existsb _ _); [discriminate|].
      injection H1 as _ <-. reflexivity. }
  destruct Hr1 as (c & Hc & Hfix).
  unfold submit. rewrite Hv. unfold create_financial_data. fold fy.
  rewrite Hcompany1, Hcalc, Hc, Hrow1, Hfix.
  rewrite (update_first_same _ _ Hrow1). now destruct s1.
Qed.

(** The year 2021 of the example store submitted with new figures, twice. *)
Lemma submit_idempotent_witness :
  let body := example_body "2021" 1200000 500000 300000 200000 1000 60000 in
  exists s1 r1,
    submit example_store 1 body = (s1, Ok r1)
    /\ submit s1 1 body = (s1, Ok r1)
    /\ FinancialData.revenue_yoy_change r1 = Some 50%float.
Proof.
  intros body.
  assert (H1 : exists s1 r1, submit example_store 1 body = (s1, Ok r1))
    by (vm_compute; do 2 eexists; reflexivity).
  destruct H1 as (s1 & r1 & H1).
  exists s1, r1. split; [exact H1|].
  split; [exact (@submit_idempotent _ _ _ _ _ H1)|].
  replace r1 with (match snd (submit example_store 1 body) with
                   | Ok r => r
                   | Raise _ => r1
                   end) by now rewrite H1.
  reflexivity.
Defined.

(** X19.  For a record that exists, of a company that exists, an update
    under the fiscal year of its own body is the submit of that body: the
    same outcome and the same store. *)
Theorem update_is_submit (s : Db.t) (company_id : Z)
  (body : FinancialDataCreate.t) :
  Db.company_by_id s company_id <> None ->
  Db.financial_data_by_key s company_id (FinancialDataCreate.fiscal_year body)
  <> None ->
  update s company_id (FinancialDataCreate.fiscal_year body) body
  = submit s company_id body.
Proof.
  intros Hc Hrow. unfold update, submit.
  destruct (FinancialDataCreate.validate body) as [fd|] eqn:Hv;
    [|reflexivity].
  destruct (validate_ok_inv _ Hv) as (-> & year & Hint & _).
  unfold update_financial_data, create_financial_data.
  destruct (Db.company_by_id s company_id); [clear Hc | congruence].
  destruct (Db.financial_data_by_key s company_id _) as [old|] eqn:Hold;
    [clear Hrow | congruence].
  destruct (calculate_spec s company_id
              (FinancialDataCreate.fiscal_year body) body
              (previous_year_ok _ Hint)) as (c & -> & _).
  pose proof (find_some_true _ _ Hold) as Hk. apply has_key_iff in Hk.
  destruct Hk as [_ Hfy].
  assert (Hsame : setattr_items true body old = setattr_items false body old)
    by (unfold setattr_items; now rewrite Hfy).
  now rewrite Hsame.
Qed.

Lemma update_is_submit_witness :
  let body := example_body "2021" 1200000 500000 300000 200000 1000 60000 in
  update example_store 1 "2021" body = submit example_store 1 body.
Proof.
  intros body.
  apply (@update_is_submit example_store 1 body); vm_compute; discriminate.
Defined.

(** ** The YoY columns that a submit writes *)

Lemma write_yoy_some_inv (financial_data : FinancialDataCreate.t)
  (previous_data : FinancialData.t)
  (y : option float * option float * option float
       * option float * option float * option float) :
  write_yoy financial_data (Some previous_data) = Ok y ->
  let '(revenue, gross_profit, operating_profit, net_profit, free_cash_flow,
        book_value) := y in
  calc_percent_change (FinancialDataCreate.total_revenue financial_data)
                      (FinancialData.total_revenue previous_data)
  = Ok revenue
  /\ calc_percent_change (FinancialDataCreate.gross_profit financial_data)
                         (FinancialData.gross_profit previous_data)
     = Ok gross_profit
  /\ calc_percent_change (FinancialDataCreate.operating_profit financial_data)
                         (FinancialData.operating_profit previous_data)
     = Ok operating_profit
  /\ calc_percent_change (FinancialDataCreate.net_profit financial_data)
                         (FinancialData.net_profit previous_data)
     = Ok net_profit
  /\ calc_percent_change (FinancialDataCreate.free_cash_flow financial_data)
                         (FinancialData.free_cash_flow previous_data)
     = Ok free_cash_flow
  /\ match FinancialDataCreate.book_value financial_data,
           FinancialData.book_value previous_data with
     | Some bv, Some prev_bv => calc_percent_change bv (Some prev_bv)
     | _, _ => Ok None
     end = Ok book_value.
Proof.
  intros H. unfold write_yoy in H. bind_inv H. injection H as <-.
  repeat split; assumption.
Qed.

(** X20.  A submit with a valid body for a known company whose store has a
    record under the previous year's key writes, for each of revenue, gross
    profit, operating profit, net profit and free cash flow,
    [calc_percent_change] of the body's figure and that record's; the book
    value change is computed when both book values are present and is unset
    otherwise.  In a store that the service can be in the previous revenue
    is greater than zero, so the revenue change is always set. *)
Theorem submit_writes_yoy (s : Db.t) (company_id : Z)
  (body : FinancialDataCreate.t) (year : Z) (previous_data : FinancialData.t) :
  FinancialDataCreate.validate body = Ok body ->
  Py.int (FinancialDataCreate.fiscal_year body) = Ok year ->
  Db.company_by_id s company_id <> None ->
  Db.financial_data_by_key s company_id (Py.str (year - 1))
  = Some previous_data ->
  exists s' r,
    submit s company_id body = (s', Ok r)
    /\ calc_percent_change (FinancialDataCreate.total_revenue body)
                           (FinancialData.total_revenue previous_data)
       = Ok (FinancialData.revenue_yoy_change r)
    /\ calc_percent_change (FinancialDataCreate.gross_profit body)
                           (FinancialData.gross_profit previous_data)
       = Ok (FinancialData.gross_profit_yoy_change r)
    /\ calc_percent_change (FinancialDataCreate.operating_profit body)
                           (FinancialData.operating_profit previous_data)
       = Ok (FinancialData.operating_profit_yoy_change r)
    /\ calc_percent_change (FinancialDataCreate.net_profit body)
                           (FinancialData.net_profit previous_data)
       = Ok (FinancialData.net_profit_yoy_change r)
    /\ calc_percent_change (FinancialDataCreate.free_cash_flow body)
                           (FinancialData.free_cash_flow previous_data)
       = Ok (FinancialData.free_cash_flow_yoy_change r)
    /\ match FinancialDataCreate.book_value body,
             FinancialData.book_value previous_data with
       | Some bv, Some prev_bv => calc_percent_change bv (Some prev_bv)
       | _, _ => Ok None
       end = Ok (FinancialData.book_value_yoy_change r)
    /\ (reachable s ->
        exists prev_revenue,
          FinancialData.total_revenue previous_data = Some prev_revenue
          /\ FinancialData.revenue_yoy_change r
             = Some (Py.round2
                       ((FinancialDataCreate.total_revenue body - prev_revenue)
                        / abs prev_revenue * 100)%float)).
Proof.
  intros Hv Hint Hc Hprev.
  destruct (Db.company_by_id s company_id) as [company|] eqn:Hcompany;
    [clear Hc | congruence].
  pose proof (previous_year_ok _ Hint) as Hpy.
  destruct (calculate_spec s company_id
              (FinancialDataCreate.fiscal_year body) body Hpy)
    as (c & Hcalc & _ & Hyoy).
  destruct (create_financial_data_ok s company_id body Hcompany Hpy)
    as (c' & Hcalc' & Hcreate).
  assert (c' = c) by congruence. subst c'.
  rewrite Hprev in Hyoy.
  pose proof (write_yoy_some_inv _ _ Hyoy) as Hinv. cbv beta iota in Hinv.
  destruct Hinv as (H1 & H2 & H3 & H4 & H5 & H6).
  assert (Hsub : submit s company_id body
                 = create_financial_data s company_id body)
    by (unfold submit; now rewrite Hv).
  assert (Hrev :
    reachable s ->
    exists prev_revenue,
      FinancialData.total_revenue previous_data = Some prev_revenue
      /\ Calculated.revenue_yoy_change c
         = Some (Py.round2
                   ((FinancialDataCreate.total_revenue body - prev_revenue)
                    / abs prev_revenue * 100)%float)).
  { intros Hs.
    pose proof (find_some _ _ Hprev) as [Hin _].
    destruct (reachable_valid_figures Hs previous_data Hin)
      as (_ & tr & gp & op & np & ns & Htr & _ & _ & _ & _ & Hpos & _).
    exists tr. split; [assumption|].
    rewrite Htr in H1.
    rewrite calc_percent_change_nonzero in H1
      by (now apply ltb_0_eqb_0).
    congruence. }
  destruct (Db.financial_data_by_key s company_id
              (FinancialDataCreate.fiscal_year body)) as [old|];
    cbv zeta in Hcreate; rewrite <- Hsub in Hcreate;
    do 2 eexists; (split; [exact Hcreate|]);
    cbn [set_calculated new_financial_data
         FinancialData.revenue_yoy_change
         FinancialData.gross_profit_yoy_change
         FinancialData.operating_profit_yoy_change
         FinancialData.net_profit_yoy_change
         FinancialData.free_cash_flow_yoy_change
         FinancialData.book_value_yoy_change];
    (repeat (split; [assumption|])); exact Hrev.
Qed.

(** The year 2022 submitted to the example store, which has 2021 with a
    revenue of 1,000,000: 20 percent. *)
Lemma submit_writes_yoy_witness :
  exists s' r previous_data,
    Db.financial_data_by_key example_store 1 "2021" = Some previous_data
    /\ submit example_store 1
         (example_body "2022" 1200000 600000 400000 300000 1000 70000)
       = (s', Ok r)
    /\ FinancialData.revenue_yoy_change r = Some 20%float
    /\ FinancialData.book_value_yoy_change r = None.
Proof.
  assert (Hp : exists p,
            Db.financial_data_by_key example_store 1 "2021" = Some p)
    by (vm_compute; eexists; reflexivity).
  destruct Hp as (p & Hp).
  destruct (@submit_writes_yoy example_store 1
              (example_body "2022" 1200000 600000 400000 300000 1000 70000)
              2022 p eq_refl eq_refl)
    as (s' & r & Hs & _ & _ & _ & _ & _ & Hbv & Hrev).
  - vm_compute. discriminate.
  - exact Hp.
  - exists s', r, p. split; [exact Hp|]. split; [exact Hs|].
    assert (Hr : r = match snd (submit example_store 1
                       (example_body "2022" 1200000 600000 400000 300000
                                     1000 70000)) with
                     | Ok r' => r'
                     | Raise _ => r
                     end) by now rewrite Hs.
    split; rewrite Hr; reflexivity.
Defined.
